(** * task-flow notification service: presence store, offline queue,
      event consumer, recipient resolution and socket handlers.

    A shallow embedding of the notification service
      - config/redis.js: presence and offline-notification helpers,
      - config/rabbitmq.js: [startConsumers] and [handleTaskEvent],
      - handlers/socketHandlers.js: the handlers of a session,
      - server.js: the rooms joined on connection,
    together with the properties the specification states about them.

    Conventions.
      - An [async] function is a computation in the monad [eff]: it threads
        the state of the outside world and either returns or throws.
      - [new Date().toISOString()], [Date.now()] and [Math.random()] are
        inputs of the functions that read them.
      - [console.log] and [console.error] have no effect on any value
        studied here and are left out.
      - User ids in task events are strings: the Task schema declares
        every [userId] as [String], and the task service publishes the
        [x-user-id] header. The id of the user of a socket is the [id]
        claim of the token; [user_id] is its text, as a template literal
        renders it, and the presence calls [storeUserSession_id] and
        [removeUserSession_id] say what changes when it is a number. *)

From Stdlib Require Import ZArith String Ascii List Lia.
From stdpp Require Import base option gmap strings list fin_maps.

Local Open Scope string_scope.
Local Open Scope Z_scope.
Set Warnings "-register-all".

(* ===================================================================== *)
(** ** JavaScript values and control flow *)
(* ===================================================================== *)

(** JSON data. Objects nested inside a value keep their fields in source
    order; a top-level object that the code spreads or extends is a finite
    map from property names ([js_object]). *)
Inductive json : Type :=
| JNull
| JBool (b : bool)
| JNum (n : Z)
| JStr (s : string)
| JArr (items : list json)
| JObj (fields : list (string * json)).

Abbreviation js_object := (gmap string json).

(** The result of running a piece of JavaScript: a value, or an exception. *)
Inductive outcome (A : Type) : Type :=
| Returned (a : A)
| Thrown (err : string).
Arguments Returned {A} a.
Arguments Thrown {A} err.

Definition is_returned {A} (o : outcome A) : bool :=
  match o with Returned _ => true | Thrown _ => false end.

(** An effectful computation over a world of type [W]. The world survives
    an exception: whatever was done before the throw stays done. *)
Definition eff (W A : Type) : Type := W -> outcome A * W.

Definition ret {W A} (a : A) : eff W A := fun w => (Returned a, w).

Definition throw {W A} (err : string) : eff W A := fun w => (Thrown err, w).

Definition bind {W A B} (m : eff W A) (k : A -> eff W B) : eff W B :=
  fun w => match m w with
           | (Returned a, w') => k a w'
           | (Thrown e, w') => (Thrown e, w')
           end.

(** [try { m } catch (err) { h err }] *)
Definition try_catch {W A} (m : eff W A) (h : string -> eff W A) : eff W A :=
  fun w => match m w with
           | (Returned a, w') => (Returned a, w')
           | (Thrown e, w') => h e w'
           end.

Declare Scope eff_scope.
Delimit Scope eff_scope with eff.
Notation "'const' x ':=' 'await' c ';' k" := (bind c (fun x => k))
  (at level 10, x name, c at level 100, k at level 200) : eff_scope.
Notation "'await' c ';' k" := (bind c (fun _ => k))
  (at level 10, c at level 100, k at level 200) : eff_scope.
Local Open Scope eff_scope.


(** A text held by the store: what [JSON.stringify] produced from an
    object, or a text that [JSON.parse] rejects. *)
Inductive text : Type :=
| Stringified (o : js_object)
| Malformed.

Definition JSON_stringify (o : js_object) : text := Stringified o.

Definition JSON_parse {W} (t : text) : eff W js_object :=
  match t with
  | Stringified o => ret o
  | Malformed => throw "SyntaxError"
  end.

(* ===================================================================== *)
(** ** The Redis client *)
(* ===================================================================== *)

(** The commands of the [redis] package that redis.js calls. Every command
    is asynchronous and may reject. Counts that the commands report and the
    code discards are not returned. *)
Record RedisClient (W : Type) : Type := {
  setEx : string -> Z -> text -> eff W unit;
  get : string -> eff W (option text);
  del : string -> eff W unit;
  sAdd : string -> string -> eff W unit;
  sRem : string -> string -> eff W unit;
  sMembers : string -> eff W (list string);
  lPush : string -> text -> eff W unit;
  lTrim : string -> Z -> Z -> eff W unit;
  lRange : string -> Z -> Z -> eff W (list text);
  expire : string -> Z -> eff W unit
}.
Arguments setEx {W} _ _ _ _.
Arguments get {W} _ _.
Arguments del {W} _ _.
Arguments sAdd {W} _ _ _.
Arguments sRem {W} _ _ _.
Arguments sMembers {W} _ _.
Arguments lPush {W} _ _ _.
Arguments lTrim {W} _ _ _ _.
Arguments lRange {W} _ _ _ _.
Arguments expire {W} _ _ _.

(** A client whose server cannot be reached: every command rejects and
    nothing changes. *)
Definition unreachable (W : Type) : RedisClient W := {|
  setEx := fun _ _ _ => throw "ECONNREFUSED";
  get := fun _ => throw "ECONNREFUSED";
  del := fun _ => throw "ECONNREFUSED";
  sAdd := fun _ _ => throw "ECONNREFUSED";
  sRem := fun _ _ => throw "ECONNREFUSED";
  sMembers := fun _ => throw "ECONNREFUSED";
  lPush := fun _ _ => throw "ECONNREFUSED";
  lTrim := fun _ _ _ => throw "ECONNREFUSED";
  lRange := fun _ _ _ => throw "ECONNREFUSED";
  expire := fun _ _ => throw "ECONNREFUSED"
|}.

(** *** A reachable server *)

(** One keyspace; a key holds a string, a set or a list, and a command of
    the wrong family is refused with WRONGTYPE. Time does not pass inside
    the model: a time-to-live is recorded, never acted on. *)
Inductive rvalue : Type :=
| RString (t : text)
| RSet (members : gset string)
| RList (items : list text).

Record redis : Type := {
  keyspace : gmap string rvalue;
  ttl : gmap string Z
}.

Definition redis_empty : redis := {| keyspace := ∅; ttl := ∅ |}.

Definition put_key (k : string) (v : rvalue) (r : redis) : redis :=
  {| keyspace := <[k := v]> (keyspace r); ttl := ttl r |}.

Definition drop_key (k : string) (r : redis) : redis :=
  {| keyspace := delete k (keyspace r); ttl := delete k (ttl r) |}.

(** Redis list ranges: negative indices count from the tail, the bounds
    are inclusive and clamped to the list. *)
Definition lrange_items (l : list text) (start stop : Z) : list text :=
  let llen := Z.of_nat (length l) in
  let start := if start <? 0 then llen + start else start in
  let stop := if stop <? 0 then llen + stop else stop in
  let start := if start <? 0 then 0 else start in
  if (start >? stop) || (start >=? llen) then []
  else
    let stop := if stop >=? llen then llen - 1 else stop in
    take (Z.to_nat (stop - start + 1)) (drop (Z.to_nat start) l).

Definition live_setEx (k : string) (seconds : Z) (v : text) : eff redis unit :=
  fun r =>
    if seconds <=? 0 then (Thrown "ERR invalid expire time", r)
    else (Returned tt,
          {| keyspace := <[k := RString v]> (keyspace r);
             ttl := <[k := seconds]> (ttl r) |}).

Definition live_get (k : string) : eff redis (option text) :=
  fun r =>
    match keyspace r !! k with
    | None => (Returned None, r)
    | Some (RString t) => (Returned (Some t), r)
    | Some _ => (Thrown "WRONGTYPE", r)
    end.

Definition live_del (k : string) : eff redis unit :=
  fun r => (Returned tt, drop_key k r).

Definition live_sAdd (k member : string) : eff redis unit :=
  fun r =>
    match keyspace r !! k with
    | None => (Returned tt, put_key k (RSet {[member]}) r)
    | Some (RSet s) => (Returned tt, put_key k (RSet ({[member]} ∪ s)) r)
    | Some _ => (Thrown "WRONGTYPE", r)
    end.

Definition live_sRem (k member : string) : eff redis unit :=
  fun r =>
    match keyspace r !! k with
    | None => (Returned tt, r)
    | Some (RSet s) =>
        let s' := s ∖ {[member]} in
        if decide (s' = ∅) then (Returned tt, drop_key k r)
        else (Returned tt, put_key k (RSet s') r)
    | Some _ => (Thrown "WRONGTYPE", r)
    end.

Definition live_sMembers (k : string) : eff redis (list string) :=
  fun r =>
    match keyspace r !! k with
    | None => (Returned [], r)
    | Some (RSet s) => (Returned (elements s), r)
    | Some _ => (Thrown "WRONGTYPE", r)
    end.

Definition live_lPush (k : string) (v : text) : eff redis unit :=
  fun r =>
    match keyspace r !! k with
    | None => (Returned tt, put_key k (RList [v]) r)
    | Some (RList l) => (Returned tt, put_key k (RList (v :: l)) r)
    | Some _ => (Thrown "WRONGTYPE", r)
    end.

Definition live_lTrim (k : string) (start stop : Z) : eff redis unit :=
  fun r =>
    match keyspace r !! k with
    | None => (Returned tt, r)
    | Some (RList l) =>
        match lrange_items l start stop with
        | [] => (Returned tt, drop_key k r)
        | l' => (Returned tt, put_key k (RList l') r)
        end
    | Some _ => (Thrown "WRONGTYPE", r)
    end.

Definition live_lRange (k : string) (start stop : Z) : eff redis (list text) :=
  fun r =>
    match keyspace r !! k with
    | None => (Returned [], r)
    | Some (RList l) => (Returned (lrange_items l start stop), r)
    | Some _ => (Thrown "WRONGTYPE", r)
    end.

Definition live_expire (k : string) (seconds : Z) : eff redis unit :=
  fun r =>
    match keyspace r !! k with
    | None => (Returned tt, r)
    | Some _ =>
        (Returned tt,
         {| keyspace := keyspace r; ttl := <[k := seconds]> (ttl r) |})
    end.

Definition live : RedisClient redis := {|
  setEx := live_setEx;
  get := live_get;
  del := live_del;
  sAdd := live_sAdd;
  sRem := live_sRem;
  sMembers := live_sMembers;
  lPush := live_lPush;
  lTrim := live_lTrim;
  lRange := live_lRange;
  expire := live_expire
|}.

(* ===================================================================== *)
(** ** config/redis.js *)
(* ===================================================================== *)

Section RedisJs.
Context {W : Type}.
(** [let client = null], assigned by [connectRedis]. *)
Variable client : option (RedisClient W).

(** [{ socketId, ...userData, lastSeen: now }]: a property of [userData]
    overrides [socketId], and [lastSeen] overrides both. *)
Definition session_record (socketId : string) (userData : js_object)
    (now : string) : js_object :=
  <["lastSeen" := JStr now]> (userData ∪ {["socketId" := JStr socketId]}).

Definition storeUserSession (userId socketId : string)
    (userData : js_object) (now : string) : eff W unit :=
  match client with
  | None => ret tt
  | Some client =>
      try_catch
        (let sessionKey := "user_session:" +:+ userId in
         let sessionData := session_record socketId userData now in
         await setEx client sessionKey 3600 (JSON_stringify sessionData);
         await sAdd client "online_users" userId;
         ret tt)
        (fun _ => ret tt)
  end.

Definition removeUserSession (userId : string) : eff W unit :=
  match client with
  | None => ret tt
  | Some client =>
      try_catch
        (let sessionKey := "user_session:" +:+ userId in
         await del client sessionKey;
         await sRem client "online_users" userId;
         ret tt)
        (fun _ => ret tt)
  end.

(** [null] is [None]. *)
Definition getUserSession (userId : string) : eff W (option js_object) :=
  match client with
  | None => ret None
  | Some client =>
      try_catch
        (let sessionKey := "user_session:" +:+ userId in
         const sessionData := await get client sessionKey;
         match sessionData with
         | Some t => const o := await JSON_parse t; ret (Some o)
         | None => ret None
         end)
        (fun _ => ret None)
  end.

(** The [for ... of] loop of [getOnlineUsers]; [sessions] is the array
    being filled. *)
Fixpoint collect_sessions (userIds : list string)
    (sessions : list js_object) : eff W (list js_object) :=
  match userIds with
  | [] => ret sessions
  | userId :: rest =>
      const session := await getUserSession userId;
      match session with
      | Some session =>
          (* { userId, ...session } *)
          collect_sessions rest
            (sessions ++ [session ∪ {["userId" := JStr userId]}])
      | None => collect_sessions rest sessions
      end
  end.

Definition getOnlineUsers : eff W (list js_object) :=
  match client with
  | None => ret []
  | Some client =>
      try_catch
        (const userIds := await sMembers client "online_users";
         collect_sessions userIds [])
        (fun _ => ret [])
  end.

(** [stamp] is the rendering of [Date.now()], [suffix] that of
    [Math.random().toString(36).substr(2, 9)]. *)
Definition offline_entry (notification : js_object)
    (stamp suffix : string) : js_object :=
  (* { ...notification, id: `${stamp}_${suffix}`, stored: true } *)
  <["stored" := JBool true]>
    (<["id" := JStr (stamp +:+ "_" +:+ suffix)]> notification).

Definition storeOfflineNotification (userId : string)
    (notification : js_object) (stamp suffix : string) : eff W unit :=
  match client with
  | None => ret tt
  | Some client =>
      try_catch
        (let notificationKey := "notifications:" +:+ userId in
         let notificationData := offline_entry notification stamp suffix in
         await lPush client notificationKey (JSON_stringify notificationData);
         await lTrim client notificationKey 0 49;
         await expire client notificationKey (7 * 24 * 60 * 60);
         ret tt)
        (fun _ => ret tt)
  end.

(** [notifications.map(n => JSON.parse(n))] *)
Fixpoint parse_all (notifications : list text) : eff W (list js_object) :=
  match notifications with
  | [] => ret []
  | n :: rest =>
      const o := await JSON_parse n;
      const os := await parse_all rest;
      ret (o :: os)
  end.

Definition getOfflineNotifications (userId : string)
    : eff W (list js_object) :=
  match client with
  | None => ret []
  | Some client =>
      try_catch
        (let notificationKey := "notifications:" +:+ userId in
         const notifications := await lRange client notificationKey 0 (-1);
         parse_all notifications)
        (fun _ => ret [])
  end.

Definition clearOfflineNotifications (userId : string) : eff W unit :=
  match client with
  | None => ret tt
  | Some client =>
      try_catch
        (let notificationKey := "notifications:" +:+ userId in
         await del client notificationKey;
         ret tt)
        (fun _ => ret tt)
  end.

End RedisJs.


(* ===================================================================== *)
(** ** Socket.IO: rooms and emissions *)
(* ===================================================================== *)

(** [socket.user], attached by [authenticateSocket]. *)
Record user : Type := {
  user_id : string;
  user_email : string;
  user_role : string
}.

(** The addressee of an [emit]. *)
Inductive target : Type :=
| ToRoom (room : string)      (* io.to(room).emit(...) *)
| ToAll                       (* io.emit(...) *)
| ToSocket (sid : string).    (* socket.emit(...) *)

(** A reference to a user inside a task snapshot. *)
Record user_ref : Type := {
  ref_userId : string;
  ref_email : string;
  ref_name : string
}.

Record comment : Type := {
  content : string;
  mentions : option (list user_ref)
}.

(** The task snapshot carried by an event, of the shape that task-service
    publishes: [watchers] and [mentions] are arrays of user references. An
    absent property is [None]. *)
Record task : Type := {
  _id : string;
  title : string;
  status : string;
  assignedTo : option user_ref;
  createdBy : option user_ref;
  watchers : option (list user_ref);
  newComment : option comment
}.

(** The parsed message of the [task_events] exchange. A payload without a
    [task] property parses, and has [event_task = None]. *)
Record event : Type := {
  eventType : string;
  event_task : option task;
  event_userId : string;
  event_timestamp : string
}.

Record notification_data : Type := {
  data_taskId : string;
  data_eventType : string;
  data_task : task;
  data_comment : option comment
}.

(** [title] and [message] are absent until a branch of the switch sets
    them. *)
Record notification : Type := {
  n_type : string;
  n_title : option string;
  n_message : option string;
  n_timestamp : string;
  n_data : notification_data
}.

Definition set_title (s : string) (n : notification) : notification :=
  {| n_type := n_type n; n_title := Some s; n_message := n_message n;
     n_timestamp := n_timestamp n; n_data := n_data n |}.

Definition set_message (s : string) (n : notification) : notification :=
  {| n_type := n_type n; n_title := n_title n; n_message := Some s;
     n_timestamp := n_timestamp n; n_data := n_data n |}.

Definition set_comment (c : option comment) (n : notification) : notification :=
  {| n_type := n_type n; n_title := n_title n; n_message := n_message n;
     n_timestamp := n_timestamp n;
     n_data := {| data_taskId := data_taskId (n_data n);
                  data_eventType := data_eventType (n_data n);
                  data_task := data_task (n_data n);
                  data_comment := c |} |}.

(** The [task:update] payload. *)
Record task_update : Type := {
  tu_eventType : string;
  tu_task : task;
  tu_userId : string;
  tu_timestamp : string
}.

Record online_user : Type := {
  ou_userId : string;
  ou_email : string;
  ou_role : string
}.

Inductive payload : Type :=
| PNotification (n : notification)
| PTaskUpdate (u : task_update)
| POffline (notifications : list js_object)
| POnlineUsers (users : list online_user)
| PNothing.

Record emission : Type := {
  em_to : target;
  em_event : string;
  em_payload : payload
}.

(** The server object [io]: what has been emitted so far, oldest first. *)
Abbreviation io := (list emission).

Definition emit (to : target) (ev : string) (p : payload) : eff io unit :=
  fun out => (Returned tt,
              (out ++ [{| em_to := to; em_event := ev; em_payload := p |}])%list).

(** [array.forEach(f)] *)
Fixpoint forEach {W A} (l : list A) (f : A -> eff W unit) : eff W unit :=
  match l with
  | [] => ret tt
  | x :: rest => await f x; forEach rest f
  end.

(** server.js, [io.on('connection')]: the rooms a session is put in. *)
Definition joined_rooms (u : user) : list string :=
  ["user:" +:+ user_id u; "role:" +:+ user_role u].

(** An emission reaches a session of [u] that is still in the two rooms
    joined at connection and has joined no other since. The rooms of a
    session change with [join:room] and [leave:room]; statements about
    arbitrary sessions take the set of rooms as a parameter. *)
Definition reaches (e : emission) (u : user) : bool :=
  match em_to e with
  | ToRoom room => bool_decide (room ∈ joined_rooms u)
  | ToAll => true
  | ToSocket _ => false
  end.

(* ===================================================================== *)
(** ** config/rabbitmq.js *)
(* ===================================================================== *)

(** The double quote character of the message templates. *)
Definition dq : string := String (ascii_of_nat 34) EmptyString.

(** JavaScript truthiness of a string. *)
Definition truthy (s : string) : bool := negb (bool_decide (s = EmptyString)).

(** [who?.userId && who.userId !== userId]: the id to notify, if any. *)
Definition other_than (userId : string) (who : option user_ref) : option string :=
  match who with
  | Some r =>
      if truthy (ref_userId r) && negb (bool_decide (ref_userId r = userId))
      then Some (ref_userId r) else None
  | None => None
  end.

(** [task.watchers?.forEach(watcher => { if (watcher.userId !== userId)
    io.to(`user:${watcher.userId}`).emit('notification', notification) })] *)
Definition notify_watchers (task : task) (userId : string)
    (n : notification) : eff io unit :=
  match watchers task with
  | Some ws =>
      forEach ws (fun watcher =>
        if negb (bool_decide (ref_userId watcher = userId))
        then emit (ToRoom ("user:" +:+ ref_userId watcher))
                  "notification" (PNotification n)
        else ret tt)
  | None => ret tt
  end.

(** [if (who?.userId && who.userId !== userId)
      io.to(`user:${who.userId}`).emit('notification', n)] *)
Definition notify_other (who : option user_ref) (userId : string)
    (n : notification) : eff io unit :=
  match other_than userId who with
  | Some uid => emit (ToRoom ("user:" +:+ uid)) "notification" (PNotification n)
  | None => ret tt
  end.

(** The statement after the switch. *)
Definition emit_task_update (ev : event) (task : task) : eff io unit :=
  emit ToAll "task:update"
    (PTaskUpdate {| tu_eventType := eventType ev; tu_task := task;
                    tu_userId := event_userId ev;
                    tu_timestamp := event_timestamp ev |}).

Definition handleTaskEvent (ev : event) (now : string) : eff io unit :=
  let userId := event_userId ev in
  match event_task ev with
  | None => throw "TypeError"   (* task._id of undefined *)
  | Some task =>
      let notification :=
        {| n_type := "task_update"; n_title := None; n_message := None;
           n_timestamp := now;
           n_data := {| data_taskId := _id task;
                        data_eventType := eventType ev;
                        data_task := task;
                        data_comment := None |} |} in
      if bool_decide (eventType ev = "created") then
        let notification :=
          set_message ("Task " +:+ dq +:+ title task +:+ dq +:+ " has been created")
            (set_title "New Task Created" notification) in
        await notify_other (assignedTo task) userId
          (set_message
             ("You have been assigned a new task: " +:+ dq +:+ title task +:+ dq)
             notification);
        await emit (ToRoom "role:project_manager") "notification"
                   (PNotification notification);
        await emit (ToRoom "role:admin") "notification"
                   (PNotification notification);
        emit_task_update ev task
      else if bool_decide (eventType ev = "updated") then
        let notification :=
          set_message ("Task " +:+ dq +:+ title task +:+ dq +:+ " has been updated")
            (set_title "Task Updated" notification) in
        await notify_watchers task userId notification;
        await notify_other (assignedTo task) userId notification;
        emit_task_update ev task
      else if bool_decide (eventType ev = "status_changed") then
        let notification :=
          set_message
            ("Task " +:+ dq +:+ title task +:+ dq +:+ " status changed to "
             +:+ status task)
            (set_title "Task Status Changed" notification) in
        await notify_watchers task userId notification;
        await notify_other (createdBy task) userId notification;
        await notify_other (assignedTo task) userId notification;
        emit_task_update ev task
      else if bool_decide (eventType ev = "comment_added") then
        let notification :=
          set_comment (newComment task)
            (set_message ("New comment on task " +:+ dq +:+ title task +:+ dq)
               (set_title "New Comment Added" notification)) in
        await notify_watchers task userId notification;
        await match newComment task with
              | Some {| mentions := Some ms |} =>
                  forEach ms (fun mention =>
                    if negb (bool_decide (ref_userId mention = userId))
                    then emit (ToRoom ("user:" +:+ ref_userId mention))
                           "notification"
                           (PNotification
                              (set_message
                                 ("You were mentioned in a comment on task "
                                  +:+ dq +:+ title task +:+ dq)
                                 (set_title "You were mentioned" notification)))
                    else ret tt)
              | _ => ret tt
              end;
        emit_task_update ev task
      else if bool_decide (eventType ev = "deleted") then
        let notification :=
          set_message ("Task " +:+ dq +:+ title task +:+ dq +:+ " has been deleted")
            (set_title "Task Deleted" notification) in
        await notify_watchers task userId notification;
        await notify_other (assignedTo task) userId notification;
        emit_task_update ev task
      else
        (* default: return *)
        ret tt
  end.

(** *** The consumer of [task_notifications] *)

(** Running a computation on one component of a pair of worlds. *)
Definition on_fst {A B X} (m : eff A X) : eff (A * B) X :=
  fun w => let '(r, a) := m (fst w) in (r, (a, snd w)).

Definition on_snd {A B X} (m : eff B X) : eff (A * B) X :=
  fun w => let '(r, b) := m (snd w) in (r, (fst w, b)).

(** [msg.content.toString()]: the JSON text of an event, or a text that
    [JSON.parse] rejects. *)
Inductive body : Type :=
| EventJson (e : event)
| NotJson.

Definition JSON_parse_event {W} (b : body) : eff W event :=
  match b with
  | EventJson e => ret e
  | NotJson => throw "SyntaxError"
  end.

Record message : Type := {
  deliveryTag : nat;
  msg_content : body
}.

(** The AMQP channel as the consumer observes it. *)
Record channel : Type := {
  ready : list message;       (* the queue, head first *)
  unacked : list message;     (* delivered and not yet settled *)
  deliveries : list message;  (* every delivery made, oldest first *)
  dropped : list message      (* rejected without requeue *)
}.

Definition settle (msg : message) (l : list message) : list message :=
  filter (fun m => deliveryTag m ≠ deliveryTag msg) l.

(** [channel.ack(msg)] *)
Definition ack (msg : message) : eff channel unit :=
  fun ch => (Returned tt,
             {| ready := ready ch; unacked := settle msg (unacked ch);
                deliveries := deliveries ch; dropped := dropped ch |}).

(** [channel.nack(msg, allUpTo, requeue)] with [allUpTo = false]. *)
Definition nack (msg : message) (requeue : bool) : eff channel unit :=
  fun ch => (Returned tt,
             if requeue
             then {| ready := msg :: ready ch;
                     unacked := settle msg (unacked ch);
                     deliveries := deliveries ch; dropped := dropped ch |}
             else {| ready := ready ch;
                     unacked := settle msg (unacked ch);
                     deliveries := deliveries ch;
                     dropped := (dropped ch ++ [msg])%list |}).

(** The callback that [startConsumers] passes to [channel.consume]. A
    [null] message is [None]. *)
Definition on_message (msg : option message) (now : string)
    : eff (channel * io) unit :=
  match msg with
  | Some msg =>
      try_catch
        (const event := await JSON_parse_event (msg_content msg);
         await on_snd (handleTaskEvent event now);
         on_fst (ack msg))
        (fun _ => on_fst (nack msg false))   (* Don't requeue *)
  | None => ret tt
  end.

(** The broker hands the head of the queue to the callback. [clock] gives
    the time of each delivery. *)
Definition deliver_next (clock : nat -> string) : eff (channel * io) unit :=
  fun w =>
    let ch := fst w in
    match ready ch with
    | [] => (Returned tt, w)
    | msg :: rest =>
        on_message (Some msg) (clock (length (deliveries ch)))
          ({| ready := rest; unacked := (unacked ch ++ [msg])%list;
              deliveries := (deliveries ch ++ [msg])%list;
              dropped := dropped ch |}, snd w)
    end.

Fixpoint consume (n : nat) (clock : nat -> string) : eff (channel * io) unit :=
  match n with
  | O => ret tt
  | S n' => await deliver_next clock; consume n' clock
  end.

(* ===================================================================== *)
(** ** handlers/socketHandlers.js *)
(* ===================================================================== *)

(** A connected session, as found in [io.sockets.sockets]. *)
Record Socket : Type := {
  socket_id : string;
  socket_user : option user
}.

(** [{ email: user.email, role: user.role, connectedAt }] *)
Definition session_metadata (u : user) (connectedAt : string) : js_object :=
  <["email" := JStr (user_email u)]>
    (<["role" := JStr (user_role u)]>
       {["connectedAt" := JStr connectedAt]}).

Definition online_entry (u : user) : online_user :=
  {| ou_userId := user_id u; ou_email := user_email u; ou_role := user_role u |}.

Section SocketHandlers.
Context {W : Type}.
Variable client : option (RedisClient W).


(** [socket.on("get:offline_notifications", ...)] *)
Definition on_get_offline_notifications (user : user) (socket : Socket)
    : eff (W * io) unit :=
  try_catch
    (const notifications :=
       await on_fst (getOfflineNotifications client (user_id user));
     if (0 <? length notifications)%nat
     then on_snd (emit (ToSocket (socket_id socket)) "notifications:offline"
                    (POffline notifications))
     else ret tt)
    (fun _ => ret tt).

(** [socket.on("clear:offline_notifications", ...)] *)
Definition on_clear_offline_notifications (user : user) (socket : Socket)
    : eff (W * io) unit :=
  try_catch
    (await on_fst (clearOfflineNotifications client (user_id user));
     on_snd (emit (ToSocket (socket_id socket)) "notifications:cleared"
               PNothing))
    (fun _ => ret tt).


End SocketHandlers.

(** The loop of the [get:online_users] handler over [io.sockets.sockets]
    (the sessions in the order they connected); [onlineUsers] is the array
    being filled. *)
Fixpoint push_online_users (socket : Socket) (sockets : list Socket)
    (onlineUsers : list online_user) : list online_user :=
  match sockets with
  | [] => onlineUsers
  | connectedSocket :: rest =>
      match socket_user connectedSocket with
      | Some u =>
          if negb (bool_decide (socket_id connectedSocket = socket_id socket))
          then push_online_users socket rest (onlineUsers ++ [online_entry u])%list
          else push_online_users socket rest onlineUsers
      | None => push_online_users socket rest onlineUsers
      end
  end.

(** [socket.on("get:online_users", ...)] *)
Definition on_get_online_users (socket : Socket) (sockets : list Socket)
    : eff io unit :=
  let onlineUsers := push_online_users socket sockets [] in
  emit (ToSocket (socket_id socket)) "online_users" (POnlineUsers onlineUsers).


(* ===================================================================== *)
(** ** Vocabulary of the statements *)
(* ===================================================================== *)

(** [m] returns in every world. *)
Definition never_throws {W A} (m : eff W A) : Prop :=
  forall w, exists a w', m w = (Returned a, w').

(** The offline queue of a user on a reachable server: the list under
    [notifications:<userId>], empty when the key is absent; [None] when the
    key holds something that is not a list. *)
Definition offline_queue (r : redis) (userId : string) : option (list text) :=
  match keyspace r !! ("notifications:" +:+ userId) with
  | None => Some []
  | Some (RList l) => Some l
  | Some _ => None
  end.

(** One call of [storeOfflineNotification]: the notification and the two
    readings that make its id. *)
Record append_call : Type := {
  call_notification : js_object;
  call_stamp : string;
  call_suffix : string
}.

Definition stored_text (c : append_call) : text :=
  JSON_stringify
    (offline_entry (call_notification c) (call_stamp c) (call_suffix c)).

(** The calls of a sequence, one after the other, on a reachable server. *)
Fixpoint append_all (userId : string) (calls : list append_call)
    (r : redis) : redis :=
  match calls with
  | [] => r
  | c :: rest =>
      append_all userId rest
        (snd (storeOfflineNotification (Some live) userId
                (call_notification c) (call_stamp c) (call_suffix c) r))
  end.

(** What [handleTaskEvent] emits for an event, oldest first. *)
Definition emitted (ev : event) (now : string) : list emission :=
  snd (handleTaskEvent ev now []).

(** [m] returns after emitting some list of emissions that all satisfy [P],
    whatever was emitted before. *)
Definition emits (P : emission -> Prop) (m : eff io unit) : Prop :=
  exists l, Forall P l /\ forall out, m out = (Returned tt, (out ++ l)%list).

(** The event types that the switch of [handleTaskEvent] names. *)
Definition enumerated (eventType : string) : Prop :=
  eventType = "created" \/ eventType = "updated" \/
  eventType = "status_changed" \/ eventType = "comment_added" \/
  eventType = "deleted".

(** A ['notification'] emission whose addressee is the user channel of
    somebody other than [actor] or, when [roles] is set, one of the two
    role channels. *)
Definition targeted_away_from (actor : string) (roles : bool)
    (e : emission) : Prop :=
  em_event e = "notification" /\
  ((exists uid, uid <> actor /\ em_to e = ToRoom ("user:" +:+ uid)) \/
   (roles = true /\
    (em_to e = ToRoom "role:project_manager" \/ em_to e = ToRoom "role:admin"))).

(** The ['task:update'] emissions of a list. *)
Definition task_updates (l : list emission) : list emission :=
  filter (fun e => em_event e = "task:update") l.

(** The broadcast that follows the switch. *)
Definition task_update_of (ev : event) (task : task) : emission :=
  {| em_to := ToAll; em_event := "task:update";
     em_payload :=
       PTaskUpdate {| tu_eventType := eventType ev; tu_task := task;
                      tu_userId := event_userId ev;
                      tu_timestamp := event_timestamp ev |} |}.

(** [m] returns after emitting notifications that all satisfy [P] and then
    [last], whatever was emitted before. *)
Definition notifies_then (P : emission -> Prop) (last : emission)
    (m : eff io unit) : Prop :=
  exists l, Forall P l /\
    forall out, m out = (Returned tt, (out ++ l ++ [last])%list).

Global Instance enumerated_dec (eventType : string) : Decision (enumerated eventType).
Proof. unfold enumerated. apply _. Defined.

(** The two notifications of a [created] event, as the switch builds
    them. *)
Definition created_notification (ev : event) (t : task) (now : string)
    : notification :=
  {| n_type := "task_update";
     n_title := Some "New Task Created";
     n_message := Some ("Task " +:+ dq +:+ title t +:+ dq +:+ " has been created");
     n_timestamp := now;
     n_data := {| data_taskId := _id t; data_eventType := eventType ev;
                  data_task := t; data_comment := None |} |}.

Definition assignment_notification (ev : event) (t : task) (now : string)
    : notification :=
  {| n_type := "task_update";
     n_title := Some "New Task Created";
     n_message :=
       Some ("You have been assigned a new task: " +:+ dq +:+ title t +:+ dq);
     n_timestamp := now;
     n_data := {| data_taskId := _id t; data_eventType := eventType ev;
                  data_task := t; data_comment := None |} |}.

Definition notification_to (room : string) (n : notification) : emission :=
  {| em_to := ToRoom room; em_event := "notification";
     em_payload := PNotification n |}.

(** The callback gets through a message: its content parses and
    [handleTaskEvent] returns. *)
Definition processed (msg : message) (now : string) (out : io) : bool :=
  match msg_content msg with
  | EventJson e => is_returned (fst (handleTaskEvent e now out))
  | NotJson => false
  end.

(** The authenticated sessions other than [socket]. *)
Definition other_sessions (socket : Socket) (sockets : list Socket)
    : list Socket :=
  filter (fun c => is_Some (socket_user c) /\ socket_id c <> socket_id socket)
    sockets.

(** [entry] describes the session [c]: it carries the id, the e-mail
    address and the role of the user of [c]. *)
Definition entry_of (c : Socket) (entry : online_user) : Prop :=
  exists u, socket_user c = Some u /\
            ou_userId entry = user_id u /\
            ou_email entry = user_email u /\
            ou_role entry = user_role u.

Definition offline_reply (socket : Socket) (notifications : list js_object)
    : emission :=
  {| em_to := ToSocket (socket_id socket); em_event := "notifications:offline";
     em_payload := POffline notifications |}.

(* ===================================================================== *)
(** ** Sample inputs *)
(* ===================================================================== *)

Definition ref (uid : string) : user_ref :=
  {| ref_userId := uid; ref_email := uid +:+ "@taskflow.com"; ref_name := uid |}.

(** The [status_changed] scenario of the specification: watchers A and B,
    creator C, assignee and actor B. *)
Definition fix_bug : task :=
  {| _id := "T1"; title := "Fix bug"; status := "done";
     assignedTo := Some (ref "B"); createdBy := Some (ref "C");
     watchers := Some [ref "A"; ref "B"]; newComment := None |}.

Definition fix_bug_done : event :=
  {| eventType := "status_changed"; event_task := Some fix_bug;
     event_userId := "B"; event_timestamp := "2024-01-01T00:00:00.000Z" |}.

(** A task created by U1 and assigned to U2. *)
Definition new_task : task :=
  {| _id := "T2"; title := "Write report"; status := "todo";
     assignedTo := Some (ref "U2"); createdBy := Some (ref "U1");
     watchers := Some []; newComment := None |}.

Definition new_task_created : event :=
  {| eventType := "created"; event_task := Some new_task;
     event_userId := "U1"; event_timestamp := "2024-01-01T00:00:00.000Z" |}.

(** An unassigned task created by U1. *)
Definition unassigned_created : event :=
  {| eventType := "created";
     event_task :=
       Some {| _id := "T3"; title := "Plan sprint"; status := "todo";
               assignedTo := None; createdBy := Some (ref "U1");
               watchers := None; newComment := None |};
     event_userId := "U1"; event_timestamp := "2024-01-01T00:00:00.000Z" |}.

(** An event of a type that the switch does not name. *)
Definition new_task_archived : event :=
  {| eventType := "archived"; event_task := Some new_task;
     event_userId := "U1"; event_timestamp := "2024-01-01T00:00:00.000Z" |}.

Definition U1_as (role : string) : user :=
  {| user_id := "U1"; user_email := "U1@taskflow.com"; user_role := role |}.

Definition noon : string := "2024-01-01T12:00:00.000Z".

Definition sample_message (tag : nat) (b : body) : message :=
  {| deliveryTag := tag; msg_content := b |}.

Definition idle_channel (queue : list message) : channel :=
  {| ready := queue; unacked := []; deliveries := []; dropped := [] |}.



Definition alice : user :=
  {| user_id := "7"; user_email := "alice@taskflow.com";
     user_role := "team_member" |}.

Definition alice_socket : Socket :=
  {| socket_id := "Xq3vT0aLw9"; socket_user := Some alice |}.

(** Two notifications stored for alice on an empty server. *)
Definition backlog_calls : list append_call :=
  [ {| call_notification := {["title" := JStr "Task Updated"]};
       call_stamp := "1700000000000"; call_suffix := "k3j9x0q1z" |};
    {| call_notification := {["title" := JStr "Task Deleted"]};
       call_stamp := "1700000000500"; call_suffix := "p0o9i8u7y" |} ].

Definition backlog_store : redis := append_all "7" backlog_calls redis_empty.

Definition backlog : list js_object :=
  [ offline_entry {["title" := JStr "Task Deleted"]} "1700000000500" "p0o9i8u7y";
    offline_entry {["title" := JStr "Task Updated"]} "1700000000000" "k3j9x0q1z" ].

(* ===================================================================== *)
(** ** config/redis.js: connection, retry and the task cache *)
(* ===================================================================== *)

(** The argument of [retry_strategy]. *)
Record retry_options : Type := {
  retry_error_code : option string;   (* options.error && options.error.code *)
  total_retry_time : Z;
  attempt : Z
}.

(** What [retry_strategy] returns: an [Error], [undefined], or a delay in
    milliseconds. *)
Inductive retry_decision : Type :=
| RetryError (msg : string)
| RetryStop
| RetryAfter (ms : Z).

Definition retry_strategy (options : retry_options) : retry_decision :=
  if total_retry_time options >? 1000 * 60 * 60 then
    RetryError "Retry time exhausted"
  else if attempt options >? 10 then RetryStop
  else RetryAfter (Z.min (attempt options * 100) 3000).

Section ConnectRedis.
Context {W : Type}.
(** [redis.createClient({...})] followed by the four [client.on]
    registrations, and [client.connect()]. *)
Variable createClient : eff W (RedisClient W).
Variable connect : RedisClient W -> eff W unit.

(** The module state of redis.js: the variable [client] and the outside
    world. *)
Definition set_client (c : RedisClient W)
    : eff (option (RedisClient W) * W) unit :=
  fun s => (Returned tt, (Some c, snd s)).

Definition connectRedis : eff (option (RedisClient W) * W) unit :=
  try_catch
    (const c := await on_snd createClient;
     await set_client c;
     await on_snd (connect c);
     ret tt)
    (fun _ => ret tt).   (* Don't exit process *)

End ConnectRedis.

Section TaskCache.
Context {W : Type}.
Variable client : option (RedisClient W).

(** [cacheTaskData(taskId, taskData, ttl = 300)]; the caller passes [ttl]
    or its default. *)
Definition cacheTaskData (taskId : string) (taskData : js_object) (ttl : Z)
    : eff W unit :=
  match client with
  | None => ret tt
  | Some client =>
      try_catch
        (let taskKey := "task:" +:+ taskId in
         await setEx client taskKey ttl (JSON_stringify taskData);
         ret tt)
        (fun _ => ret tt)
  end.

Definition getCachedTaskData (taskId : string) : eff W (option js_object) :=
  match client with
  | None => ret None
  | Some client =>
      try_catch
        (let taskKey := "task:" +:+ taskId in
         const taskData := await get client taskKey;
         match taskData with
         | Some t => const o := await JSON_parse t; ret (Some o)
         | None => ret None
         end)
        (fun _ => ret None)
  end.

End TaskCache.

(** The members of [online_users] on a reachable server. *)
Definition online_set (r : redis) : gset string :=
  match keyspace r !! "online_users" with
  | Some (RSet s) => s
  | _ => ∅
  end.

(** What [getOnlineUsers] pushes for a member of the set: its session
    record extended with [userId], if the session can be read. *)
Definition online_record (r : redis) (userId : string) : option js_object :=
  match keyspace r !! ("user_session:" +:+ userId) with
  | Some (RString (Stringified session)) =>
      Some (session ∪ {["userId" := JStr userId]})
  | _ => None
  end.


(** *** The user id as the callers pass it *)

(** [registerHandlers] and the [disconnect] handler pass [socket.user.id],
    the [id] claim of the token, which auth-service sets to the serial key
    of the user row: a number. A template literal renders a number as it
    renders a string; a command of the [redis] package takes strings as
    arguments and rejects a number with a [TypeError] before anything is
    sent to the server. *)
Record js_id : Type := {
  id_text : string;        (* `${userId}` *)
  id_is_string : bool      (* typeof userId === "string" *)
}.

(** [userId] as the argument of a command. *)
Definition as_argument {W A} (userId : js_id) (command : string -> eff W A)
    : eff W A :=
  if id_is_string userId then command (id_text userId)
  else throw "TypeError: Invalid argument type".

Section PresenceCalls.
Context {W : Type}.
Variable client : option (RedisClient W).

(** [storeUserSession] and [removeUserSession] on a user id of either
    kind. *)
Definition storeUserSession_id (userId : js_id) (socketId : string)
    (userData : js_object) (now : string) : eff W unit :=
  match client with
  | None => ret tt
  | Some client =>
      try_catch
        (let sessionKey := "user_session:" +:+ id_text userId in
         let sessionData := session_record socketId userData now in
         await setEx client sessionKey 3600 (JSON_stringify sessionData);
         await as_argument userId (sAdd client "online_users");
         ret tt)
        (fun _ => ret tt)
  end.

Definition removeUserSession_id (userId : js_id) : eff W unit :=
  match client with
  | None => ret tt
  | Some client =>
      try_catch
        (let sessionKey := "user_session:" +:+ id_text userId in
         await del client sessionKey;
         await as_argument userId (sRem client "online_users");
         ret tt)
        (fun _ => ret tt)
  end.

End PresenceCalls.


(** A call on the offline store. *)
Inductive offline_call : Type :=
| Append (userId : string) (c : append_call)
| Clear (userId : string).

Definition call_user (c : offline_call) : string :=
  match c with Append u _ => u | Clear u => u end.

Definition run_offline_call (c : offline_call) (r : redis) : redis :=
  match c with
  | Append u a =>
      snd (storeOfflineNotification (Some live) u (call_notification a)
             (call_stamp a) (call_suffix a) r)
  | Clear u => snd (clearOfflineNotifications (Some live) u r)
  end.

Definition run_offline_calls (calls : list offline_call) (r : redis) : redis :=
  fold_left (fun r c => run_offline_call c r) calls r.

(** A client that creates fine and whose server refuses the connection. *)
Definition refused_connect (c : RedisClient redis) : eff redis unit :=
  throw "ECONNREFUSED".

(** [r'] agrees with [r] on every key outside [keys]. *)
Definition unchanged_outside (keys : list string) (r r' : redis) : Prop :=
  forall k, k ∉ keys -> keyspace r' !! k = keyspace r !! k.

(** The effect of a call on the queue it addresses: an append puts the
    entry in front and keeps 50, and fails on a key that holds no list; a
    clear always leaves the empty queue. *)
Definition queue_after (c : offline_call) (q : option (list text))
    : option (list text) :=
  match c with
  | Append _ a => (fun l => take 50 (stored_text a :: l)) <$> q
  | Clear _ => Some []
  end.

Definition queue_step (userId : string) (q : option (list text))
    (c : offline_call) : option (list text) :=
  if decide (call_user c = userId) then queue_after c q else q.

(** The object that a call of [storeOfflineNotification] stores. *)
Definition call_entry (c : append_call) : js_object :=
  offline_entry (call_notification c) (call_stamp c) (call_suffix c).

(* ===================================================================== *)
(** ** Vocabulary for the recipients of an event *)
(* ===================================================================== *)

Global Instance target_eq_dec : EqDecision target.
Proof. solve_decision. Defined.

(** The notification of a branch of the switch, once its title, message
    and comment are set. *)
Definition event_notification (ev : event) (t : task) (now : string)
    (ntitle nmessage : string) (c : option comment) : notification :=
  {| n_type := "task_update";
     n_title := Some ntitle;
     n_message := Some nmessage;
     n_timestamp := now;
     n_data := {| data_taskId := _id t; data_eventType := eventType ev;
                  data_task := t; data_comment := c |} |}.

(** The watchers other than the actor, in the order of [task.watchers],
    repetitions included. *)
Definition watcher_ids (t : task) (actor : string) : list string :=
  match watchers t with
  | Some ws => filter (fun uid => uid <> actor) (map ref_userId ws)
  | None => []
  end.

(** The users mentioned in the new comment other than the actor. *)
Definition mention_ids (t : task) (actor : string) : list string :=
  match newComment t with
  | Some {| mentions := Some ms |} =>
      filter (fun uid => uid <> actor) (map ref_userId ms)
  | _ => []
  end.

(** [who], when it names a user other than the actor. *)
Definition other_id (actor : string) (who : option user_ref) : list string :=
  match other_than actor who with
  | Some uid => [uid]
  | None => []
  end.

(** One ['notification'] to the user channel of each id. *)
Definition to_users (ids : list string) (n : notification) : list emission :=
  map (fun uid => notification_to ("user:" +:+ uid) n) ids.

(** [msg] can be processed: its payload parses to an event with a task. *)
Definition acceptable (msg : message) : bool :=
  match msg_content msg with
  | EventJson e => match event_task e with Some _ => true | None => false end
  | NotJson => false
  end.

(** What the callback emits for a message delivered at time [now]. *)
Definition emitted_for (msg : message) (now : string) : list emission :=
  match msg_content msg with
  | EventJson e => emitted e now
  | NotJson => []
  end.

(** A task that B both watches and is assigned to, updated by A. *)
Definition watched_by_assignee : event :=
  {| eventType := "updated";
     event_task :=
       Some {| _id := "T4"; title := "Ship release"; status := "in_progress";
               assignedTo := Some (ref "B"); createdBy := Some (ref "A");
               watchers := Some [ref "B"; ref "C"]; newComment := None |};
     event_userId := "A"; event_timestamp := "2024-01-01T00:00:00.000Z" |}.

(** A comment by A on a task watched by A and B that mentions B and C. *)
Definition commented_task : task :=
  {| _id := "T5"; title := "Review spec"; status := "todo";
     assignedTo := None; createdBy := Some (ref "A");
     watchers := Some [ref "A"; ref "B"];
     newComment := Some {| content := "please look";
                           mentions := Some [ref "B"; ref "C"; ref "A"] |} |}.

Definition comment_by_A : event :=
  {| eventType := "comment_added"; event_task := Some commented_task;
     event_userId := "A"; event_timestamp := "2024-01-01T00:00:00.000Z" |}.

(** What every notification of an event has in common. *)
Definition payload_of (ev : event) (t : task) (now : string)
    (n : notification) : Prop :=
  n_type n = "task_update" /\
  n_timestamp n = now /\
  is_Some (n_title n) /\ is_Some (n_message n) /\
  data_taskId (n_data n) = _id t /\
  data_eventType (n_data n) = eventType ev /\
  data_task (n_data n) = t /\
  data_comment (n_data n)
  = if bool_decide (eventType ev = "comment_added") then newComment t
    else None.

Definition well_formed_notification (ev : event) (t : task) (now : string)
    (e : emission) : Prop :=
  exists room n, e = notification_to room n /\ payload_of ev t now n.

(* ===================================================================== *)
(** ** Values sent by clients *)
(* ===================================================================== *)

(** A JavaScript value that arrives with a client event or a request:
    a JSON value, or [undefined] ([None]). *)
Abbreviation jsval := (option json).

(** JavaScript truthiness. *)
Definition js_truthy (v : jsval) : bool :=
  match v with
  | None => false
  | Some JNull => false
  | Some (JBool b) => b
  | Some (JNum n) => negb (n =? 0)
  | Some (JStr s) => truthy s
  | Some (JArr _) => true
  | Some (JObj _) => true
  end.

(** The value of property [k] among the fields of an object (property
    names of an object are distinct). *)
Fixpoint assoc (k : string) (fields : list (string * json)) : jsval :=
  match fields with
  | [] => None
  | (k', v) :: rest => if bool_decide (k = k') then Some v else assoc k rest
  end.

(** [data.k] for a value that is neither [undefined] nor [null]: none of
    the names read by the handlers is a property of a primitive or of an
    array. *)
Definition prop (data : jsval) (k : string) : jsval :=
  match data with
  | Some (JObj fields) => assoc k fields
  | _ => None
  end.

(** [const { ... } = data]: destructuring [undefined] or [null] throws. *)
Definition destructure {W} (data : jsval) : eff W (string -> jsval) :=
  match data with
  | None => throw "TypeError"
  | Some JNull => throw "TypeError"
  | Some _ => ret (prop data)
  end.

(** An object literal; a property whose value is [undefined] is not
    transmitted. *)
Definition obj (fields : list (string * jsval)) : json :=
  JObj (omap (fun kv => match snd kv with
                        | Some v => Some (fst kv, v)
                        | None => None
                        end) fields).

(* ===================================================================== *)
(** ** Socket.IO: sessions, rooms and packets *)
(* ===================================================================== *)

(** How an [emit] of a session handler is addressed. *)
Inductive route : Type :=
| Via (t : target)                       (* io.to(room) / io / socket *)
| RoomExcept (room sender : string)      (* socket.to(room) *)
| Others (sender : string).              (* socket.broadcast *)

Record packet : Type := {
  pk_route : route;
  pk_event : string;
  pk_data : json
}.

Definition send (to : route) (name : string) (data : json)
    : eff (list packet) unit :=
  fun out => (Returned tt,
              (out ++ [{| pk_route := to; pk_event := name;
                          pk_data := data |}])%list).

(** [socket.join(room)] and [socket.leave(room)] on the rooms of a
    session. *)
Definition join (room : string) : eff (gset string) unit :=
  fun rooms => (Returned tt, {[room]} ∪ rooms).

Definition leave (room : string) : eff (gset string) unit :=
  fun rooms => (Returned tt, rooms ∖ {[room]}).

(** The session [sid], member of [rooms], is in the audience of a target
    and of a route. *)
Definition in_audience (sid : string) (rooms : gset string) (t : target)
    : bool :=
  match t with
  | ToRoom room => bool_decide (room ∈ rooms)
  | ToAll => true
  | ToSocket s => bool_decide (s = sid)
  end.

Definition hears (sid : string) (rooms : gset string) (r : route) : bool :=
  match r with
  | Via t => in_audience sid rooms t
  | RoomExcept room sender =>
      bool_decide (room ∈ rooms) && negb (bool_decide (sender = sid))
  | Others sender => negb (bool_decide (sender = sid))
  end.

(** The session [sid], member of [rooms], receives a ['notification'] of
    the list. *)
Definition receives_notification (sid : string) (rooms : gset string)
    (l : list emission) : Prop :=
  exists e, e ∈ l /\ em_event e = "notification" /\
            in_audience sid rooms (em_to e) = true.

(** The rooms of a session of [u] that has neither joined nor left a room
    since it connected: the room of its own socket id, where Socket.IO puts
    every session, and the two rooms of server.js. *)
Definition rooms_at_connection (u : user) (sid : string) : gset string :=
  {[sid; "user:" +:+ user_id u; "role:" +:+ user_role u]}.

(** The name of a user channel or of a role channel. Socket ids are not
    such names. *)
Definition channel_name (s : string) : Prop :=
  exists x, s = "user:" +:+ x \/ s = "role:" +:+ x.

(* ===================================================================== *)
(** ** handlers/socketHandlers.js: rooms, typing, presence, messages *)
(* ===================================================================== *)

Section SessionHandlers.
(** [user] is [socket.user] and [sid] is [socket.id]; the world of a
    handler is the rooms of the session and what has been sent. *)
Variable user : user.
Variable sid : string.

Definition on_join_room (roomName : jsval)
    : eff (gset string * list packet) unit :=
  match roomName with
  | Some (JStr roomName) =>
      if (String.length roomName <? 100)%nat then
        await on_fst (join roomName);
        on_snd (send (Via (ToSocket sid)) "room:joined"
                  (obj [("room", Some (JStr roomName))]))
      else ret tt
  | _ => ret tt
  end.

Definition on_leave_room (roomName : jsval)
    : eff (gset string * list packet) unit :=
  match roomName with
  | Some (JStr roomName) =>
      await on_fst (leave roomName);
      on_snd (send (Via (ToSocket sid)) "room:left"
                (obj [("room", Some (JStr roomName))]))
  | _ => ret tt
  end.

(** [typeof taskId === "string" && taskId.length === 24] *)
Definition object_id (taskId : jsval) : option string :=
  match taskId with
  | Some (JStr s) => if (String.length s =? 24)%nat then Some s else None
  | _ => None
  end.

Definition on_join_task (taskId : jsval)
    : eff (gset string * list packet) unit :=
  match object_id taskId with
  | Some taskId =>
      let taskRoom := "task:" +:+ taskId in
      await on_fst (join taskRoom);
      on_snd (send (Via (ToSocket sid)) "task:joined"
                (obj [("taskId", Some (JStr taskId))]))
  | None => ret tt
  end.

Definition on_leave_task (taskId : jsval)
    : eff (gset string * list packet) unit :=
  match object_id taskId with
  | Some taskId =>
      let taskRoom := "task:" +:+ taskId in
      await on_fst (leave taskRoom);
      on_snd (send (Via (ToSocket sid)) "task:left"
                (obj [("taskId", Some (JStr taskId))]))
  | None => ret tt
  end.

Definition on_task_typing (data : jsval) : eff (list packet) unit :=
  const d := await destructure data;
  match object_id (d "taskId") with
  | Some taskId =>
      send (RoomExcept ("task:" +:+ taskId) sid) "task:user_typing"
        (obj [("userId", Some (JStr (user_id user)));
              ("email", Some (JStr (user_email user)));
              ("taskId", Some (JStr taskId));
              ("isTyping", Some (JBool (js_truthy (d "isTyping"))))])
  | None => ret tt
  end.

(** [["online", "away", "busy"].includes(status)] *)
Definition presence_status (status : jsval) : option string :=
  match status with
  | Some (JStr s) =>
      if bool_decide (s ∈ ["online"; "away"; "busy"]) then Some s else None
  | _ => None
  end.

Definition on_user_presence (status : jsval) : eff (list packet) unit :=
  match presence_status status with
  | Some s =>
      send (Others sid) "user:presence_update"
        (obj [("userId", Some (JStr (user_id user)));
              ("email", Some (JStr (user_email user)));
              ("status", Some (JStr s))])
  | None => ret tt
  end.

Definition on_message_direct (data : jsval) (now : string)
    : eff (list packet) unit :=
  const d := await destructure data;
  let recipientId := d "recipientId" in
  let message := d "message" in
  (* type = "text" *)
  let type := match d "type" with None => Some (JStr "text") | v => v end in
  match recipientId, message with
  | Some (JStr recipientId), Some (JStr message) =>
      let directMessage :=
        obj [("from", Some (obj [("userId", Some (JStr (user_id user)));
                                 ("email", Some (JStr (user_email user)))]));
             ("message", Some (JStr message));
             ("type", type);
             ("timestamp", Some (JStr now))] in
      await send (Via (ToRoom ("user:" +:+ recipientId))) "message:received"
              directMessage;
      send (Via (ToSocket sid)) "message:sent"
        (obj [("recipientId", Some (JStr recipientId));
              ("message", Some (JStr message));
              ("timestamp", Some (JStr now))])
  | _, _ => ret tt
  end.

Definition on_task_activity (data : jsval) (now : string)
    : eff (list packet) unit :=
  const d := await destructure data;
  match object_id (d "taskId") with
  | Some taskId =>
      let activityData :=
        obj [("userId", Some (JStr (user_id user)));
             ("email", Some (JStr (user_email user)));
             ("taskId", Some (JStr taskId));
             ("activity", d "activity");
             (* metadata || {} *)
             ("metadata", if js_truthy (d "metadata") then d "metadata"
                          else Some (JObj []));
             ("timestamp", Some (JStr now))] in
      send (RoomExcept ("task:" +:+ taskId) sid) "task:activity_update"
        activityData
  | None => ret tt
  end.

Definition on_ping (now : string) : eff (list packet) unit :=
  send (Via (ToSocket sid)) "pong"
    (obj [("timestamp", Some (JStr now));
          ("userId", Some (JStr (user_id user)))]).

(** [if (data && typeof data.type === "string")] *)
Definition on_custom_event (data : jsval) (now : string)
    : eff (list packet) unit :=
  if js_truthy data then
    match prop data "type" with
    | Some (JStr ty) =>
        send (Via (ToSocket sid)) "custom:event_received"
          (obj [("type", Some (JStr ty)); ("timestamp", Some (JStr now))])
    | _ => ret tt
    end
  else ret tt.

(** server.js, [io.on('connection')], up to the call of
    [registerHandlers]. *)
Definition on_connection : eff (gset string * list packet) unit :=
  await on_fst (join ("user:" +:+ user_id user));
  await on_fst (join ("role:" +:+ user_role user));
  on_snd (send (Others sid) "user:online"
            (obj [("userId", Some (JStr (user_id user)));
                  ("email", Some (JStr (user_email user)));
                  ("role", Some (JStr (user_role user)))])).

(** server.js, the [disconnect] handler of the connection. *)
Definition on_connection_closed : eff (list packet) unit :=
  send (Others sid) "user:offline"
    (obj [("userId", Some (JStr (user_id user)));
          ("email", Some (JStr (user_email user)))]).

End SessionHandlers.

(* ===================================================================== *)
(** ** server.js: the HTTP endpoints *)
(* ===================================================================== *)

(** [req.body], destructured into the four fields the endpoints read. *)
Record notify_body : Type := {
  body_type : jsval;
  body_title : jsval;
  body_message : jsval;
  body_data : jsval
}.

(** [res.status(code).json(body)]; [res.json(body)] answers 200. *)
Record response : Type := {
  res_status : Z;
  res_body : json
}.

(** [!type || !title || !message] *)
Definition missing_fields (b : notify_body) : bool :=
  negb (js_truthy (body_type b)) || negb (js_truthy (body_title b))
  || negb (js_truthy (body_message b)).

Definition missing_fields_response : response :=
  {| res_status := 400;
     res_body := obj [("error",
                       Some (JStr "Missing required fields: type, title, message"))] |}.

(** [{ type, title, message, data: data || {}, timestamp }] *)
Definition http_notification (b : notify_body) (now : string) : json :=
  obj [("type", body_type b);
       ("title", body_title b);
       ("message", body_message b);
       ("data", if js_truthy (body_data b) then body_data b
                else Some (JObj []));
       ("timestamp", Some (JStr now))].

(** [app.post('/notify/user/:userId')] *)
Definition notify_user (userId : string) (b : notify_body) (now : string)
    : eff (list packet) response :=
  if missing_fields b then ret missing_fields_response
  else
    await send (Via (ToRoom ("user:" +:+ userId))) "notification"
            (http_notification b now);
    ret {| res_status := 200;
           res_body := obj [("success", Some (JBool true));
                            ("message", Some (JStr "Notification sent"));
                            ("recipients", Some (JNum 1))] |}.

(** [app.post('/notify/role/:role')] *)
Definition notify_role (role : string) (b : notify_body) (now : string)
    : eff (list packet) response :=
  if negb (bool_decide (role ∈ ["admin"; "project_manager"; "team_member"]))
  then ret {| res_status := 400;
              res_body := obj [("error", Some (JStr "Invalid role"))] |}
  else if missing_fields b then ret missing_fields_response
  else
    await send (Via (ToRoom ("role:" +:+ role))) "notification"
            (http_notification b now);
    ret {| res_status := 200;
           res_body := obj [("success", Some (JBool true));
                            ("message", Some (JStr "Notification sent to role"));
                            ("role", Some (JStr role))] |}.

(** [app.post('/notify/broadcast')]; [clientsCount] is
    [io.engine.clientsCount]. *)
Definition notify_broadcast (b : notify_body) (now : string)
    (clientsCount : Z) : eff (list packet) response :=
  if missing_fields b then ret missing_fields_response
  else
    await send (Via ToAll) "notification" (http_notification b now);
    ret {| res_status := 200;
           res_body := obj [("success", Some (JBool true));
                            ("message", Some (JStr "Notification broadcast"));
                            ("recipients", Some (JNum clientsCount))] |}.

(** [app.get('/users/online')]: the loop over [io.sockets.sockets];
    [time_of] gives [socket.handshake.time]. *)
Fixpoint push_connected_users (time_of : Socket -> string)
    (sockets : list Socket) (connectedUsers : list json) : list json :=
  match sockets with
  | [] => connectedUsers
  | socket :: rest =>
      match socket_user socket with
      | Some u =>
          push_connected_users time_of rest
            (connectedUsers
             ++ [obj [("userId", Some (JStr (user_id u)));
                      ("email", Some (JStr (user_email u)));
                      ("role", Some (JStr (user_role u)));
                      ("connectedAt", Some (JStr (time_of socket)))]])%list
      | None => push_connected_users time_of rest connectedUsers
      end
  end.

Definition users_online (time_of : Socket -> string) (sockets : list Socket)
    : response :=
  let connectedUsers := push_connected_users time_of sockets [] in
  {| res_status := 200;
     res_body := obj [("count",
                       Some (JNum (Z.of_nat (length connectedUsers))));
                      ("users", Some (JArr connectedUsers))] |}.

(* ===================================================================== *)
(** ** middleware/auth.js: [authenticateSocket] *)
(* ===================================================================== *)

(** [s.split(' ')] *)
Fixpoint split_spaces (s : string) : list string :=
  match s with
  | EmptyString => [EmptyString]
  | String c rest =>
      if bool_decide (c = " "%char) then EmptyString :: split_spaces rest
      else match split_spaces rest with
           | piece :: pieces => String c piece :: pieces
           | [] => [String c EmptyString]
           end
  end.

(** [socket.handshake]: [auth.token] and [headers.authorization], each a
    string or absent. *)
Record handshake : Type := {
  auth_token : option string;
  authorization : option string
}.

(** [handshake.auth.token || handshake.headers.authorization?.split(' ')[1]] *)
Definition presented_token (h : handshake) : option string :=
  let from_header :=
    match authorization h with
    | Some a => split_spaces a !! 1%nat
    | None => None
    end in
  match auth_token h with
  | Some t => if truthy t then Some t else from_header
  | None => from_header
  end.

(** What the middleware passes to [next]: nothing, after setting
    [socket.user], or an [Error]. *)
Inductive admission : Type :=
| Accepted (u : user)
| Refused (reason : string).

Section AuthenticateSocket.
(** [jwt.verify(token, process.env.JWT_SECRET, callback)]: the decoded
    claims [{id, email, role}], or an error. *)
Variable jwt_verify : string -> option user.

Definition authenticateSocket (h : handshake) : admission :=
  match presented_token h with
  | Some token =>
      if truthy token then
        match jwt_verify token with
        | Some decoded =>
            Accepted {| user_id := user_id decoded;
                           user_email := user_email decoded;
                           user_role := user_role decoded |}
        | None => Refused "Invalid or expired token"
        end
      else Refused "Authentication token required"
  | None => Refused "Authentication token required"
  end.

End AuthenticateSocket.

(* ===================================================================== *)
(** ** task-service, models/Task.js: watchers and permissions *)
(* ===================================================================== *)

(** [this.watchers.some(w => w.userId === userId)] *)
Definition isWatching (userId : string) (ws : list user_ref) : bool :=
  existsb (fun w => bool_decide (ref_userId w = userId)) ws.

(** [addWatcher(user)] on the watcher array. *)
Definition addWatcher (u : user_ref) (ws : list user_ref) : list user_ref :=
  if isWatching (ref_userId u) ws then ws
  else (ws ++ [{| ref_userId := ref_userId u; ref_email := ref_email u;
                  ref_name := ref_name u |}])%list.

(** [removeWatcher(userId)] *)
Definition removeWatcher (userId : string) (ws : list user_ref)
    : list user_ref :=
  filter (fun w => ref_userId w <> userId) ws.

(** [who.userId === user.id] for a nested document that may lack the id. *)
Definition is_user (who : option user_ref) (u : user) : bool :=
  match who with
  | Some r => bool_decide (ref_userId r = user_id u)
  | None => false
  end.

(** A document always has a watcher array. *)
Definition watchers_of (t : task) : list user_ref :=
  match watchers t with Some ws => ws | None => [] end.

Definition canEdit (t : task) (u : user) : bool :=
  if bool_decide (user_role u = "admin") then true
  else if bool_decide (user_role u = "project_manager") then true
  else is_user (createdBy t) u || is_user (assignedTo t) u.

Definition canView (t : task) (u : user) : bool :=
  if bool_decide (user_role u = "admin") then true
  else if bool_decide (user_role u = "project_manager") then true
  else is_user (createdBy t) u || is_user (assignedTo t) u
       || isWatching (user_id u) (watchers_of t).

(** [s] contains a space. *)
Fixpoint has_space (s : string) : bool :=
  match s with
  | EmptyString => false
  | String c rest => bool_decide (c = " "%char) || has_space rest
  end.

(** The authenticated sessions. *)
Definition authenticated (sockets : list Socket) : list Socket :=
  filter (fun c => is_Some (socket_user c)) sockets.

(** A sample client payload and a sample sender. *)
Definition typing_payload : jsval :=
  Some (JObj [("taskId", JStr "65f1c0ffee0123456789abcd");
              ("isTyping", JNum 1)]).

Definition bob : user :=
  {| user_id := "8"; user_email := "bob@taskflow.com";
     user_role := "project_manager" |}.

Definition bob_socket : Socket :=
  {| socket_id := "Zk81mPq0Ds"; socket_user := Some bob |}.
(* ===================================================================== *)
(** ** Properties of config/redis.js *)
(* ===================================================================== *)

(** Split on the outcome of every command that the goal runs. *)
Ltac eff_cases :=
  repeat match goal with
         | |- context [match ?m ?w with pair _ _ => _ end] =>
             let o := fresh "o" in
             let w' := fresh "w'" in
             let E := fresh "E" in
             destruct (m w) as [o w'] eqn:E; destruct o; simpl
         end.

Ltac eff_unfold :=
  unfold try_catch, bind, ret, throw, JSON_parse, JSON_stringify in *; simpl in *.

Section RedisJsFacts.
Context {W : Type}.




Lemma parse_all_cases (l : list text) (w : W) :
  (exists os, parse_all l w = (Returned os, w)) \/
  (exists e, parse_all l w = (Thrown e, w)).
Proof.
  induction l as [|t l IH]; simpl.
  - left. eexists. reflexivity.
  - unfold bind. destruct t as [o|]; simpl.
    + destruct IH as [[os ->]|[e ->]]; [left|right]; eexists; reflexivity.
    + right. eexists. reflexivity.
Qed.





Lemma clearOfflineNotifications_never_throws (client : option (RedisClient W)) u :
  never_throws (clearOfflineNotifications client u).
Proof.
  intros w. destruct client as [c|]; simpl; [|unfold ret; eauto].
  eff_unfold. eff_cases; eauto.
Qed.

End RedisJsFacts.






(* --------------------------------------------------------------------- *)
(** *** On a reachable server *)
(* --------------------------------------------------------------------- *)

Lemma lrange_items_0_49 (l : list text) : lrange_items l 0 49 = take 50 l.
Proof.
  unfold lrange_items. simpl. rewrite !Z.geb_leb.
  destruct (Z.leb_spec (Z.of_nat (length l)) 0) as [H0|H0]; simpl.
  - destruct l; [reflexivity | simpl in H0; lia].
  - rewrite drop_0.
    destruct (Z.leb_spec (Z.of_nat (length l)) 49) as [H1|H1].
    + replace (Z.to_nat (Z.of_nat (length l) - 1 - 0 + 1)) with (length l) by lia.
      rewrite !take_ge; [reflexivity | lia | lia].
    + reflexivity.
Qed.

Lemma lrange_items_all (l : list text) : lrange_items l 0 (-1) = l.
Proof.
  unfold lrange_items. simpl. rewrite !Z.geb_leb, Z.gtb_ltb.
  destruct l as [|x l]; [reflexivity|].
  set (n := Z.of_nat (length (x :: l))).
  assert (Hn : 0 < n) by (unfold n; simpl; lia).
  destruct (Z.ltb_spec (n + -1) 0); [lia|].
  destruct (Z.leb_spec n 0); [lia|].
  destruct (Z.leb_spec n (n + -1)); [lia|].
  simpl. apply take_ge. unfold n in *. lia.
Qed.

Lemma take_app_take {A} (n : nat) (l k : list A) :
  take n (l ++ take n k) = take n (l ++ k).
Proof.
  rewrite !take_app, take_take. do 2 f_equal. lia.
Qed.

Lemma session_key_not_online_users (u : string) :
  "online_users" <> "user_session:" +:+ u.
Proof. simpl. discriminate. Qed.

(** What [getUserSession] reads on a reachable server. *)
Lemma getUserSession_live (u : string) (r : redis) :
  getUserSession (Some live) u r =
    (Returned match keyspace r !! ("user_session:" +:+ u) with
              | Some (RString (Stringified o)) => Some o
              | _ => None
              end, r).
Proof.
  unfold getUserSession, try_catch, bind. simpl. unfold live_get.
  destruct (keyspace r !! _) as [[[o|]| |]|]; reflexivity.
Qed.

Lemma storeUserSession_live_key (u sid now : string) (m : js_object) (r : redis) :
  keyspace (snd (storeUserSession (Some live) u sid m now r))
    !! ("user_session:" +:+ u)
  = Some (RString (Stringified (session_record sid m now))).
Proof.
  pose proof (session_key_not_online_users u) as Hne.
  assert (Hne' : "user_session:" +:+ u <> "online_users") by congruence.
  unfold storeUserSession, try_catch, bind, ret. simpl.
  unfold live_setEx, live_sAdd. simpl.
  rewrite lookup_insert_ne by (first [exact Hne | exact Hne']).
  destruct (keyspace r !! "online_users") as [[| |]|]; simpl;
    rewrite ?lookup_insert_ne by (first [exact Hne | exact Hne']); apply lookup_insert_eq.
Qed.

Lemma removeUserSession_live_key (u : string) (r : redis) :
  keyspace (snd (removeUserSession (Some live) u r))
    !! ("user_session:" +:+ u) = None.
Proof.
  pose proof (session_key_not_online_users u) as Hne.
  assert (Hne' : "user_session:" +:+ u <> "online_users") by congruence.
  unfold removeUserSession, try_catch, bind, ret. simpl.
  unfold live_del, live_sRem. simpl.
  rewrite lookup_delete_ne by (first [exact Hne | exact Hne']).
  destruct (keyspace r !! "online_users") as [[|s|]|]; simpl;
    try apply lookup_delete_eq.
  destruct (decide (s ∖ {[u]} = ∅)); simpl.
  - rewrite lookup_delete_ne by (first [exact Hne | exact Hne']). apply lookup_delete_eq.
  - rewrite lookup_insert_ne by (first [exact Hne | exact Hne']). apply lookup_delete_eq.
Qed.

(** For any metadata object the record read back is the one that was
    written: [{ socketId, ...userData, lastSeen }]. *)
Lemma session_read_back (u s now : string) (m : js_object) (r : redis) :
  let r1 := snd (storeUserSession (Some live) u s m now r) in
  getUserSession (Some live) u r1 = (Returned (Some (session_record s m now)), r1).
Proof.
  intros r1. rewrite getUserSession_live. unfold r1.
  rewrite storeUserSession_live_key. reflexivity.
Qed.

(** The properties of the record that [storeUserSession] writes. *)
Lemma session_record_lookup (s now : string) (m : js_object) (k : string) :
  session_record s m now !! k
  = if decide (k = "lastSeen") then Some (JStr now)
    else match m !! k with
         | Some v => Some v
         | None => if decide (k = "socketId") then Some (JStr s) else None
         end.
Proof.
  unfold session_record.
  destruct (decide (k = "lastSeen")) as [->|Hk];
    [apply lookup_insert_eq|].
  rewrite lookup_insert_ne by congruence.
  rewrite lookup_union. destruct (m !! k) as [v|] eqn:Hm.
  - destruct ({["socketId" := JStr s]} !! k); reflexivity.
  - destruct (decide (k = "socketId")) as [->|Hk'].
    + rewrite lookup_singleton_eq. reflexivity.
    + rewrite lookup_singleton_ne by congruence. reflexivity.
Qed.

(** C7 (as the code has it). With the store reachable,
    [storeUserSession(u, s, m)] followed by [getUserSession(u)] returns the
    record [{ socketId: s, ...m, lastSeen: now }]: it holds the time of the
    call as [lastSeen], every other property of [m], and [s] as [socketId]
    when [m] has no [socketId] of its own; so for an [m] without
    [socketId] and [lastSeen] it holds [s] and all the fields of [m]. After
    [removeUserSession(u)], [getUserSession(u)] returns [null]. *)
Theorem session_round_trip (u s now : string) (m : js_object) (r : redis) :
  let r1 := snd (storeUserSession (Some live) u s m now r) in
  let r2 := snd (removeUserSession (Some live) u r1) in
  (exists record,
      getUserSession (Some live) u r1 = (Returned (Some record), r1) /\
      (forall k,
         record !! k
         = if decide (k = "lastSeen") then Some (JStr now)
           else match m !! k with
                | Some v => Some v
                | None =>
                    if decide (k = "socketId") then Some (JStr s) else None
                end) /\
      (m !! "socketId" = None -> record !! "socketId" = Some (JStr s)) /\
      (forall k v, k <> "lastSeen" -> m !! k = Some v -> record !! k = Some v) /\
      (m !! "socketId" = None -> m !! "lastSeen" = None ->
       record !! "socketId" = Some (JStr s) /\
       forall k v, m !! k = Some v -> record !! k = Some v)) /\
  getUserSession (Some live) u r2 = (Returned None, r2).
Proof.
  intros r1 r2. split.
  - exists (session_record s m now).
    split; [apply session_read_back|].
    assert (Hs : m !! "socketId" = None ->
                 session_record s m now !! "socketId" = Some (JStr s)).
    { intros Hm. rewrite session_record_lookup, Hm. reflexivity. }
    assert (Hf : forall k v, k <> "lastSeen" -> m !! k = Some v ->
                 session_record s m now !! k = Some v).
    { intros k v Hk Hm. rewrite session_record_lookup, Hm.
      destruct (decide (k = "lastSeen")); [contradiction|reflexivity]. }
    split; [apply session_record_lookup|].
    split; [exact Hs|]. split; [exact Hf|].
    intros Hm1 Hm2. split; [exact (Hs Hm1)|].
    intros k v Hm. apply Hf; [|exact Hm]. intros ->. congruence.
  - rewrite getUserSession_live. unfold r2.
    rewrite removeUserSession_live_key. reflexivity.
Qed.

(** An instance of C7: the metadata that [registerHandlers] passes for
    alice has neither [socketId] nor [lastSeen]. *)
Lemma session_round_trip_witness :
  let m := session_metadata alice "2024-01-01T09:00:00.000Z" in
  let r1 := snd (storeUserSession (Some live) "7" "Xq3vT0aLw9" m noon
                   redis_empty) in
  exists record,
    getUserSession (Some live) "7" r1 = (Returned (Some record), r1) /\
    record !! "socketId" = Some (JStr "Xq3vT0aLw9") /\
    record !! "email" = Some (JStr "alice@taskflow.com") /\
    record !! "role" = Some (JStr "team_member") /\
    record !! "connectedAt" = Some (JStr "2024-01-01T09:00:00.000Z").
Proof.
  intros m r1.
  destruct (session_round_trip "7" "Xq3vT0aLw9" noon m redis_empty)
    as ((record & Hget & _ & _ & _ & H) & _).
  assert (Hm1 : m !! "socketId" = None) by reflexivity.
  assert (Hm2 : m !! "lastSeen" = None) by reflexivity.
  destruct (H Hm1 Hm2) as (Hs & Hf).
  exists record. split; [exact Hget|]. split; [exact Hs|].
  split; [|split]; apply Hf; reflexivity.
Defined.

(** C7 as stated fails for a metadata object that has a [socketId] or a
    [lastSeen] of its own: the record read back holds the [socketId] of
    the metadata, the session id is nowhere in it, and the [lastSeen] of
    the metadata is gone. *)
Lemma stale_metadata_overrides_session_id :
  let m : js_object :=
    <["socketId" := JStr "stale"]> {["lastSeen" := JStr "yesterday"]} in
  let r1 := snd (storeUserSession (Some live) "7" "Xq3vT0aLw9" m noon
                   redis_empty) in
  exists record,
    getUserSession (Some live) "7" r1 = (Returned (Some record), r1) /\
    record !! "socketId" = Some (JStr "stale") /\
    (forall k, record !! k <> Some (JStr "Xq3vT0aLw9")) /\
    m !! "lastSeen" = Some (JStr "yesterday") /\
    record !! "lastSeen" = Some (JStr noon).
Proof.
  intros m r1. exists (session_record "Xq3vT0aLw9" m noon).
  split; [apply session_read_back|].
  split; [reflexivity|]. split; [|split; reflexivity].
  intros k. rewrite session_record_lookup.
  destruct (decide (k = "lastSeen")) as [->|Hk]; [discriminate|].
  unfold m. destruct (decide (k = "socketId")) as [->|Hk'].
  - rewrite lookup_insert_eq. discriminate.
  - rewrite lookup_insert_ne by congruence.
    rewrite lookup_singleton_ne by congruence.
    discriminate.
Qed.

Lemma drop_key_twice (k : string) (r : redis) :
  drop_key k (drop_key k r) = drop_key k r.
Proof. unfold drop_key. simpl. rewrite !delete_delete_eq. reflexivity. Qed.

Lemma clearOfflineNotifications_live (u : string) (r : redis) :
  clearOfflineNotifications (Some live) u r
  = (Returned tt, drop_key ("notifications:" +:+ u) r).
Proof. reflexivity. Qed.

(** C8. With the store reachable, after [clearOfflineNotifications(u)] the
    call [getOfflineNotifications(u)] returns the empty list, and a second
    [clearOfflineNotifications(u)] leaves the store as it is. *)
Theorem clear_then_get_is_empty (u : string) (r : redis) :
  let r1 := snd (clearOfflineNotifications (Some live) u r) in
  getOfflineNotifications (Some live) u r1 = (Returned [], r1) /\
  clearOfflineNotifications (Some live) u r1 = (Returned tt, r1).
Proof.
  intros r1. unfold r1. rewrite !clearOfflineNotifications_live. simpl.
  split.
  - unfold getOfflineNotifications, try_catch, bind. simpl.
    unfold live_lRange. simpl. rewrite lookup_delete_eq. reflexivity.
  - rewrite drop_key_twice. reflexivity.
Qed.

(** One call on a reachable server: the entry goes to the front and the
    list is cut to its first 50. *)
Lemma storeOfflineNotification_live_queue (u stamp suffix : string)
    (n : js_object) (r : redis) (q : list text) :
  offline_queue r u = Some q ->
  offline_queue
    (snd (storeOfflineNotification (Some live) u n stamp suffix r)) u
  = Some (take 50 (JSON_stringify (offline_entry n stamp suffix) :: q)).
Proof.
  unfold offline_queue. intros Hq.
  unfold storeOfflineNotification, try_catch, bind, ret. simpl.
  unfold live_lPush.
  destruct (keyspace r !! _) as [[| |l]|] eqn:Hk; try discriminate;
    injection Hq as <-; simpl;
    unfold live_lTrim; simpl; rewrite lookup_insert_eq;
    rewrite lrange_items_0_49; simpl;
    unfold live_expire; simpl; rewrite lookup_insert_eq; simpl;
    rewrite lookup_insert_eq; reflexivity.
Qed.

Lemma append_all_queue (u : string) (calls : list append_call) :
  forall (r : redis) (q : list text),
    offline_queue r u = Some q ->
    offline_queue (append_all u calls r) u
    = Some match calls with
           | [] => q
           | _ => take 50 (rev (map stored_text calls) ++ q)
           end.
Proof.
  induction calls as [|c calls IH]; intros r q Hq; [exact Hq|].
  apply (storeOfflineNotification_live_queue u (call_stamp c) (call_suffix c)
           (call_notification c)) in Hq.
  cbn [append_all]. rewrite (IH _ _ Hq). f_equal.
  destruct calls as [|c' calls]; [reflexivity|].
  change (JSON_stringify
            (offline_entry (call_notification c) (call_stamp c) (call_suffix c)))
    with (stored_text c).
  change (stored_text c :: q) with ([stored_text c] ++ q)%list.
  rewrite take_app_take. cbn [map rev]. rewrite <- !app_assoc. reflexivity.
Qed.

(** C2. On a reachable server, after every non-empty sequence of
    [storeOfflineNotification] calls for one user, that user's queue is the
    first 50 elements of: the appended entries, newest first, followed by
    what the queue held before. Its length is at most 50, and once 50 or
    more have been appended it is exactly the 50 most recent. *)
Theorem offline_queue_keeps_latest_50 (u : string)
    (calls : list append_call) (r : redis) (q0 : list text) :
  calls <> [] ->
  offline_queue r u = Some q0 ->
  let q := take 50 (rev (map stored_text calls) ++ q0) in
  offline_queue (append_all u calls r) u = Some q /\
  (length q <= 50)%nat /\
  ((50 <= length calls)%nat ->
   q = take 50 (rev (map stored_text calls))).
Proof.
  intros Hne Hq q. split; [|split].
  - rewrite (append_all_queue u calls r q0 Hq).
    destruct calls; [contradiction | reflexivity].
  - unfold q. rewrite length_take. lia.
  - intros Hlen. unfold q. apply take_app_le.
    rewrite length_rev, length_map. exact Hlen.
Qed.

(** The scenario of the specification: 51 notifications sent to a user
    with no queue leave exactly the 50 most recent. *)
Lemma offline_queue_keeps_latest_50_witness :
  let calls :=
    map (fun k => {| call_notification := {["title" := JNum (Z.of_nat k)]};
                     call_stamp := "1700000000000";
                     call_suffix := "k3j9x0q1z" |}) (seq 0 51) in
  calls <> [] /\
  offline_queue redis_empty "u1" = Some [] /\
  offline_queue (append_all "u1" calls redis_empty) "u1"
  = Some (take 50 (rev (map stored_text calls))).
Proof.
  intros calls.
  assert (Hne : calls <> []) by discriminate.
  assert (Hq : offline_queue redis_empty "u1" = Some []) by reflexivity.
  destruct (offline_queue_keeps_latest_50 "u1" calls redis_empty [] Hne Hq)
    as (H1 & _ & _).
  split; [exact Hne|]. split; [exact Hq|].
  rewrite H1. reflexivity.
Defined.

Lemma notifications_key_inj (u v : string) :
  "notifications:" +:+ u = "notifications:" +:+ v -> u = v.
Proof. simpl. intros [= H]. exact H. Qed.

(** A call for another user leaves the queue of [u] alone. *)
Lemma storeOfflineNotification_other_user (u v stamp suffix : string)
    (n : js_object) (r : redis) :
  u <> v ->
  offline_queue
    (snd (storeOfflineNotification (Some live) v n stamp suffix r)) u
  = offline_queue r u.
Proof.
  intros Huv.
  assert (Hk : "notifications:" +:+ v <> "notifications:" +:+ u)
    by (intros H; apply notifications_key_inj in H; congruence).
  unfold offline_queue, storeOfflineNotification, try_catch, bind, ret.
  cbv zeta.
  remember ("notifications:" +:+ v) as kv eqn:Ekv.
  remember ("notifications:" +:+ u) as ku eqn:Eku.
  simpl. unfold live_lPush.
  destruct (keyspace r !! kv) as [[| |l]|] eqn:Hv; simpl;
    try reflexivity;
    unfold live_lTrim; simpl; rewrite lookup_insert_eq;
    rewrite lrange_items_0_49; simpl;
    unfold live_expire; simpl; rewrite lookup_insert_eq; simpl;
    rewrite !lookup_insert_ne by exact Hk; reflexivity.
Qed.

(* ===================================================================== *)
(** ** Properties of config/rabbitmq.js *)
(* ===================================================================== *)

Lemma emits_ret (P : emission -> Prop) : emits P (ret tt).
Proof.
  exists []. split; [constructor|]. intros out. unfold ret.
  rewrite app_nil_r. reflexivity.
Qed.

Lemma emits_emit (P : emission -> Prop) (to : target) (name : string)
    (p : payload) :
  P {| em_to := to; em_event := name; em_payload := p |} ->
  emits P (emit to name p).
Proof.
  intros HP. eexists. split; [|intros out; reflexivity].
  constructor; [exact HP | constructor].
Qed.

Lemma emits_bind (P : emission -> Prop) (m k : eff io unit) :
  emits P m -> emits P k -> emits P (bind m (fun _ => k)).
Proof.
  intros (l1 & H1 & E1) (l2 & H2 & E2). exists (l1 ++ l2)%list. split.
  - apply Forall_app. split; assumption.
  - intros out. unfold bind. rewrite E1, E2, app_assoc. reflexivity.
Qed.

Lemma emits_forEach {A} (P : emission -> Prop) (l : list A)
    (f : A -> eff io unit) :
  (forall x, emits P (f x)) -> emits P (forEach l f).
Proof.
  intros Hf. induction l as [|x l IH]; simpl.
  - apply emits_ret.
  - apply emits_bind; [apply Hf | exact IH].
Qed.

Lemma other_than_Some (actor uid : string) (who : option user_ref) :
  other_than actor who = Some uid ->
  uid <> actor /\ uid <> EmptyString /\
  exists r, who = Some r /\ ref_userId r = uid.
Proof.
  unfold other_than, truthy. destruct who as [r|]; [|discriminate].
  repeat case_bool_decide; simpl; try discriminate.
  intros [= <-]. eauto.
Qed.

Lemma emits_notify_other (actor : string) (roles : bool)
    (who : option user_ref) (n : notification) :
  emits (targeted_away_from actor roles) (notify_other who actor n).
Proof.
  unfold notify_other. destruct (other_than actor who) as [uid|] eqn:E.
  - apply other_than_Some in E as (Hne & _ & _).
    apply emits_emit. split; [reflexivity|]. left. eauto.
  - apply emits_ret.
Qed.

Lemma emits_notify_watchers (actor : string) (roles : bool) (t : task)
    (n : notification) :
  emits (targeted_away_from actor roles) (notify_watchers t actor n).
Proof.
  unfold notify_watchers. destruct (watchers t) as [ws|]; [|apply emits_ret].
  apply emits_forEach. intros w. case_bool_decide; simpl.
  - apply emits_ret.
  - apply emits_emit. split; [reflexivity|]. left. eauto.
Qed.

Lemma emits_role_channel (actor role : string) (n : notification) :
  role = "project_manager" \/ role = "admin" ->
  emits (targeted_away_from actor true)
    (emit (ToRoom ("role:" +:+ role)) "notification" (PNotification n)).
Proof.
  intros Hr. apply emits_emit. split; [reflexivity|]. right.
  split; [reflexivity|]. destruct Hr as [-> | ->]; [left|right]; reflexivity.
Qed.

Lemma broadcast_after_emit (P : emission -> Prop) (last : emission)
    (m k : eff io unit) :
  emits P m -> notifies_then P last k ->
  notifies_then P last (bind m (fun _ => k)).
Proof.
  intros (l1 & H1 & E1) (l2 & H2 & E2). exists (l1 ++ l2)%list. split.
  - apply Forall_app. split; assumption.
  - intros out. unfold bind. rewrite E1, E2, !app_assoc. reflexivity.
Qed.

Lemma broadcast_alone (P : emission -> Prop) (ev : event) (t : task) :
  notifies_then P (task_update_of ev t) (emit_task_update ev t).
Proof.
  exists []. split; [constructor|]. intros out. reflexivity.
Qed.

(** The shape of a run of [handleTaskEvent] on an event of an enumerated
    type: notifications addressed away from the actor (role channels only
    for [created]), then the broadcast. *)
Lemma handleTaskEvent_enumerated (ev : event) (now : string) (t : task) :
  event_task ev = Some t ->
  enumerated (eventType ev) ->
  notifies_then
    (targeted_away_from (event_userId ev)
       (bool_decide (eventType ev = "created")))
    (task_update_of ev t)
    (handleTaskEvent ev now).
Proof.
  intros Ht Hen. unfold handleTaskEvent. rewrite Ht.
  destruct Hen as [E|[E|[E|[E|E]]]]; rewrite E; simpl;
    repeat first
      [ apply broadcast_alone
      | apply broadcast_after_emit
      | apply emits_notify_watchers
      | apply emits_notify_other
      | apply (emits_role_channel _ "project_manager"); left; reflexivity
      | apply (emits_role_channel _ "admin"); right; reflexivity ].
  (* the mentions of a comment *)
  destruct (newComment t) as [[c [ms|]]|]; try apply emits_ret.
  apply emits_forEach. intros w. case_bool_decide; simpl.
  - apply emits_ret.
  - apply emits_emit. split; [reflexivity|]. left. eauto.
Qed.

(** An event of any other type, or one without a task, emits nothing. *)
Lemma handleTaskEvent_other (ev : event) (now : string) (out : io) :
  ~ enumerated (eventType ev) \/ event_task ev = None ->
  snd (handleTaskEvent ev now out) = out.
Proof.
  unfold handleTaskEvent, enumerated. intros [Hne|Hnone].
  - destruct (event_task ev); [|reflexivity].
    repeat case_bool_decide; tauto || reflexivity.
  - rewrite Hnone. reflexivity.
Qed.

Lemma user_channel_inj (a b : string) :
  ToRoom ("user:" +:+ a) = ToRoom ("user:" +:+ b) -> a = b.
Proof. simpl. intros [= H]. exact H. Qed.

Lemma role_channel_inj (a b : string) : "role:" +:+ a = "role:" +:+ b -> a = b.
Proof. simpl. intros [= H]. exact H. Qed.

Lemma emitted_frame (ev : event) (now : string) (out : io) :
  handleTaskEvent ev now out
  = (fst (handleTaskEvent ev now []), (out ++ emitted ev now)%list).
Proof.
  unfold emitted.
  destruct (event_task ev) as [t|] eqn:Ht;
    [destruct (decide (enumerated (eventType ev))) as [Hen|Hen]|].
  - destruct (handleTaskEvent_enumerated ev now t Ht Hen) as (l & _ & E).
    rewrite (E out), (E []). reflexivity.
  - pose proof (handleTaskEvent_other ev now out (or_introl Hen)) as H1.
    pose proof (handleTaskEvent_other ev now [] (or_introl Hen)) as H2.
    rewrite H2, app_nil_r.
    unfold handleTaskEvent in *. rewrite Ht in *.
    repeat case_bool_decide; unfold enumerated in Hen; tauto || reflexivity.
  - unfold handleTaskEvent. rewrite Ht. simpl. rewrite app_nil_r. reflexivity.
Qed.

Lemma emitted_enumerated (ev : event) (now : string) (t : task) :
  event_task ev = Some t ->
  enumerated (eventType ev) ->
  exists l,
    Forall (targeted_away_from (event_userId ev)
              (bool_decide (eventType ev = "created"))) l /\
    emitted ev now = (l ++ [task_update_of ev t])%list.
Proof.
  intros Ht Hen.
  destruct (handleTaskEvent_enumerated ev now t Ht Hen) as (l & Hl & E).
  exists l. split; [exact Hl|]. unfold emitted. rewrite E. reflexivity.
Qed.

Lemma emitted_other (ev : event) (now : string) :
  ~ enumerated (eventType ev) \/ event_task ev = None ->
  emitted ev now = [].
Proof. intros H. unfold emitted. apply handleTaskEvent_other. exact H. Qed.

Lemma targeted_away_not_actor (actor : string) (roles : bool) (e : emission) :
  targeted_away_from actor roles e ->
  em_to e <> ToRoom ("user:" +:+ actor).
Proof.
  intros (_ & [(uid & Hne & ->) | (_ & [-> | ->])]).
  - intros H. apply user_channel_inj in H. contradiction.
  - simpl. discriminate.
  - simpl. discriminate.
Qed.

Lemma targeted_away_heard (actor : string) (roles : bool) (e : emission)
    (sid : string) (rooms : gset string) :
  targeted_away_from actor roles e ->
  in_audience sid rooms (em_to e) = true ->
  (exists uid, uid <> actor /\ "user:" +:+ uid ∈ rooms) \/
  (roles = true /\ ("role:project_manager" ∈ rooms \/ "role:admin" ∈ rooms)).
Proof.
  intros (_ & [(uid & Hne & ->) | (Hr & [-> | ->])]) Hin;
    cbn [in_audience] in Hin; apply bool_decide_eq_true in Hin; eauto.
Qed.

(** The emissions of a [created] event. *)
Lemma emitted_created (ev : event) (now : string) (t : task) :
  eventType ev = "created" ->
  event_task ev = Some t ->
  emitted ev now
  = (match other_than (event_userId ev) (assignedTo t) with
     | Some uid =>
         [notification_to ("user:" +:+ uid) (assignment_notification ev t now)]
     | None => []
     end
     ++ [notification_to "role:project_manager" (created_notification ev t now);
         notification_to "role:admin" (created_notification ev t now);
         task_update_of ev t])%list.
Proof.
  intros Hc Ht. unfold emitted, handleTaskEvent. rewrite Ht.
  rewrite bool_decide_eq_true_2 by exact Hc.
  unfold bind, notify_other, created_notification, assignment_notification,
    notification_to, task_update_of.
  destruct (other_than _ _); simpl; rewrite Hc; reflexivity.
Qed.

(** Every notification of an event is addressed away from its actor. *)
Lemma notification_targeted_away (ev : event) (now : string) (e : emission) :
  e ∈ emitted ev now -> em_event e = "notification" ->
  is_Some (event_task ev) /\
  targeted_away_from (event_userId ev)
    (bool_decide (eventType ev = "created")) e.
Proof.
  intros He Hname.
  destruct (event_task ev) as [t|] eqn:Ht;
    [destruct (decide (enumerated (eventType ev))) as [Hen|Hen]|].
  - destruct (emitted_enumerated ev now t Ht Hen) as (l & Hl & E).
    rewrite E, elem_of_app, list_elem_of_singleton in He.
    destruct He as [He | ->]; [|discriminate Hname].
    rewrite Forall_forall in Hl. split; [eauto|]. exact (Hl e He).
  - rewrite (emitted_other ev now (or_introl Hen)) in He.
    apply elem_of_nil in He. contradiction.
  - rewrite (emitted_other ev now (or_intror Ht)) in He.
    apply elem_of_nil in He. contradiction.
Qed.

Lemma notification_addressee (ev : event) (now : string) (e : emission) :
  e ∈ emitted ev now -> em_event e = "notification" ->
  em_to e <> ToRoom ("user:" +:+ event_userId ev) /\
  ((exists uid, uid <> event_userId ev /\ em_to e = ToRoom ("user:" +:+ uid)) \/
   (eventType ev = "created" /\
    (em_to e = ToRoom "role:project_manager" \/ em_to e = ToRoom "role:admin"))).
Proof.
  intros He Hname.
  destruct (notification_targeted_away ev now e He Hname) as (_ & Hta).
  split; [eapply targeted_away_not_actor; exact Hta|].
  destruct Hta as (_ & [Hu | (Hc & Hr)]); [left; exact Hu|].
  apply bool_decide_eq_true in Hc. right. auto.
Qed.

(** A session receives a notification of an event only through a room it
    is a member of. *)
Lemma reception_needs_membership (ev : event) (now : string) (sid : string)
    (rooms : gset string) :
  receives_notification sid rooms (emitted ev now) ->
  (exists uid, uid <> event_userId ev /\ "user:" +:+ uid ∈ rooms) \/
  (eventType ev = "created" /\ is_Some (event_task ev) /\
   ("role:project_manager" ∈ rooms \/ "role:admin" ∈ rooms)).
Proof.
  intros (e & He & Hname & Hin).
  destruct (notification_targeted_away ev now e He Hname) as (Hsome & Hta).
  destruct (targeted_away_heard _ _ e sid rooms Hta Hin) as [Hu | (Hc & Hr)];
    [left; exact Hu|].
  apply bool_decide_eq_true in Hc. right. auto.
Qed.

Lemma created_received_in_role_rooms (ev : event) (now : string) (t : task)
    (sid : string) (rooms : gset string) :
  eventType ev = "created" -> event_task ev = Some t ->
  "role:project_manager" ∈ rooms \/ "role:admin" ∈ rooms ->
  receives_notification sid rooms (emitted ev now).
Proof.
  intros Hc Ht Hrole. unfold receives_notification.
  rewrite (emitted_created ev now t Hc Ht).
  destruct Hrole as [Hr|Hr];
    [exists (notification_to "role:project_manager"
               (created_notification ev t now))
    |exists (notification_to "role:admin" (created_notification ev t now))];
    (split; [|split; [reflexivity|]]);
    try (rewrite elem_of_app, !elem_of_cons; auto);
    cbn [in_audience notification_to em_to]; apply bool_decide_eq_true;
    exact Hr.
Qed.

Lemma rooms_at_connection_user (u : user) (sid uid : string) :
  ~ channel_name sid ->
  "user:" +:+ uid ∈ rooms_at_connection u sid <-> uid = user_id u.
Proof.
  intros Hsid. unfold rooms_at_connection.
  rewrite !elem_of_union, !elem_of_singleton. split.
  - intros H.
    repeat match goal with H : _ \/ _ |- _ => destruct H as [H|H] end.
    + exfalso. apply Hsid. exists uid. left. symmetry. exact H.
    + simpl in H. injection H as H. exact H.
    + simpl in H. discriminate H.
  - intros ->. auto.
Qed.

Lemma rooms_at_connection_role (u : user) (sid role : string) :
  ~ channel_name sid ->
  "role:" +:+ role ∈ rooms_at_connection u sid <-> role = user_role u.
Proof.
  intros Hsid. unfold rooms_at_connection.
  rewrite !elem_of_union, !elem_of_singleton. split.
  - intros H.
    repeat match goal with H : _ \/ _ |- _ => destruct H as [H|H] end.
    + exfalso. apply Hsid. exists role. right. symmetry. exact H.
    + simpl in H. discriminate H.
    + simpl in H. injection H as H. exact H.
  - intros ->. auto.
Qed.

(** A session of the actor that is in the rooms it was put in at connection
    receives a notification of the event exactly when the event is a
    [created] one carrying a task and the actor's role is one of the two
    that are addressed. *)
Lemma actor_session_at_connection (ev : event) (now : string) (u : user)
    (sid : string) :
  user_id u = event_userId ev -> ~ channel_name sid ->
  (receives_notification sid (rooms_at_connection u sid) (emitted ev now) <->
   eventType ev = "created" /\ is_Some (event_task ev) /\
   (user_role u = "project_manager" \/ user_role u = "admin")).
Proof.
  intros Hu Hsid. split.
  - intros Hrec.
    destruct (reception_needs_membership ev now sid _ Hrec)
      as [(uid & Hne & Hin) | (Hc & Hsome & Hr)].
    + apply (rooms_at_connection_user u sid uid Hsid) in Hin. congruence.
    + split; [exact Hc|]. split; [exact Hsome|].
      destruct Hr as [Hr|Hr].
      * apply (rooms_at_connection_role u sid "project_manager" Hsid) in Hr.
        left. symmetry. exact Hr.
      * apply (rooms_at_connection_role u sid "admin" Hsid) in Hr.
        right. symmetry. exact Hr.
  - intros (Hc & [t Ht] & Hr).
    apply (created_received_in_role_rooms ev now t sid _ Hc Ht).
    destruct Hr as [Hr|Hr]; [left|right];
      [apply (rooms_at_connection_role u sid "project_manager" Hsid)
      |apply (rooms_at_connection_role u sid "admin" Hsid)];
      symmetry; exact Hr.
Qed.

(** C1 (as the code has it). Whatever the event, no ['notification'] that
    [handleTaskEvent] emits is addressed to the user channel of the actor:
    each is addressed to the user channel of somebody else or, for a
    [created] event only, to [role:project_manager] or [role:admin]. A
    session, whatever rooms it is in, receives a notification of the event
    only as a member of the user channel of somebody other than the actor
    or, for a [created] event, of one of the two role channels; a member of
    one of these two does receive the notification of a [created] event.
    For a session of the actor that is in the rooms it was put in at
    connection and no other, a notification is received exactly when the
    event is [created] and the actor's role is [project_manager] or
    [admin]. *)
Theorem actor_excluded_from_user_channels (ev : event) (now : string) :
  (forall e, e ∈ emitted ev now -> em_event e = "notification" ->
     em_to e <> ToRoom ("user:" +:+ event_userId ev) /\
     ((exists uid, uid <> event_userId ev /\
                   em_to e = ToRoom ("user:" +:+ uid)) \/
      (eventType ev = "created" /\
       (em_to e = ToRoom "role:project_manager" \/
        em_to e = ToRoom "role:admin")))) /\
  (forall (sid : string) (rooms : gset string),
     receives_notification sid rooms (emitted ev now) ->
     (exists uid, uid <> event_userId ev /\ "user:" +:+ uid ∈ rooms) \/
     (eventType ev = "created" /\ is_Some (event_task ev) /\
      ("role:project_manager" ∈ rooms \/ "role:admin" ∈ rooms))) /\
  (forall (t : task) (sid : string) (rooms : gset string),
     eventType ev = "created" -> event_task ev = Some t ->
     "role:project_manager" ∈ rooms \/ "role:admin" ∈ rooms ->
     receives_notification sid rooms (emitted ev now)) /\
  (forall (u : user) (sid : string),
     user_id u = event_userId ev -> ~ channel_name sid ->
     (receives_notification sid (rooms_at_connection u sid) (emitted ev now)
      <->
      eventType ev = "created" /\ is_Some (event_task ev) /\
      (user_role u = "project_manager" \/ user_role u = "admin"))).
Proof.
  split; [|split; [|split]].
  - apply notification_addressee.
  - apply reception_needs_membership.
  - apply created_received_in_role_rooms.
  - apply actor_session_at_connection.
Qed.

(** The [status_changed] scenario of the specification: A (watcher) and C
    (creator) are notified, B (actor, watcher and assignee) is not. *)
Example fix_bug_done_emitted :
  map em_to (emitted fix_bug_done noon)
  = [ToRoom "user:A"; ToRoom "user:C"; ToAll].
Proof. reflexivity. Qed.

(** An instance of C1 on that scenario: the notification sent to A is not
    addressed to B, the actor, and a session of B that is in the rooms it
    was put in at connection receives no notification, B being an
    administrator or not. *)
Lemma actor_excluded_from_user_channels_witness :
  (exists e,
     e ∈ emitted fix_bug_done noon /\ em_event e = "notification" /\
     em_to e <> ToRoom ("user:" +:+ event_userId fix_bug_done)) /\
  ~ receives_notification "Xq3vT0aLw9"
      (rooms_at_connection
         {| user_id := "B"; user_email := "B@taskflow.com";
            user_role := "admin" |} "Xq3vT0aLw9")
      (emitted fix_bug_done noon).
Proof.
  destruct (actor_excluded_from_user_channels fix_bug_done noon)
    as (H & _ & _ & H4).
  split.
  - eexists.
    assert (He : forall (x : emission) l, x ∈ x :: l)
      by (intros; apply elem_of_cons; auto).
    split; [apply He|]. split; [reflexivity|].
    exact (proj1 (H _ (He _ _) eq_refl)).
  - assert (Hsid : ~ channel_name "Xq3vT0aLw9")
      by (intros [x [Hx|Hx]]; simpl in Hx; discriminate Hx).
    intros Hn.
    destruct (proj1 (H4 {| user_id := "B"; user_email := "B@taskflow.com";
                           user_role := "admin" |}
                        "Xq3vT0aLw9" eq_refl Hsid) Hn) as (Hc & _).
    discriminate Hc.
Defined.

(** C1 as stated fails: a project manager who creates a task is reached by
    the notification that the event sends to [role:project_manager]. *)
Lemma actor_reached_through_role_channel :
  enumerated (eventType unassigned_created) /\
  user_id (U1_as "project_manager") = event_userId unassigned_created /\
  ~ (forall e, e ∈ emitted unassigned_created noon ->
               em_event e = "notification" ->
               reaches e (U1_as "project_manager") = false).
Proof.
  split; [left; reflexivity|]. split; [reflexivity|].
  intros H.
  specialize (H (notification_to "role:project_manager"
                   (created_notification unassigned_created
                      {| _id := "T3"; title := "Plan sprint"; status := "todo";
                         assignedTo := None; createdBy := Some (ref "U1");
                         watchers := None; newComment := None |} noon))).
  assert (Hin : forall (x : emission) l, x ∈ x :: l)
    by (intros; apply elem_of_cons; auto).
  specialize (H (Hin _ _) eq_refl). discriminate H.
Qed.

Lemma other_than_assignee (actor : string) (a : user_ref) :
  ref_userId a <> EmptyString -> ref_userId a <> actor ->
  other_than actor (Some a) = Some (ref_userId a).
Proof.
  intros Hne Hna. unfold other_than, truthy.
  rewrite !bool_decide_eq_false_2 by assumption. reflexivity.
Qed.

(** C3 (as the code has it). For a [created] event whose task is assigned
    to U2 (a non-empty id) by another actor U1, [handleTaskEvent] emits, in
    this order: the assignment message to [user:U2], the generic created
    message to [role:project_manager] and to [role:admin], and the
    broadcast. No notification is addressed to [user:U1]. A session,
    whatever rooms it is in, receives a notification of the event exactly
    when it is a member of [user:U2], [role:project_manager] or
    [role:admin]; so a session of U1 that is in the rooms it was put in at
    connection and no other receives one exactly when U1's role is
    [project_manager] or [admin]. *)
Theorem created_event_recipients (ev : event) (now : string) (t : task)
    (a : user_ref) :
  eventType ev = "created" ->
  event_task ev = Some t ->
  assignedTo t = Some a ->
  ref_userId a <> EmptyString ->
  ref_userId a <> event_userId ev ->
  emitted ev now
  = [notification_to ("user:" +:+ ref_userId a) (assignment_notification ev t now);
     notification_to "role:project_manager" (created_notification ev t now);
     notification_to "role:admin" (created_notification ev t now);
     task_update_of ev t] /\
  (forall e, e ∈ emitted ev now -> em_event e = "notification" ->
     em_to e <> ToRoom ("user:" +:+ event_userId ev)) /\
  (forall (sid : string) (rooms : gset string),
     receives_notification sid rooms (emitted ev now) <->
     "user:" +:+ ref_userId a ∈ rooms \/
     "role:project_manager" ∈ rooms \/ "role:admin" ∈ rooms) /\
  (forall (u : user) (sid : string),
     user_id u = event_userId ev -> ~ channel_name sid ->
     (receives_notification sid (rooms_at_connection u sid) (emitted ev now)
      <-> user_role u = "project_manager" \/ user_role u = "admin")).
Proof.
  intros Hc Ht Ha Hne Hna.
  assert (E : emitted ev now
              = [notification_to ("user:" +:+ ref_userId a)
                   (assignment_notification ev t now);
                 notification_to "role:project_manager"
                   (created_notification ev t now);
                 notification_to "role:admin" (created_notification ev t now);
                 task_update_of ev t]).
  { rewrite (emitted_created ev now t Hc Ht), Ha.
    rewrite (other_than_assignee _ a Hne Hna). reflexivity. }
  split; [exact E|]. split; [|split].
  - intros e He Hname. apply (notification_addressee ev now e He Hname).
  - intros sid rooms. rewrite E. unfold receives_notification. split.
    + intros (e & He & Hname & Hin).
      rewrite !elem_of_cons, elem_of_nil in He.
      destruct He as [->|[->|[->|[->|[]]]]];
        try discriminate Hname;
        cbn [in_audience notification_to em_to] in Hin;
        apply bool_decide_eq_true in Hin; auto.
    + intros [Hr|[Hr|Hr]];
        [exists (notification_to ("user:" +:+ ref_userId a)
                   (assignment_notification ev t now))
        |exists (notification_to "role:project_manager"
                   (created_notification ev t now))
        |exists (notification_to "role:admin"
                   (created_notification ev t now))];
        (split; [rewrite !elem_of_cons; auto|]);
        (split; [reflexivity|]);
        cbn [in_audience notification_to em_to]; apply bool_decide_eq_true;
        exact Hr.
  - intros u sid Hu Hsid.
    rewrite (actor_session_at_connection ev now u sid Hu Hsid).
    rewrite Ht. split; [tauto|]. intros Hr. split; [exact Hc|]. split; eauto.
Qed.

(** An instance of C3: U1, a team member, creates a task assigned to U2. *)
Lemma created_event_recipients_witness :
  map em_to (emitted new_task_created noon)
  = [ToRoom "user:U2"; ToRoom "role:project_manager"; ToRoom "role:admin"; ToAll]
  /\ ~ receives_notification "Xq3vT0aLw9"
         (rooms_at_connection (U1_as "team_member") "Xq3vT0aLw9")
         (emitted new_task_created noon).
Proof.
  assert (H1 : ref_userId (ref "U2") <> EmptyString) by discriminate.
  assert (H2 : ref_userId (ref "U2") <> event_userId new_task_created)
    by discriminate.
  assert (Hsid : ~ channel_name "Xq3vT0aLw9")
    by (intros [x [Hx|Hx]]; simpl in Hx; discriminate Hx).
  destruct (created_event_recipients new_task_created noon new_task (ref "U2")
              eq_refl eq_refl eq_refl H1 H2) as (E & _ & _ & H).
  split.
  - rewrite E. reflexivity.
  - intros Hn. apply (H (U1_as "team_member") "Xq3vT0aLw9" eq_refl Hsid) in Hn.
    destruct Hn as [Hn|Hn]; discriminate Hn.
Defined.

(** C3 as stated fails: when U1 is an administrator, the notification sent
    to [role:admin] reaches U1. *)
Lemma creator_with_admin_role_is_notified :
  eventType new_task_created = "created" /\
  user_id (U1_as "admin") = event_userId new_task_created /\
  ~ (forall e, e ∈ emitted new_task_created noon ->
               em_event e = "notification" ->
               reaches e (U1_as "admin") = false).
Proof.
  split; [reflexivity|]. split; [reflexivity|].
  intros H.
  specialize (H (notification_to "role:admin"
                   (created_notification new_task_created new_task noon))).
  assert (Hin : notification_to "role:admin"
                  (created_notification new_task_created new_task noon)
                ∈ emitted new_task_created noon).
  { change (emitted new_task_created noon)
      with [notification_to "user:U2"
              (assignment_notification new_task_created new_task noon);
            notification_to "role:project_manager"
              (created_notification new_task_created new_task noon);
            notification_to "role:admin"
              (created_notification new_task_created new_task noon);
            task_update_of new_task_created new_task].
    rewrite !elem_of_cons. auto. }
  specialize (H Hin eq_refl). discriminate H.
Qed.

Lemma task_updates_of_notifications (actor : string) (roles : bool)
    (l : list emission) :
  Forall (targeted_away_from actor roles) l -> task_updates l = [].
Proof.
  unfold task_updates. induction 1 as [|e l (Hname & _) _ IH]; [reflexivity|].
  rewrite filter_cons_False; [exact IH|].
  rewrite Hname. discriminate.
Qed.

(** C4 (as the code has it). For an event that carries a task: when its
    type is one of the five that the switch names, [handleTaskEvent]
    returns and emits exactly one ['task:update'], to all sessions, with
    the event type, the task, the actor and the event's timestamp, after
    the notifications; for any other type it returns and emits nothing. *)
Theorem task_update_broadcast (ev : event) (now : string) (t : task) :
  event_task ev = Some t ->
  fst (handleTaskEvent ev now []) = Returned tt /\
  (enumerated (eventType ev) ->
   task_updates (emitted ev now) = [task_update_of ev t] /\
   exists l, emitted ev now = (l ++ [task_update_of ev t])%list) /\
  (~ enumerated (eventType ev) -> emitted ev now = []).
Proof.
  intros Ht. split; [|split].
  - destruct (decide (enumerated (eventType ev))) as [Hen|Hen].
    + destruct (handleTaskEvent_enumerated ev now t Ht Hen) as (l & _ & E).
      rewrite E. reflexivity.
    + unfold handleTaskEvent, enumerated in *. rewrite Ht.
      repeat case_bool_decide; tauto || reflexivity.
  - intros Hen.
    destruct (emitted_enumerated ev now t Ht Hen) as (l & Hl & E).
    split; [|eauto]. rewrite E. unfold task_updates. rewrite filter_app.
    fold (task_updates l).
    rewrite (task_updates_of_notifications _ _ l Hl). reflexivity.
  - intros Hen. apply emitted_other. left. exact Hen.
Qed.

(** An instance of C4: the [status_changed] scenario. *)
Lemma task_update_broadcast_witness :
  task_updates (emitted fix_bug_done noon)
  = [task_update_of fix_bug_done fix_bug].
Proof.
  destruct (task_update_broadcast fix_bug_done noon fix_bug eq_refl)
    as (_ & H & _).
  apply H. right. right. left. reflexivity.
Defined.

(** C4 as stated fails: an event of a type outside the five is not
    broadcast. *)
Lemma unknown_event_type_is_not_broadcast :
  ~ enumerated (eventType new_task_archived) /\
  event_task new_task_archived = Some new_task /\
  handleTaskEvent new_task_archived noon [] = (Returned tt, []) /\
  length (task_updates (emitted new_task_archived noon)) <> 1%nat.
Proof.
  split; [|split; [reflexivity|split; [reflexivity|]]].
  - unfold enumerated. simpl. intros [H|[H|[H|[H|H]]]]; discriminate H.
  - simpl. discriminate.
Qed.

(* --------------------------------------------------------------------- *)
(** *** The consumer *)
(* --------------------------------------------------------------------- *)

Lemma on_message_settles (msg : message) (now : string) (ch : channel)
    (out : io) :
  on_message (Some msg) now (ch, out)
  = (Returned tt,
     (if processed msg now out then snd (ack msg ch)
      else snd (nack msg false ch),
      match msg_content msg with
      | EventJson e => (out ++ emitted e now)%list
      | NotJson => out
      end)).
Proof.
  unfold on_message, processed, try_catch, bind, on_snd, on_fst. simpl.
  destruct (msg_content msg) as [e|]; simpl; [|reflexivity].
  rewrite (emitted_frame e now out). simpl.
  destruct (handleTaskEvent e now []) as [[[]|err] l]; reflexivity.
Qed.

Lemma deliver_next_step (clock : nat -> string) (ch : channel) (out : io) :
  exists ch' out',
    deliver_next clock (ch, out) = (Returned tt, (ch', out')) /\
    ready ch' = tail (ready ch) /\
    deliveries ch' = (deliveries ch ++ take 1 (ready ch))%list.
Proof.
  unfold deliver_next. cbn [fst snd].
  destruct (ready ch) as [|msg rest] eqn:E.
  - exists ch, out. rewrite E, app_nil_r. auto.
  - rewrite on_message_settles. eexists _, _. split; [reflexivity|].
    destruct (processed _ _ _); simpl; auto.
Qed.

Lemma consume_drains (clock : nat -> string) (n : nat) :
  forall (ch : channel) (out : io),
  exists ch' out',
    consume n clock (ch, out) = (Returned tt, (ch', out')) /\
    ready ch' = drop n (ready ch) /\
    deliveries ch' = (deliveries ch ++ take n (ready ch))%list.
Proof.
  induction n as [|n IH]; intros ch out.
  - exists ch, out. simpl. rewrite drop_0, app_nil_r. auto.
  - destruct (deliver_next_step clock ch out) as (ch1 & out1 & E1 & R1 & D1).
    destruct (IH ch1 out1) as (ch2 & out2 & E2 & R2 & D2).
    exists ch2, out2. cbn [consume]. unfold bind. rewrite E1, E2.
    split; [reflexivity|]. rewrite R2, D2, R1, D1.
    destruct (ready ch) as [|m q]; simpl;
      rewrite ?drop_nil, ?take_nil, ?take_0, ?app_nil_r, <- ?app_assoc; auto.
Qed.

(** C5. The callback of [task_notifications] never throws. When the
    payload parses and [handleTaskEvent] returns, the message is
    acknowledged; when either throws, it is rejected with requeue = false.
    Either way the message is settled and the queue is left as it was, so
    a consumer that is handed a queue delivers each message once. *)
Theorem consumer_acks_or_drops (msg : message) (now : string) (ch : channel)
    (out : io) (clock : nat -> string) (n : nat) :
  let w := on_message (Some msg) now (ch, out) in
  fst w = Returned tt /\
  fst (snd w) = (if processed msg now out then snd (ack msg ch)
                 else snd (nack msg false ch)) /\
  ready (fst (snd w)) = ready ch /\
  dropped (fst (snd w))
  = (if processed msg now out then dropped ch
     else dropped ch ++ [msg])%list /\
  (forall m, m ∈ unacked (fst (snd w)) -> deliveryTag m <> deliveryTag msg) /\
  (let w' := consume n clock (ch, out) in
   fst w' = Returned tt /\
   ready (fst (snd w')) = drop n (ready ch) /\
   deliveries (fst (snd w')) = (deliveries ch ++ take n (ready ch))%list).
Proof.
  intros w. unfold w. rewrite on_message_settles. simpl.
  split; [reflexivity|]. split; [reflexivity|].
  split; [destruct (processed msg now out); reflexivity|].
  split; [destruct (processed msg now out); reflexivity|].
  split.
  - intros m Hm.
    assert (Hs : m ∈ settle msg (unacked ch))
      by (destruct (processed msg now out); exact Hm).
    unfold settle in Hs. apply list_elem_of_filter in Hs. tauto.
  - destruct (consume_drains clock n ch out) as (ch' & out' & E & R & D).
    rewrite E. simpl. auto.
Qed.

(** The two outcomes on sample messages: an event that is processed, a
    payload that is not JSON, and an event without a task. *)
Example processed_message_is_acked :
  let msg := sample_message 1 (EventJson fix_bug_done) in
  let ch := {| ready := []; unacked := [msg]; deliveries := [msg];
               dropped := [] |} in
  fst (snd (on_message (Some msg) noon (ch, [])))
  = {| ready := []; unacked := []; deliveries := [msg]; dropped := [] |}.
Proof. reflexivity. Qed.

Example malformed_message_is_dropped :
  let msg := sample_message 2 NotJson in
  let ch := {| ready := []; unacked := [msg]; deliveries := [msg];
               dropped := [] |} in
  on_message (Some msg) noon (ch, [])
  = (Returned tt,
     ({| ready := []; unacked := []; deliveries := [msg]; dropped := [msg] |},
      [])).
Proof. reflexivity. Qed.

Example failing_message_is_dropped :
  let msg := sample_message 3
               (EventJson {| eventType := "created"; event_task := None;
                             event_userId := "U1";
                             event_timestamp := noon |}) in
  let ch := {| ready := []; unacked := [msg]; deliveries := [msg];
               dropped := [] |} in
  on_message (Some msg) noon (ch, [])
  = (Returned tt,
     ({| ready := []; unacked := []; deliveries := [msg]; dropped := [msg] |},
      [])).
Proof. reflexivity. Qed.

(* ===================================================================== *)
(** ** Properties of handlers/socketHandlers.js *)
(* ===================================================================== *)


Lemma push_online_users_spec (socket : Socket) (sockets : list Socket) :
  forall acc : list online_user,
  exists entries,
    push_online_users socket sockets acc = (acc ++ entries)%list /\
    Forall2 entry_of (other_sessions socket sockets) entries.
Proof.
  unfold other_sessions.
  induction sockets as [|c sockets IH]; intros acc; simpl.
  - exists []. rewrite app_nil_r. split; [reflexivity | constructor].
  - destruct (socket_user c) as [u|] eqn:Hu.
    + case_bool_decide as Hid; simpl.
      * destruct (IH acc) as (entries & E & F). exists entries.
        split; [exact E|].
        rewrite filter_cons_False; [exact F | tauto].
      * destruct (IH (acc ++ [online_entry u])%list) as (entries & E & F).
        exists (online_entry u :: entries). split.
        { rewrite E, <- app_assoc. reflexivity. }
        rewrite filter_cons_True by (split; [rewrite Hu; eauto | exact Hid]).
        constructor; [exists u; repeat split; exact Hu | exact F].
    + destruct (IH acc) as (entries & E & F). exists entries.
      split; [exact E|].
      rewrite filter_cons_False; [exact F|].
      intros [[u Hsome] _]. congruence.
Qed.

(** C9. The [get:online_users] handler answers the requesting session with
    one entry for each other authenticated session, in connection order,
    whose [userId], [email] and [role] are those of the user of that
    session; the requesting session contributes no entry. *)
Theorem online_users_lists_other_sessions (socket : Socket)
    (sockets : list Socket) (out : io) :
  exists onlineUsers,
    on_get_online_users socket sockets out
    = (Returned tt,
       (out ++ [{| em_to := ToSocket (socket_id socket);
                   em_event := "online_users";
                   em_payload := POnlineUsers onlineUsers |}])%list) /\
    Forall2
      (fun (c : Socket) (entry : online_user) =>
         exists u, socket_user c = Some u /\
                   ou_userId entry = user_id u /\
                   ou_email entry = user_email u /\
                   ou_role entry = user_role u)
      (other_sessions socket sockets) onlineUsers /\
    length onlineUsers = length (other_sessions socket sockets) /\
    (forall c, c ∈ other_sessions socket sockets <->
               c ∈ sockets /\ is_Some (socket_user c) /\
               socket_id c <> socket_id socket) /\
    socket ∉ other_sessions socket sockets.
Proof.
  destruct (push_online_users_spec socket sockets []) as (entries & E & F).
  exists entries. unfold on_get_online_users. rewrite E. simpl.
  split; [reflexivity|]. split; [exact F|].
  split; [symmetry; eapply Forall2_length; exact F|].
  split.
  - intros c. unfold other_sessions. rewrite list_elem_of_filter. tauto.
  - unfold other_sessions. rewrite list_elem_of_filter. tauto.
Qed.

(** An instance of C9: alice asks while bob and a second session of her own
    are connected, next to a session that is not authenticated. The answer
    lists bob and her other session, with their three fields. *)
Lemma online_users_lists_other_sessions_witness :
  let tab := {| socket_id := "Qw5nR8tYu2"; socket_user := Some alice |} in
  let guest := {| socket_id := "Hy7Lw2cVb1"; socket_user := None |} in
  exists onlineUsers,
    on_get_online_users alice_socket [alice_socket; bob_socket; guest; tab] []
    = (Returned tt,
       [{| em_to := ToSocket "Xq3vT0aLw9"; em_event := "online_users";
           em_payload := POnlineUsers onlineUsers |}]) /\
    onlineUsers
    = [{| ou_userId := "8"; ou_email := "bob@taskflow.com";
          ou_role := "project_manager" |};
       {| ou_userId := "7"; ou_email := "alice@taskflow.com";
          ou_role := "team_member" |}].
Proof.
  intros tab guest.
  destruct (online_users_lists_other_sessions alice_socket
              [alice_socket; bob_socket; guest; tab] [])
    as (onlineUsers & E & F & _).
  exists onlineUsers. split; [exact E|].
  change (other_sessions alice_socket [alice_socket; bob_socket; guest; tab])
    with [bob_socket; tab] in F.
  inversion F as [|c1 e1 l1 k1 (u1 & Hu1 & Ha1 & Hb1 & Hc1) F1]; subst.
  inversion F1 as [|c2 e2 l2 k2 (u2 & Hu2 & Ha2 & Hb2 & Hc2) F2]; subst.
  inversion F2; subst.
  injection Hu1 as <-. injection Hu2 as <-.
  destruct e1, e2. simpl in *. subst. reflexivity.
Defined.

Lemma parse_all_stringified {W} (os : list js_object) (w : W) :
  parse_all (map Stringified os) w = (Returned os, w).
Proof.
  induction os as [|o os IH]; simpl; [reflexivity|].
  unfold bind. simpl. rewrite IH. reflexivity.
Qed.

Lemma getOfflineNotifications_live (u : string) (r : redis)
    (os : list js_object) :
  offline_queue r u = Some (map Stringified os) ->
  getOfflineNotifications (Some live) u r = (Returned os, r).
Proof.
  unfold offline_queue, getOfflineNotifications, try_catch, bind. simpl.
  unfold live_lRange.
  destruct (keyspace r !! _) as [[| |l]|]; try discriminate; intros [= Hq].
  - rewrite lrange_items_all, Hq, parse_all_stringified. reflexivity.
  - destruct os; [reflexivity | discriminate Hq].
Qed.

Lemma parse_all_malformed {W} (l : list text) (w : W) :
  Malformed ∈ l -> exists e, parse_all l w = (Thrown e, w).
Proof.
  induction l as [|t l IH]; intros Hin.
  - apply elem_of_nil in Hin. contradiction.
  - simpl. unfold bind. destruct t as [o|]; simpl.
    + apply elem_of_cons in Hin as [Hin|Hin]; [discriminate|].
      destruct (IH Hin) as [e ->]. eauto.
    + eauto.
Qed.

(** One element that does not parse makes [getOfflineNotifications]
    return the empty list. *)
Lemma getOfflineNotifications_live_malformed (u : string) (r : redis)
    (l : list text) :
  keyspace r !! ("notifications:" +:+ u) = Some (RList l) ->
  Malformed ∈ l ->
  getOfflineNotifications (Some live) u r = (Returned [], r).
Proof.
  intros Hk Hin.
  unfold getOfflineNotifications, try_catch, bind. cbv zeta.
  remember ("notifications:" +:+ u) as k. simpl.
  unfold live_lRange. rewrite Hk, lrange_items_all.
  destruct (parse_all_malformed l r Hin) as [e ->]. reflexivity.
Qed.

(** C10 (as the code has it). When every element of the user's stored
    queue is the text of a notification, the [get:offline_notifications]
    handler emits [notifications:offline] to the requesting session exactly
    when the queue holds at least one notification, and then with the whole
    queue. With an empty queue, no client or an unreachable store it
    returns without emitting anything, and so it does when some element of
    the queue does not parse, however many notifications the queue
    holds. *)
Theorem offline_reply_only_when_nonempty (user : user) (socket : Socket)
    (r : redis) (out : io) (os : list js_object) :
  (offline_queue r (user_id user) = Some (map Stringified os) ->
   on_get_offline_notifications (Some live) user socket (r, out)
   = (Returned tt,
      (r, match os with
          | [] => out
          | _ => (out ++ [offline_reply socket os])%list
          end))) /\
  (forall l : list text,
     offline_queue r (user_id user) = Some l -> Malformed ∈ l ->
     on_get_offline_notifications (Some live) user socket (r, out)
     = (Returned tt, (r, out))) /\
  on_get_offline_notifications None user socket (r, out)
  = (Returned tt, (r, out)) /\
  on_get_offline_notifications (Some (unreachable redis)) user socket (r, out)
  = (Returned tt, (r, out)).
Proof.
  split; [|split; [|split]]; try reflexivity.
  - intros Hq.
    unfold on_get_offline_notifications, try_catch, bind, on_fst.
    cbn [fst snd].
    rewrite (getOfflineNotifications_live _ r os Hq).
    destruct os; reflexivity.
  - intros l Hq Hin.
    assert (Hk : keyspace r !! ("notifications:" +:+ user_id user)
                 = Some (RList l)).
    { unfold offline_queue in Hq.
      destruct (keyspace r !! _) as [[| |l']|]; try discriminate Hq.
      - injection Hq as <-. reflexivity.
      - injection Hq as <-. apply elem_of_nil in Hin. contradiction. }
    unfold on_get_offline_notifications, try_catch, bind, on_fst.
    cbn [fst snd].
    rewrite (getOfflineNotifications_live_malformed _ r l Hk Hin).
    reflexivity.
Qed.

(** An instance of C10: alice has two stored notifications. *)
Lemma offline_reply_only_when_nonempty_witness :
  offline_queue backlog_store (user_id alice) = Some (map Stringified backlog) /\
  on_get_offline_notifications (Some live) alice alice_socket (backlog_store, [])
  = (Returned tt, (backlog_store, [offline_reply alice_socket backlog])).
Proof.
  assert (Hq : offline_queue backlog_store (user_id alice)
               = Some (map Stringified backlog)) by reflexivity.
  split; [exact Hq|].
  exact (proj1 (offline_reply_only_when_nonempty alice alice_socket
                  backlog_store [] backlog) Hq).
Defined.

(** C10 as stated fails: a queue of three elements, the newest of which
    does not parse, gets no answer. *)
Lemma unparsable_entry_silences_queue :
  let q := Malformed :: map Stringified backlog in
  let r := put_key "notifications:7" (RList q) redis_empty in
  offline_queue r (user_id alice) = Some q /\
  length q = 3%nat /\
  on_get_offline_notifications (Some live) alice alice_socket (r, [])
  = (Returned tt, (r, [])).
Proof. repeat split. Qed.

(** With nothing stored, the client gets no answer at all. *)
Example empty_backlog_is_silent :
  on_get_offline_notifications (Some live) alice alice_socket (redis_empty, [])
  = (Returned tt, (redis_empty, [])).
Proof. reflexivity. Qed.

(** A second session of the same user is listed: the handler leaves out
    the requesting session, not the requesting user. *)
Example second_tab_is_listed :
  let tab := {| socket_id := "Zk81mPq0Ds"; socket_user := Some alice |} in
  on_get_online_users alice_socket [alice_socket; tab] []
  = (Returned tt,
     [{| em_to := ToSocket "Xq3vT0aLw9"; em_event := "online_users";
         em_payload :=
           POnlineUsers [{| ou_userId := "7"; ou_email := "alice@taskflow.com";
                            ou_role := "team_member" |}] |}]).
Proof. reflexivity. Qed.

(* ===================================================================== *)
(** ** Further properties of config/redis.js *)
(* ===================================================================== *)

(** Whenever [retry_strategy] asks for another attempt, the delay is
    [attempt * 100] ms and at most 1000 ms: the 3000 ms cap of [Math.min]
    is never the smaller argument, because attempts beyond the tenth stop
    the retries. *)
Theorem retry_delay_is_linear (options : retry_options) (ms : Z) :
  retry_strategy options = RetryAfter ms ->
  ms = attempt options * 100 /\ ms <= 1000 /\
  attempt options <= 10 /\ total_retry_time options <= 1000 * 60 * 60.
Proof.
  unfold retry_strategy. rewrite !Z.gtb_ltb.
  destruct (Z.ltb_spec (1000 * 60 * 60) (total_retry_time options));
    [discriminate|].
  destruct (Z.ltb_spec 10 (attempt options)); [discriminate|].
  intros [= <-]. lia.
Qed.

Lemma retry_delay_is_linear_witness :
  retry_strategy {| retry_error_code := Some "ECONNREFUSED";
                    total_retry_time := 4500; attempt := 10 |}
  = RetryAfter 1000 /\ 1000 = 10 * 100.
Proof.
  assert (H : retry_strategy {| retry_error_code := Some "ECONNREFUSED";
                                total_retry_time := 4500; attempt := 10 |}
              = RetryAfter 1000) by reflexivity.
  split; [exact H|].
  exact (proj1 (retry_delay_is_linear _ _ H)).
Defined.

(** [connectRedis] never throws. Once [createClient] has returned a client,
    the module variable holds it whether or not [connect] succeeds, so
    after a failed connection the helpers run their commands (and catch
    the rejections) rather than take the [!client] shortcut; only a throw
    of [createClient] itself leaves the variable as it was. *)
Theorem connectRedis_keeps_created_client {W : Type}
    (createClient : eff W (RedisClient W))
    (connect : RedisClient W -> eff W unit)
    (client0 : option (RedisClient W)) (w : W) :
  exists s',
    connectRedis createClient connect (client0, w) = (Returned tt, s') /\
    (forall c w1, createClient w = (Returned c, w1) ->
                  fst s' = Some c /\ snd s' = snd (connect c w1)) /\
    (forall e w1, createClient w = (Thrown e, w1) -> s' = (client0, w1)).
Proof.
  unfold connectRedis, try_catch, bind, on_snd, set_client, ret. cbn [fst snd].
  destruct (createClient w) as [[c|e] w1]; cbn [fst snd].
  - destruct (connect c w1) as [[[]|e] w2] eqn:E; cbn [fst snd];
      eexists; (split; [reflexivity|]); split;
      intros ? ? [= <- <-] || intros ? ? [=]; rewrite ?E; auto.
  - eexists. split; [reflexivity|]. split.
    + intros ? ? [=].
    + intros ? ? [= <- <-]. reflexivity.
Qed.

Lemma connectRedis_keeps_created_client_witness :
  connectRedis (ret (unreachable redis)) refused_connect (None, redis_empty)
  = (Returned tt, (Some (unreachable redis), redis_empty)).
Proof.
  destruct (connectRedis_keeps_created_client
              (ret (unreachable redis)) refused_connect None redis_empty)
    as (s' & E & H & _).
  rewrite E. destruct (H (unreachable redis) redis_empty eq_refl) as [H1 H2].
  destruct s' as [c w]. simpl in H1, H2. rewrite H1, H2. reflexivity.
Defined.

(** The task cache never throws to its caller, and without a client it
    does nothing and reads [null]. *)
Theorem task_cache_never_throws {W : Type} (client : option (RedisClient W))
    (taskId : string) (taskData : js_object) (seconds : Z) (w : W) :
  never_throws (cacheTaskData client taskId taskData seconds) /\
  never_throws (getCachedTaskData client taskId) /\
  cacheTaskData None taskId taskData seconds w = (Returned tt, w) /\
  getCachedTaskData None taskId w = (Returned None, w).
Proof.
  split; [|split; [|split; reflexivity]].
  - intros w0. destruct client as [c|]; simpl; [|unfold ret; eauto].
    eff_unfold. eff_cases; eauto.
  - intros w0. destruct client as [c|]; simpl; [|unfold ret; eauto].
    eff_unfold. destruct (get c _ w0) as [[[[o|]|]|e] w1]; simpl; eauto.
Qed.

(** On a reachable server, a task cached with a positive time-to-live is
    read back unchanged, and the key carries that time-to-live. *)
Theorem task_cache_round_trip (taskId : string) (taskData : js_object)
    (seconds : Z) (r : redis) :
  0 < seconds ->
  let r1 := snd (cacheTaskData (Some live) taskId taskData seconds r) in
  getCachedTaskData (Some live) taskId r1 = (Returned (Some taskData), r1) /\
  ttl r1 !! ("task:" +:+ taskId) = Some seconds.
Proof.
  intros Hpos r1. unfold r1, cacheTaskData, getCachedTaskData, try_catch, bind.
  cbv zeta. remember ("task:" +:+ taskId) as k. simpl.
  unfold live_setEx, live_get.
  destruct (Z.leb_spec seconds 0); [lia|]. simpl.
  rewrite !lookup_insert_eq. simpl. split; reflexivity.
Qed.

Lemma task_cache_round_trip_witness :
  getCachedTaskData (Some live) "T1"
    (snd (cacheTaskData (Some live) "T1" {["title" := JStr "Fix bug"]} 300
            redis_empty))
  = (Returned (Some {["title" := JStr "Fix bug"]}),
     snd (cacheTaskData (Some live) "T1" {["title" := JStr "Fix bug"]} 300
            redis_empty)).
Proof.
  assert (H : 0 < 300) by lia.
  exact (proj1 (task_cache_round_trip "T1" {["title" := JStr "Fix bug"]} 300
                  redis_empty H)).
Defined.

(** With a time-to-live of zero or less the server refuses SETEX;
    [cacheTaskData] swallows the error, so nothing is cached and the caller
    is not told. *)
Theorem task_cache_ignores_bad_ttl (taskId : string) (taskData : js_object)
    (seconds : Z) (r : redis) :
  seconds <= 0 ->
  cacheTaskData (Some live) taskId taskData seconds r = (Returned tt, r) /\
  getCachedTaskData (Some live) taskId r
  = getCachedTaskData (Some live) taskId
      (snd (cacheTaskData (Some live) taskId taskData seconds r)).
Proof.
  intros Hle.
  assert (E : cacheTaskData (Some live) taskId taskData seconds r
              = (Returned tt, r)).
  { unfold cacheTaskData, try_catch, bind. cbv zeta.
    remember ("task:" +:+ taskId) as k. simpl. unfold live_setEx.
    destruct (Z.leb_spec seconds 0); [reflexivity | lia]. }
  rewrite E. split; reflexivity.
Qed.

Lemma task_cache_ignores_bad_ttl_witness :
  cacheTaskData (Some live) "T1" {["title" := JStr "Fix bug"]} 0 redis_empty
  = (Returned tt, redis_empty).
Proof.
  assert (H : 0 <= 0) by lia.
  exact (proj1 (task_cache_ignores_bad_ttl "T1" {["title" := JStr "Fix bug"]}
                  0 redis_empty H)).
Defined.

Ltac two_keys Hk :=
  rewrite !not_elem_of_cons in Hk;
  let H1 := fresh "Hk1" in
  let H2 := fresh "Hk2" in
  destruct Hk as (H1 & H2 & _).

Lemma storeUserSession_footprint (u s now : string) (m : js_object) (r : redis) :
  unchanged_outside ["user_session:" +:+ u; "online_users"] r
    (snd (storeUserSession (Some live) u s m now r)).
Proof.
  intros k Hk. two_keys Hk.
  unfold storeUserSession, try_catch, bind, ret. cbv zeta.
  remember ("user_session:" +:+ u) as ks. simpl.
  unfold live_setEx, live_sAdd. simpl.
  destruct (_ !! "online_users") as [[| |]|]; simpl;
    rewrite ?lookup_insert_ne by congruence; reflexivity.
Qed.

Lemma removeUserSession_footprint (u : string) (r : redis) :
  unchanged_outside ["user_session:" +:+ u; "online_users"] r
    (snd (removeUserSession (Some live) u r)).
Proof.
  intros k Hk. two_keys Hk.
  unfold removeUserSession, try_catch, bind, ret. cbv zeta.
  remember ("user_session:" +:+ u) as ks. simpl.
  unfold live_del, live_sRem. simpl.
  destruct (_ !! "online_users") as [[|s|]|]; simpl;
    try (rewrite ?lookup_delete_ne by congruence; reflexivity).
  destruct (decide (s ∖ {[u]} = ∅)); simpl;
    rewrite ?lookup_insert_ne, ?lookup_delete_ne by congruence; reflexivity.
Qed.

Lemma storeOfflineNotification_footprint (u stamp suffix : string)
    (n : js_object) (r : redis) :
  unchanged_outside ["notifications:" +:+ u] r
    (snd (storeOfflineNotification (Some live) u n stamp suffix r)).
Proof.
  intros k Hk. rewrite !not_elem_of_cons in Hk. destruct Hk as [Hk _].
  unfold storeOfflineNotification, try_catch, bind, ret. cbv zeta.
  remember ("notifications:" +:+ u) as kn. simpl. unfold live_lPush.
  destruct (keyspace r !! kn) as [[| |l]|] eqn:Hv; simpl;
    try reflexivity;
    unfold live_lTrim; simpl; rewrite lookup_insert_eq;
    rewrite lrange_items_0_49; simpl;
    unfold live_expire; simpl; rewrite lookup_insert_eq; simpl;
    rewrite !lookup_insert_ne by congruence; reflexivity.
Qed.

Lemma clearOfflineNotifications_footprint (u : string) (r : redis) :
  unchanged_outside ["notifications:" +:+ u] r
    (snd (clearOfflineNotifications (Some live) u r)).
Proof.
  intros k Hk. rewrite !not_elem_of_cons in Hk. destruct Hk as [Hk _].
  rewrite clearOfflineNotifications_live. simpl.
  rewrite lookup_delete_ne by congruence. reflexivity.
Qed.

Lemma cacheTaskData_footprint (taskId : string) (taskData : js_object)
    (seconds : Z) (r : redis) :
  unchanged_outside ["task:" +:+ taskId] r
    (snd (cacheTaskData (Some live) taskId taskData seconds r)).
Proof.
  intros k Hk. rewrite !not_elem_of_cons in Hk. destruct Hk as [Hk _].
  unfold cacheTaskData, try_catch, bind, ret. cbv zeta.
  remember ("task:" +:+ taskId) as kt. simpl. unfold live_setEx.
  destruct (seconds <=? 0); simpl;
    rewrite ?lookup_insert_ne by congruence; reflexivity.
Qed.

Lemma collect_sessions_live (ids : list string) :
  forall (acc : list js_object) (r : redis),
    collect_sessions (Some live) ids acc r
    = (Returned (acc ++ omap (online_record r) ids)%list, r).
Proof.
  induction ids as [|i ids IH]; intros acc r.
  - simpl. unfold ret. rewrite app_nil_r. reflexivity.
  - cbn [collect_sessions]. unfold bind. rewrite getUserSession_live.
    cbn [omap list_omap]. fold (omap (online_record r) ids).
    unfold online_record at 1.
    destruct (keyspace r !! ("user_session:" +:+ i)) as [[[o|]| |]|];
      rewrite IH, <- ?app_assoc; reflexivity.
Qed.

(** What [getOnlineUsers] returns on a reachable server. *)
Lemma getOnlineUsers_live (r : redis) :
  getOnlineUsers (Some live) r
  = (Returned (omap (online_record r) (elements (online_set r))), r).
Proof.
  unfold getOnlineUsers, try_catch, bind, online_set. simpl.
  unfold live_sMembers.
  destruct (keyspace r !! "online_users") as [[|s|]|]; simpl;
    rewrite ?elements_empty; try reflexivity.
  rewrite collect_sessions_live. reflexivity.
Qed.

Lemma getOfflineNotifications_live_world (u : string) (r : redis) :
  snd (getOfflineNotifications (Some live) u r) = r.
Proof.
  unfold getOfflineNotifications, try_catch, bind. cbv zeta.
  remember ("notifications:" +:+ u) as k. simpl. unfold live_lRange.
  destruct (keyspace r !! k) as [[| |l]|]; simpl; try reflexivity.
  destruct (parse_all_cases (lrange_items l 0 (-1)) r) as [[os ->]|[e ->]];
    reflexivity.
Qed.

Lemma getCachedTaskData_live (taskId : string) (r : redis) :
  getCachedTaskData (Some live) taskId r =
    (Returned match keyspace r !! ("task:" +:+ taskId) with
              | Some (RString (Stringified o)) => Some o
              | _ => None
              end, r).
Proof.
  unfold getCachedTaskData, try_catch, bind. simpl. unfold live_get.
  destruct (keyspace r !! _) as [[[o|]| |]|]; reflexivity.
Qed.

(** On a reachable server each writer of redis.js changes only its own
    keys - the user's session key and [online_users], the user's
    notification list, the task's cache key - and the four readers change
    nothing. *)
Theorem redis_helpers_footprint (u s now stamp suffix taskId : string)
    (m n taskData : js_object) (seconds : Z) (r : redis) :
  unchanged_outside ["user_session:" +:+ u; "online_users"] r
    (snd (storeUserSession (Some live) u s m now r)) /\
  unchanged_outside ["user_session:" +:+ u; "online_users"] r
    (snd (removeUserSession (Some live) u r)) /\
  unchanged_outside ["notifications:" +:+ u] r
    (snd (storeOfflineNotification (Some live) u n stamp suffix r)) /\
  unchanged_outside ["notifications:" +:+ u] r
    (snd (clearOfflineNotifications (Some live) u r)) /\
  unchanged_outside ["task:" +:+ taskId] r
    (snd (cacheTaskData (Some live) taskId taskData seconds r)) /\
  snd (getUserSession (Some live) u r) = r /\
  snd (getOnlineUsers (Some live) r) = r /\
  snd (getOfflineNotifications (Some live) u r) = r /\
  snd (getCachedTaskData (Some live) taskId r) = r.
Proof.
  repeat match goal with |- _ /\ _ => split end.
  - apply storeUserSession_footprint.
  - apply removeUserSession_footprint.
  - apply storeOfflineNotification_footprint.
  - apply clearOfflineNotifications_footprint.
  - apply cacheTaskData_footprint.
  - rewrite getUserSession_live. reflexivity.
  - rewrite getOnlineUsers_live. reflexivity.
  - apply getOfflineNotifications_live_world.
  - rewrite getCachedTaskData_live. reflexivity.
Qed.

Lemma length_omap_le {A B} (f : A -> option B) (l : list A) :
  (length (omap f l) <= length l)%nat.
Proof.
  induction l as [|x l IH]; [simpl; lia|].
  change (omap f (x :: l))
    with (match f x with Some y => y :: omap f l | None => omap f l end).
  destruct (f x); cbn [length]; lia.
Qed.

(** On a reachable server [getOnlineUsers] returns one record for each
    member of [online_users] whose session can still be read, and nothing
    else: a member whose session key is gone is skipped without error. Each
    record is the stored session extended with [userId]. *)
Theorem online_users_are_readable_members (r : redis) :
  exists l,
    getOnlineUsers (Some live) r = (Returned l, r) /\
    (forall o, o ∈ l <->
               exists userId, userId ∈ online_set r /\
                              online_record r userId = Some o) /\
    (length l <= size (online_set r))%nat /\
    (forall userId,
       keyspace r !! ("user_session:" +:+ userId) = None ->
       online_record r userId = None).
Proof.
  exists (omap (online_record r) (elements (online_set r))).
  split; [apply getOnlineUsers_live|]. split; [|split].
  - intros o. rewrite list_elem_of_omap.
    split; intros (i & Hi & Ho); exists i; split; auto;
      apply elem_of_elements; exact Hi.
  - apply length_omap_le.
  - intros i Hi. unfold online_record. rewrite Hi. reflexivity.
Qed.




(** On a user id that is a string the two calls are those of
    [storeUserSession] and [removeUserSession]. *)
Lemma presence_calls_on_string {W : Type} (client : option (RedisClient W))
    (u s now : string) (m : js_object) :
  storeUserSession_id client {| id_text := u; id_is_string := true |} s m now
  = storeUserSession client u s m now /\
  removeUserSession_id client {| id_text := u; id_is_string := true |}
  = removeUserSession client u.
Proof. split; reflexivity. Qed.







Lemma offline_queue_unchanged (u v : string) (r r' : redis) :
  unchanged_outside ["notifications:" +:+ v] r r' ->
  u <> v -> offline_queue r' u = offline_queue r u.
Proof.
  intros Hf Huv. unfold offline_queue. rewrite Hf; [reflexivity|].
  rewrite !not_elem_of_cons. split; [|apply not_elem_of_nil].
  intros H. apply notifications_key_inj in H. contradiction.
Qed.

Lemma storeOfflineNotification_wrong_type (u stamp suffix : string)
    (n : js_object) (r : redis) :
  offline_queue r u = None ->
  offline_queue
    (snd (storeOfflineNotification (Some live) u n stamp suffix r)) u = None.
Proof.
  unfold offline_queue, storeOfflineNotification, try_catch, bind, ret.
  cbv zeta. remember ("notifications:" +:+ u) as k. simpl. unfold live_lPush.
  destruct (keyspace r !! k) as [[| |l]|] eqn:E; try discriminate;
    intros _; simpl; rewrite E; reflexivity.
Qed.

Lemma run_offline_call_queue (c : offline_call) (u : string) (r : redis) :
  offline_queue (run_offline_call c r) u
  = queue_step u (offline_queue r u) c.
Proof.
  unfold queue_step. destruct c as [v a|v];
    cbn [run_offline_call call_user queue_after];
    destruct (decide (v = u)) as [->|Hne].
  - destruct (offline_queue r u) as [q|] eqn:E; simpl.
    + apply storeOfflineNotification_live_queue. exact E.
    + apply storeOfflineNotification_wrong_type. exact E.
  - apply (offline_queue_unchanged u v);
      [apply storeOfflineNotification_footprint | congruence].
  - rewrite clearOfflineNotifications_live. unfold offline_queue. simpl.
    rewrite lookup_delete_eq. reflexivity.
  - apply (offline_queue_unchanged u v);
      [apply clearOfflineNotifications_footprint | congruence].
Qed.

Lemma queue_steps_filter (u : string) (calls : list offline_call) :
  forall q,
    fold_left (queue_step u) (filter (fun c => call_user c = u) calls) q
    = fold_left (queue_step u) calls q.
Proof.
  induction calls as [|c calls IH]; intros q; [reflexivity|].
  destruct (decide (call_user c = u)) as [E|E].
  - rewrite filter_cons_True by exact E. simpl. apply IH.
  - rewrite filter_cons_False by exact E. simpl. rewrite IH.
    unfold queue_step at 3. rewrite decide_False by exact E. reflexivity.
Qed.

Lemma run_offline_calls_queue (u : string) (calls : list offline_call) :
  forall r,
    offline_queue (run_offline_calls calls r) u
    = fold_left (queue_step u) calls (offline_queue r u).
Proof.
  unfold run_offline_calls.
  induction calls as [|c calls IH]; intros r; [reflexivity|].
  simpl. rewrite IH, run_offline_call_queue. reflexivity.
Qed.

(** Offline queues of different users never interfere. After any
    interleaving of appends and clears for any users on a reachable server,
    the queue of [u] is what the calls addressed to [u] alone produce, each
    append keeping the newest 50 and each clear emptying the queue. *)
Theorem offline_queues_are_isolated (u : string)
    (calls : list offline_call) (r : redis) :
  offline_queue (run_offline_calls calls r) u
  = fold_left (queue_step u) calls (offline_queue r u) /\
  offline_queue (run_offline_calls calls r) u
  = offline_queue
      (run_offline_calls (filter (fun c => call_user c = u) calls) r) u.
Proof.
  split; [apply run_offline_calls_queue|].
  rewrite !run_offline_calls_queue, queue_steps_filter. reflexivity.
Qed.

Lemma stored_texts_are_entries (calls : list append_call) :
  map stored_text calls = map Stringified (map call_entry calls).
Proof. rewrite map_map. reflexivity. Qed.

(** What was appended is what is read: after a non-empty run of appends on
    a reachable server, [getOfflineNotifications] returns the newest 50 of
    the stored entries followed by the earlier backlog, newest first, and
    leaves the store as it is. Every stored entry is the notification with
    [id] set to [<stamp>_<suffix>] and [stored] set to [true]; all its
    other properties are kept. *)
Theorem offline_backlog_read_back (u : string) (calls : list append_call)
    (r : redis) (os0 : list js_object) :
  calls <> [] ->
  offline_queue r u = Some (map Stringified os0) ->
  let r' := append_all u calls r in
  getOfflineNotifications (Some live) u r'
  = (Returned (take 50 (rev (map call_entry calls) ++ os0)), r') /\
  (forall c, c ∈ calls ->
     call_entry c !! "id"
     = Some (JStr (call_stamp c +:+ "_" +:+ call_suffix c)) /\
     call_entry c !! "stored" = Some (JBool true) /\
     (forall k, k <> "id" -> k <> "stored" ->
                call_entry c !! k = call_notification c !! k)).
Proof.
  intros Hne Hq r'. split.
  - apply getOfflineNotifications_live. unfold r'.
    rewrite (append_all_queue u calls r _ Hq).
    destruct calls as [|c calls]; [contradiction|]. f_equal.
    rewrite stored_texts_are_entries, <- map_rev, <- map_app.
    symmetry. apply fmap_take.
  - intros c _. unfold call_entry, offline_entry. split; [|split].
    + rewrite lookup_insert_ne by discriminate. apply lookup_insert_eq.
    + apply lookup_insert_eq.
    + intros k Hid Hst. rewrite !lookup_insert_ne by congruence. reflexivity.
Qed.

Lemma offline_backlog_read_back_witness :
  getOfflineNotifications (Some live) "7" backlog_store
  = (Returned backlog, backlog_store).
Proof.
  assert (Hne : backlog_calls <> []) by discriminate.
  assert (Hq : offline_queue redis_empty "7" = Some (map Stringified []))
    by reflexivity.
  exact (proj1 (offline_backlog_read_back "7" backlog_calls redis_empty []
                  Hne Hq)).
Defined.

(** One unreadable entry hides the whole backlog: when any element of the
    user's list is not valid JSON, [getOfflineNotifications] returns the
    empty list, and the [get:offline_notifications] handler sends
    nothing, however many readable notifications the list holds. *)
Theorem malformed_entry_hides_backlog (usr : user) (socket : Socket)
    (r : redis) (out : io) (l : list text) :
  keyspace r !! ("notifications:" +:+ user_id usr) = Some (RList l) ->
  Malformed ∈ l ->
  getOfflineNotifications (Some live) (user_id usr) r = (Returned [], r) /\
  on_get_offline_notifications (Some live) usr socket (r, out)
  = (Returned tt, (r, out)).
Proof.
  intros Hk Hin.
  assert (E : getOfflineNotifications (Some live) (user_id usr) r
              = (Returned [], r)).
  { unfold getOfflineNotifications, try_catch, bind. cbv zeta.
    remember ("notifications:" +:+ user_id usr) as k. simpl.
    unfold live_lRange. rewrite Hk, lrange_items_all.
    destruct (parse_all_malformed l r Hin) as [e ->]. reflexivity. }
  split; [exact E|].
  unfold on_get_offline_notifications, try_catch, bind, on_fst. cbn [fst snd].
  rewrite E. reflexivity.
Qed.

Lemma malformed_entry_hides_backlog_witness :
  let r := put_key "notifications:7"
             (RList [Stringified {["title" := JStr "Task Updated"]};
                     Malformed]) redis_empty in
  on_get_offline_notifications (Some live) alice alice_socket (r, [])
  = (Returned tt, (r, [])).
Proof.
  intros r.
  assert (Hk : keyspace r !! ("notifications:" +:+ user_id alice)
               = Some (RList [Stringified {["title" := JStr "Task Updated"]};
                              Malformed])) by reflexivity.
  assert (Hin : Malformed ∈ [Stringified {["title" := JStr "Task Updated"]};
                              Malformed])
    by (apply elem_of_cons; right; apply elem_of_cons; left; reflexivity).
  exact (proj2 (malformed_entry_hides_backlog alice alice_socket r []
                  _ Hk Hin)).
Defined.

(* ===================================================================== *)
(** ** Further properties of config/rabbitmq.js *)
(* ===================================================================== *)

Lemma forEach_notify (actor : string) (n : notification)
    (ws : list user_ref) (out : io) :
  forEach ws
    (fun w =>
       if negb (bool_decide (ref_userId w = actor))
       then emit (ToRoom ("user:" +:+ ref_userId w)) "notification"
              (PNotification n)
       else ret tt) out
  = (Returned tt,
     (out ++ to_users (filter (fun uid => uid <> actor) (map ref_userId ws)) n)%list).
Proof.
  revert out. induction ws as [|w ws IH]; intros out.
  - simpl. unfold ret. rewrite app_nil_r. reflexivity.
  - cbn [forEach map]. unfold bind. case_bool_decide as Hw; cbn [negb].
    + unfold ret. rewrite IH, filter_cons_False by tauto. reflexivity.
    + unfold emit. rewrite IH, filter_cons_True by exact Hw.
      unfold to_users. cbn [map]. rewrite <- app_assoc. reflexivity.
Qed.

Lemma notify_watchers_emits (t : task) (actor : string) (n : notification)
    (out : io) :
  notify_watchers t actor n out
  = (Returned tt, (out ++ to_users (watcher_ids t actor) n)%list).
Proof.
  unfold notify_watchers, watcher_ids. destruct (watchers t) as [ws|].
  - apply forEach_notify.
  - unfold ret. rewrite app_nil_r. reflexivity.
Qed.

Lemma notify_other_emits (who : option user_ref) (actor : string)
    (n : notification) (out : io) :
  notify_other who actor n out
  = (Returned tt, (out ++ to_users (other_id actor who) n)%list).
Proof.
  unfold notify_other, other_id. destruct (other_than actor who).
  - reflexivity.
  - unfold ret. rewrite app_nil_r. reflexivity.
Qed.

Lemma emitted_updated (ev : event) (now : string) (t : task) :
  event_task ev = Some t -> eventType ev = "updated" ->
  emitted ev now
  = (to_users (watcher_ids t (event_userId ev)
               ++ other_id (event_userId ev) (assignedTo t))
       (event_notification ev t now "Task Updated"
          ("Task " +:+ dq +:+ title t +:+ dq +:+ " has been updated") None)
     ++ [task_update_of ev t])%list.
Proof.
  intros Ht E. unfold emitted, handleTaskEvent.
  rewrite Ht, E. simpl. unfold bind.
  rewrite notify_watchers_emits, notify_other_emits.
  unfold emit_task_update, emit, to_users, event_notification,
    task_update_of, set_message, set_title. simpl.
  rewrite E, map_app, <- !app_assoc. reflexivity.
Qed.

Lemma emitted_deleted (ev : event) (now : string) (t : task) :
  event_task ev = Some t -> eventType ev = "deleted" ->
  emitted ev now
  = (to_users (watcher_ids t (event_userId ev)
               ++ other_id (event_userId ev) (assignedTo t))
       (event_notification ev t now "Task Deleted"
          ("Task " +:+ dq +:+ title t +:+ dq +:+ " has been deleted") None)
     ++ [task_update_of ev t])%list.
Proof.
  intros Ht E. unfold emitted, handleTaskEvent.
  rewrite Ht, E. simpl. unfold bind.
  rewrite notify_watchers_emits, notify_other_emits.
  unfold emit_task_update, emit, to_users, event_notification,
    task_update_of, set_message, set_title. simpl.
  rewrite E, map_app, <- !app_assoc. reflexivity.
Qed.

Lemma emitted_status_changed (ev : event) (now : string) (t : task) :
  event_task ev = Some t -> eventType ev = "status_changed" ->
  emitted ev now
  = (to_users (watcher_ids t (event_userId ev)
               ++ other_id (event_userId ev) (createdBy t)
               ++ other_id (event_userId ev) (assignedTo t))
       (event_notification ev t now "Task Status Changed"
          ("Task " +:+ dq +:+ title t +:+ dq +:+ " status changed to "
           +:+ status t) None)
     ++ [task_update_of ev t])%list.
Proof.
  intros Ht E. unfold emitted, handleTaskEvent.
  rewrite Ht, E. simpl. unfold bind.
  rewrite notify_watchers_emits, !notify_other_emits.
  unfold emit_task_update, emit, to_users, event_notification,
    task_update_of, set_message, set_title. simpl.
  rewrite E, !map_app, <- !app_assoc. reflexivity.
Qed.

(** The recipients of an [updated] and of a [deleted] event: every watcher
    other than the actor, in the order of the watcher list, then the
    assignee if there is one other than the actor, then the broadcast.
    All notifications carry the same title and message. *)
Theorem updated_and_deleted_recipients (ev : event) (now : string) (t : task) :
  event_task ev = Some t ->
  (eventType ev = "updated" ->
   emitted ev now
   = (to_users (watcher_ids t (event_userId ev)
                ++ other_id (event_userId ev) (assignedTo t))
        (event_notification ev t now "Task Updated"
           ("Task " +:+ dq +:+ title t +:+ dq +:+ " has been updated") None)
      ++ [task_update_of ev t])%list) /\
  (eventType ev = "deleted" ->
   emitted ev now
   = (to_users (watcher_ids t (event_userId ev)
                ++ other_id (event_userId ev) (assignedTo t))
        (event_notification ev t now "Task Deleted"
           ("Task " +:+ dq +:+ title t +:+ dq +:+ " has been deleted") None)
      ++ [task_update_of ev t])%list).
Proof.
  intros Ht. split; intros E.
  - apply emitted_updated; assumption.
  - apply emitted_deleted; assumption.
Qed.

Lemma updated_and_deleted_recipients_witness :
  map em_to (emitted watched_by_assignee noon)
  = [ToRoom "user:B"; ToRoom "user:C"; ToRoom "user:B"; ToAll].
Proof.
  destruct (updated_and_deleted_recipients watched_by_assignee noon _ eq_refl)
    as [H _].
  rewrite (H eq_refl). reflexivity.
Defined.

(** The recipients of a [status_changed] event: every watcher other than
    the actor, then the creator if other than the actor, then the assignee
    if other than the actor, then the broadcast; the message names the new
    status. *)
Theorem status_changed_recipients (ev : event) (now : string) (t : task) :
  event_task ev = Some t ->
  eventType ev = "status_changed" ->
  emitted ev now
  = (to_users (watcher_ids t (event_userId ev)
               ++ other_id (event_userId ev) (createdBy t)
               ++ other_id (event_userId ev) (assignedTo t))
       (event_notification ev t now "Task Status Changed"
          ("Task " +:+ dq +:+ title t +:+ dq +:+ " status changed to "
           +:+ status t) None)
     ++ [task_update_of ev t])%list.
Proof. apply emitted_status_changed. Qed.

Lemma status_changed_recipients_witness :
  map em_to (emitted fix_bug_done noon)
  = [ToRoom "user:A"; ToRoom "user:C"; ToAll].
Proof.
  rewrite (status_changed_recipients fix_bug_done noon fix_bug eq_refl eq_refl).
  reflexivity.
Defined.

(** The recipients of a [comment_added] event: every watcher other than
    the actor gets "New comment on task ...", then every mentioned user
    other than the actor gets "You were mentioned ...", then the broadcast.
    Both notifications carry the new comment. A mentioned watcher gets
    both, the mention in addition to the watcher notification. *)
Theorem comment_added_recipients (ev : event) (now : string) (t : task) :
  event_task ev = Some t ->
  eventType ev = "comment_added" ->
  emitted ev now
  = (to_users (watcher_ids t (event_userId ev))
       (event_notification ev t now "New Comment Added"
          ("New comment on task " +:+ dq +:+ title t +:+ dq) (newComment t))
     ++ to_users (mention_ids t (event_userId ev))
          (event_notification ev t now "You were mentioned"
             ("You were mentioned in a comment on task "
              +:+ dq +:+ title t +:+ dq) (newComment t))
     ++ [task_update_of ev t])%list /\
  (forall uid,
     uid ∈ watcher_ids t (event_userId ev) ->
     uid ∈ mention_ids t (event_userId ev) ->
     (2 <= length (filter (fun e => em_to e = ToRoom ("user:" +:+ uid))
                     (emitted ev now)))%nat).
Proof.
  intros Ht E.
  assert (Hem : emitted ev now
    = (to_users (watcher_ids t (event_userId ev))
         (event_notification ev t now "New Comment Added"
            ("New comment on task " +:+ dq +:+ title t +:+ dq) (newComment t))
       ++ to_users (mention_ids t (event_userId ev))
            (event_notification ev t now "You were mentioned"
               ("You were mentioned in a comment on task "
                +:+ dq +:+ title t +:+ dq) (newComment t))
       ++ [task_update_of ev t])%list).
  { unfold emitted, handleTaskEvent. rewrite Ht, E. simpl. unfold bind.
    rewrite notify_watchers_emits. unfold mention_ids.
    destruct (newComment t) as [[c [ms|]]|] eqn:Ec.
    - rewrite forEach_notify.
      unfold emit_task_update, emit, to_users, event_notification,
        task_update_of, set_message, set_title, set_comment. simpl.
      rewrite ?E, <- ?app_assoc; reflexivity.
    - unfold ret, emit_task_update, emit, to_users, event_notification,
        task_update_of, set_message, set_title, set_comment. simpl.
      rewrite ?E, <- ?app_assoc; reflexivity.
    - unfold ret, emit_task_update, emit, to_users, event_notification,
        task_update_of, set_message, set_title, set_comment. simpl.
      rewrite ?E, <- ?app_assoc; reflexivity. }
  split; [exact Hem|].
  intros uid Hw Hm. rewrite Hem, !filter_app, !length_app.
  assert (Hone : forall ids n,
             uid ∈ ids ->
             (1 <= length (filter (fun e => em_to e = ToRoom ("user:" +:+ uid))
                             (to_users ids n)))%nat).
  { intros ids n Hin. induction ids as [|i ids IH].
    - apply elem_of_nil in Hin. contradiction.
    - unfold to_users. cbn [map]. fold (to_users ids n).
      apply elem_of_cons in Hin as [<-|Hin].
      + rewrite filter_cons_True by reflexivity. simpl. lia.
      + pose proof (IH Hin).
        destruct (decide (em_to (notification_to ("user:" +:+ i) n)
                          = ToRoom ("user:" +:+ uid))) as [Hd|Hd].
        * rewrite filter_cons_True by exact Hd. simpl. lia.
        * rewrite filter_cons_False by exact Hd. lia. }
  pose proof (Hone _ (event_notification ev t now "New Comment Added"
                        ("New comment on task " +:+ dq +:+ title t +:+ dq)
                        (newComment t)) Hw).
  pose proof (Hone _ (event_notification ev t now "You were mentioned"
                        ("You were mentioned in a comment on task "
                         +:+ dq +:+ title t +:+ dq) (newComment t)) Hm).
  lia.
Qed.

Lemma comment_added_recipients_witness :
  map (fun e => (em_to e,
                 match em_payload e with
                 | PNotification n => n_title n
                 | _ => None
                 end)) (emitted comment_by_A noon)
  = [(ToRoom "user:B", Some "New Comment Added");
     (ToRoom "user:B", Some "You were mentioned");
     (ToRoom "user:C", Some "You were mentioned");
     (ToAll, None)].
Proof.
  destruct (comment_added_recipients comment_by_A noon commented_task
              eq_refl eq_refl) as [H _].
  rewrite H. reflexivity.
Defined.

Lemma count_to_users (uid : string) (ids : list string) (n : notification) :
  uid ∈ ids ->
  (1 <= length (filter (fun e => em_to e = ToRoom ("user:" +:+ uid))
                  (to_users ids n)))%nat.
Proof.
  intros Hin. induction ids as [|i ids IH].
  - apply elem_of_nil in Hin. contradiction.
  - unfold to_users. cbn [map]. fold (to_users ids n).
    apply elem_of_cons in Hin as [<-|Hin].
    + rewrite filter_cons_True by reflexivity. simpl. lia.
    + pose proof (IH Hin).
      destruct (decide (em_to (notification_to ("user:" +:+ i) n)
                        = ToRoom ("user:" +:+ uid))) as [Hd|Hd].
      * rewrite filter_cons_True by exact Hd. simpl. lia.
      * rewrite filter_cons_False by exact Hd. lia.
Qed.

(** Recipients are not de-duplicated: when the assignee of an updated,
    deleted or status-changed task is also one of its watchers (and is not
    the actor), the assignee's user channel is sent the same notification
    at least twice. *)
Theorem assignee_who_watches_is_notified_twice (ev : event) (now : string)
    (t : task) (a : user_ref) :
  event_task ev = Some t ->
  eventType ev = "updated" \/ eventType ev = "deleted" \/
  eventType ev = "status_changed" ->
  assignedTo t = Some a ->
  ref_userId a <> EmptyString ->
  ref_userId a <> event_userId ev ->
  ref_userId a ∈ watcher_ids t (event_userId ev) ->
  (2 <= length (filter (fun e => em_to e = ToRoom ("user:" +:+ ref_userId a))
                  (emitted ev now)))%nat.
Proof.
  intros Ht Hty Ha Hne Hna Hw.
  assert (Hother : other_id (event_userId ev) (assignedTo t) = [ref_userId a]).
  { unfold other_id. rewrite Ha, (other_than_assignee _ a Hne Hna). reflexivity. }
  assert (Hself : ref_userId a ∈ [ref_userId a])
    by (apply elem_of_cons; left; reflexivity).
  destruct Hty as [E|[E|E]].
  - rewrite (emitted_updated ev now t Ht E), Hother.
    unfold to_users. rewrite map_app, !filter_app, !length_app.
    pose proof (count_to_users _ _
      (event_notification ev t now "Task Updated"
         ("Task " +:+ dq +:+ title t +:+ dq +:+ " has been updated") None) Hw).
    pose proof (count_to_users _ _
      (event_notification ev t now "Task Updated"
         ("Task " +:+ dq +:+ title t +:+ dq +:+ " has been updated") None) Hself).
    unfold to_users in *. lia.
  - rewrite (emitted_deleted ev now t Ht E), Hother.
    unfold to_users. rewrite map_app, !filter_app, !length_app.
    pose proof (count_to_users _ _
      (event_notification ev t now "Task Deleted"
         ("Task " +:+ dq +:+ title t +:+ dq +:+ " has been deleted") None) Hw).
    pose proof (count_to_users _ _
      (event_notification ev t now "Task Deleted"
         ("Task " +:+ dq +:+ title t +:+ dq +:+ " has been deleted") None) Hself).
    unfold to_users in *. lia.
  - rewrite (emitted_status_changed ev now t Ht E), Hother.
    unfold to_users. rewrite !map_app, !filter_app, !length_app.
    pose proof (count_to_users _ _
      (event_notification ev t now "Task Status Changed"
         ("Task " +:+ dq +:+ title t +:+ dq +:+ " status changed to "
          +:+ status t) None) Hw).
    pose proof (count_to_users _ _
      (event_notification ev t now "Task Status Changed"
         ("Task " +:+ dq +:+ title t +:+ dq +:+ " status changed to "
          +:+ status t) None) Hself).
    unfold to_users in *. lia.
Qed.

Lemma assignee_who_watches_is_notified_twice_witness :
  (2 <= length (filter (fun e => em_to e = ToRoom "user:B")
                  (emitted watched_by_assignee noon)))%nat.
Proof.
  assert (H1 : ref_userId (ref "B") <> EmptyString) by discriminate.
  assert (H2 : ref_userId (ref "B") <> event_userId watched_by_assignee)
    by discriminate.
  assert (H3 : ref_userId (ref "B")
               ∈ watcher_ids
                   {| _id := "T4"; title := "Ship release";
                      status := "in_progress";
                      assignedTo := Some (ref "B"); createdBy := Some (ref "A");
                      watchers := Some [ref "B"; ref "C"];
                      newComment := None |} (event_userId watched_by_assignee))
    by (apply elem_of_cons; left; reflexivity).
  exact (assignee_who_watches_is_notified_twice watched_by_assignee noon _
           (ref "B") eq_refl (or_introl eq_refl) eq_refl H1 H2 H3).
Defined.

Lemma emits_notify_other_any (P : emission -> Prop) (who : option user_ref)
    (actor : string) (n : notification) :
  (forall room, P (notification_to room n)) ->
  emits P (notify_other who actor n).
Proof.
  intros HP. unfold notify_other. destruct (other_than actor who).
  - apply emits_emit. apply HP.
  - apply emits_ret.
Qed.

Lemma emits_notify_watchers_any (P : emission -> Prop) (t : task)
    (actor : string) (n : notification) :
  (forall room, P (notification_to room n)) ->
  emits P (notify_watchers t actor n).
Proof.
  intros HP. unfold notify_watchers.
  destruct (watchers t) as [ws|]; [|apply emits_ret].
  apply emits_forEach. intros w. case_bool_decide; simpl.
  - apply emits_ret.
  - apply emits_emit. apply HP.
Qed.

Ltac payload_ok E :=
  intros; eexists _, _; split; [reflexivity|];
  unfold payload_of; rewrite ?E; simpl;
  repeat match goal with |- _ /\ _ => split end;
  eauto.

Lemma handleTaskEvent_well_formed (ev : event) (now : string) (t : task) :
  event_task ev = Some t ->
  enumerated (eventType ev) ->
  notifies_then (well_formed_notification ev t now) (task_update_of ev t)
    (handleTaskEvent ev now).
Proof.
  intros Ht Hen. unfold handleTaskEvent, well_formed_notification.
  rewrite Ht.
  destruct Hen as [E|[E|[E|[E|E]]]]; rewrite E; simpl;
    repeat first
      [ apply broadcast_alone
      | apply broadcast_after_emit
      | apply emits_notify_watchers_any; payload_ok E
      | apply emits_notify_other_any; payload_ok E
      | apply emits_emit; payload_ok E ].
  destruct (newComment t) as [[c [ms|]]|] eqn:Ec; try apply emits_ret.
  apply emits_forEach. intros w. case_bool_decide; simpl.
  - apply emits_ret.
  - apply emits_emit. payload_ok E.
Qed.

(** Everything [handleTaskEvent] emits for an event is either the one
    broadcast or a ['notification'] to a room whose payload has type
    [task_update], the processing time as timestamp, a title and a message,
    and [data] holding the task id, the event type and the task snapshot
    unchanged, with the new comment for [comment_added] and no comment
    otherwise. *)
Theorem notifications_share_payload (ev : event) (now : string) (t : task)
    (e : emission) :
  event_task ev = Some t ->
  e ∈ emitted ev now ->
  e = task_update_of ev t \/ well_formed_notification ev t now e.
Proof.
  intros Ht He.
  destruct (decide (enumerated (eventType ev))) as [Hen|Hen].
  - destruct (handleTaskEvent_well_formed ev now t Ht Hen) as (l & Hl & E).
    unfold emitted in He. rewrite (E []) in He. simpl in He.
    rewrite elem_of_app, list_elem_of_singleton in He.
    destruct He as [He|He]; [right|left; exact He].
    rewrite Forall_forall in Hl. apply Hl. exact He.
  - rewrite (emitted_other ev now (or_introl Hen)) in He.
    apply elem_of_nil in He. contradiction.
Qed.

Lemma notifications_share_payload_witness :
  exists e,
    e ∈ emitted comment_by_A noon /\
    well_formed_notification comment_by_A commented_task noon e.
Proof.
  assert (Hin : forall (x : emission) l, x ∈ x :: l)
    by (intros; apply elem_of_cons; auto).
  eexists. split; [apply Hin|].
  destruct (notifications_share_payload comment_by_A noon commented_task _
              eq_refl (Hin _ _)) as [H|H]; [discriminate H | exact H].
Defined.

(** On an event of the shape that task-service publishes, which is what
    the type [event] holds (a task snapshot whose [watchers] and [mentions]
    are absent or arrays of user references), [handleTaskEvent] returns
    whenever the task is present, whatever the type of the event and
    whichever of watchers, assignee, creator, comment and mentions the task
    lacks; without a task it throws before it has emitted anything; and
    earlier emissions are never retracted. Events whose [watchers] or
    [mentions] are not arrays, or hold [null], are not of that shape and
    are not covered: on them the code can throw after it has emitted. *)
Theorem published_event_with_task_is_processed (ev : event) (now : string)
    (out : io) :
  (is_returned (fst (handleTaskEvent ev now out)) = true <->
   event_task ev <> None) /\
  (event_task ev = None ->
   handleTaskEvent ev now out = (Thrown "TypeError", out)) /\
  snd (handleTaskEvent ev now out) = (out ++ emitted ev now)%list.
Proof.
  rewrite emitted_frame. cbn [fst snd]. split; [|split; [|reflexivity]].
  - destruct (event_task ev) as [t|] eqn:Ht.
    + split; [discriminate|]. intros _.
      destruct (decide (enumerated (eventType ev))) as [Hen|Hen].
      * destruct (handleTaskEvent_enumerated ev now t Ht Hen) as (l & _ & E).
        rewrite E. reflexivity.
      * unfold handleTaskEvent, enumerated in *. rewrite Ht.
        repeat case_bool_decide; tauto || reflexivity.
    + unfold handleTaskEvent. rewrite Ht. simpl. split; [discriminate|tauto].
  - intros Ht. unfold emitted, handleTaskEvent. rewrite Ht. simpl.
    rewrite app_nil_r. reflexivity.
Qed.

Lemma handleTaskEvent_returns (ev : event) (now : string) (out : io) :
  is_returned (fst (handleTaskEvent ev now out))
  = match event_task ev with Some _ => true | None => false end.
Proof.
  destruct (event_task ev) as [t|] eqn:Ht.
  - destruct (decide (enumerated (eventType ev))) as [Hen|Hen].
    + destruct (handleTaskEvent_enumerated ev now t Ht Hen) as (l & _ & E).
      rewrite E. reflexivity.
    + unfold handleTaskEvent, enumerated in *. rewrite Ht.
      repeat case_bool_decide; tauto || reflexivity.
  - unfold handleTaskEvent. rewrite Ht. reflexivity.
Qed.

Lemma processed_acceptable (msg : message) (now : string) (out : io) :
  processed msg now out = acceptable msg.
Proof.
  unfold processed, acceptable. destruct (msg_content msg); [|reflexivity].
  apply handleTaskEvent_returns.
Qed.

Lemma settle_last (msg : message) : settle msg [msg] = [].
Proof.
  unfold settle. rewrite filter_cons_False by tauto. reflexivity.
Qed.

Lemma consume_queue (clock : nat -> string) (q : list message) :
  forall (d dr : list message) (out : io),
    consume (length q) clock
      ({| ready := q; unacked := []; deliveries := d; dropped := dr |}, out)
    = (Returned tt,
       ({| ready := []; unacked := [];
           deliveries := (d ++ q)%list;
           dropped := (dr ++ filter (fun m => acceptable m = false) q)%list |},
        (out ++ concat (imap (fun i m => emitted_for m (clock (length d + i)%nat))
                          q))%list)).
Proof.
  induction q as [|m q IH]; intros d dr out.
  - simpl. unfold ret. rewrite !app_nil_r. reflexivity.
  - cbn [length consume]. unfold bind at 1. unfold deliver_next.
    cbn [fst snd ready unacked deliveries dropped].
    rewrite on_message_settles, processed_acceptable.
    cbn [app]. unfold ack, nack. cbn [fst snd ready unacked deliveries dropped].
    rewrite settle_last.
    replace (match msg_content m with
             | EventJson e => (out ++ emitted e (clock (length d)))%list
             | NotJson => out
             end)
      with (out ++ emitted_for m (clock (length d)))%list
      by (unfold emitted_for; destruct (msg_content m);
          rewrite ?app_nil_r; reflexivity).
    rewrite imap_cons. cbn [concat].
    replace (length d + 0)%nat with (length d) by lia.
    assert (Hshift :
      imap ((fun i x => emitted_for x (clock (length d + i)%nat)) ∘ S) q
      = imap (fun i x => emitted_for x (clock (length (d ++ [m]) + i)%nat)) q).
    { apply imap_ext. intros i x _. simpl. rewrite length_app. simpl.
      do 2 f_equal. lia. }
    rewrite Hshift.
    destruct (acceptable m) eqn:Ea.
    + rewrite IH, filter_cons_False by congruence.
      rewrite <- !app_assoc. cbn [app]. reflexivity.
    + rewrite IH, filter_cons_True by exact Ea.
      rewrite <- !app_assoc. cbn [app]. reflexivity.
Qed.

(** A consumer handed a queue of [n] messages on an idle channel makes [n]
    deliveries, in queue order, and ends with an empty queue and nothing
    left unacknowledged. The payloads are texts that do not parse or events
    of the shape that task-service publishes, which is what the type
    [event] holds; events whose [watchers] or [mentions] are not arrays of
    user references are not covered. On such a queue the dropped messages
    are those whose payload does not parse or carries no task, in order;
    what the others emit is sent in queue order. *)
Theorem consumer_drains_queue (clock : nat -> string) (q : list message)
    (out : io) :
  consume (length q) clock (idle_channel q, out)
  = (Returned tt,
     ({| ready := []; unacked := []; deliveries := q;
         dropped := filter (fun m => acceptable m = false) q |},
      (out ++ concat (imap (fun i m => emitted_for m (clock i)) q))%list)).
Proof.
  unfold idle_channel. rewrite consume_queue. reflexivity.
Qed.

(* ===================================================================== *)
(** ** Further properties of handlers/socketHandlers.js and server.js *)
(* ===================================================================== *)

(** [join:room] checks only that the name is a string shorter than 100: a
    session that asks for the user channel of somebody else, or for a role
    channel, is put in it, and from then on is in the audience of
    everything addressed to that room. *)
Theorem join_room_admits_any_channel (sid room : string)
    (rooms : gset string) (out : list packet) (e : emission) :
  (String.length room < 100)%nat ->
  em_to e = ToRoom room ->
  let w := snd (on_join_room sid (Some (JStr room)) (rooms, out)) in
  in_audience sid (fst w) (em_to e) = true /\
  rooms ⊆ fst w /\
  snd w = (out ++ [{| pk_route := Via (ToSocket sid);
                      pk_event := "room:joined";
                      pk_data := JObj [("room", JStr room)] |}])%list.
Proof.
  intros Hlen Hto w. unfold w, on_join_room.
  apply Nat.ltb_lt in Hlen. rewrite Hlen.
  unfold bind, on_fst, on_snd, join, send. cbn [fst snd].
  rewrite Hto. cbn [in_audience].
  split; [|split; [|reflexivity]].
  - apply bool_decide_eq_true. apply elem_of_union_l, elem_of_singleton.
    reflexivity.
  - apply union_subseteq_r.
Qed.

Lemma join_room_admits_any_channel_witness :
  in_audience "Xq3vT0aLw9"
    (fst (snd (on_join_room "Xq3vT0aLw9" (Some (JStr "user:U2")) (∅, []))))
    (ToRoom "user:U2") = true.
Proof.
  assert (Hlen : (String.length "user:U2" < 100)%nat) by (simpl; lia).
  exact (proj1 (join_room_admits_any_channel "Xq3vT0aLw9" "user:U2" ∅ []
                  (notification_to "user:U2"
                     (assignment_notification new_task_created new_task noon))
                  Hlen eq_refl)).
Defined.

(** A session that connects is put in its user room and its role room,
    next to the rooms it is in already (Socket.IO puts every session in the
    room of its socket id). After [leave:room] with the name of its own
    user channel it is no longer in the audience of notifications addressed
    to its user; it stays in its role room and in every other room. *)
Theorem leave_room_drops_own_channel (u : user) (sid : string)
    (rooms : gset string) (out : list packet) :
  let w1 := snd (on_connection u sid (rooms, out)) in
  let w2 := snd (on_leave_room sid (Some (JStr ("user:" +:+ user_id u))) w1) in
  (forall room,
     room ∈ fst w1 <->
     room = "user:" +:+ user_id u \/ room = "role:" +:+ user_role u \/
     room ∈ rooms) /\
  in_audience sid (fst w1) (ToRoom ("user:" +:+ user_id u)) = true /\
  in_audience sid (fst w2) (ToRoom ("user:" +:+ user_id u)) = false /\
  in_audience sid (fst w2) (ToRoom ("role:" +:+ user_role u)) = true /\
  (forall room,
     room <> "user:" +:+ user_id u -> (room ∈ fst w2 <-> room ∈ fst w1)).
Proof.
  intros w1 w2.
  assert (E1 : forall room,
             room ∈ fst w1 <->
             room = "user:" +:+ user_id u \/ room = "role:" +:+ user_role u \/
             room ∈ rooms).
  { intros room.
    unfold w1, on_connection, bind, on_fst, on_snd, join, send. cbn [fst snd].
    rewrite !elem_of_union, !elem_of_singleton. tauto. }
  assert (E2 : fst w2 = fst w1 ∖ {["user:" +:+ user_id u]}).
  { unfold w2, on_leave_room, bind, on_fst, on_snd, leave, send.
    destruct w1. reflexivity. }
  assert (Hne : "role:" +:+ user_role u <> "user:" +:+ user_id u)
    by (simpl; discriminate).
  split; [exact E1|]. cbn [in_audience]. rewrite E2.
  split; [|split; [|split]].
  - apply bool_decide_eq_true. apply E1. auto.
  - apply bool_decide_eq_false.
    rewrite elem_of_difference, elem_of_singleton. tauto.
  - apply bool_decide_eq_true.
    rewrite elem_of_difference, elem_of_singleton.
    split; [apply E1; auto|exact Hne].
  - intros room Hroom. rewrite elem_of_difference, elem_of_singleton. tauto.
Qed.

(** An instance: the session of alice, which Socket.IO has put in the room
    of its socket id, leaves [user:7]. *)
Example alice_leaves_her_user_channel :
  let w1 := snd (on_connection alice "Xq3vT0aLw9" ({["Xq3vT0aLw9"]}, [])) in
  let w2 := snd (on_leave_room "Xq3vT0aLw9" (Some (JStr "user:7")) w1) in
  in_audience "Xq3vT0aLw9" (fst w1) (ToRoom "user:7") = true /\
  in_audience "Xq3vT0aLw9" (fst w2) (ToRoom "user:7") = false /\
  in_audience "Xq3vT0aLw9" (fst w2) (ToRoom "role:team_member") = true /\
  in_audience "Xq3vT0aLw9" (fst w2) (ToRoom "Xq3vT0aLw9") = true.
Proof. vm_compute. repeat split. Qed.

Lemma object_id_Some (v : jsval) (taskId : string) :
  object_id v = Some taskId <->
  v = Some (JStr taskId) /\ String.length taskId = 24%nat.
Proof.
  unfold object_id. destruct v as [[| | |s| |]|]; try (split; [discriminate|]);
    try (intros [[=] _]).
  destruct (Nat.eqb_spec (String.length s) 24) as [Hl|Hl].
  - split; [intros [= <-]; auto | intros [[= <-] _]; reflexivity].
  - split; [discriminate | intros [[= <-] Hl']; contradiction].
Qed.

(** A typing indicator is sent once, to the room of the task and never
    back to the session that types, with the sender's identity taken from
    its authenticated user and [isTyping] coerced to a boolean. A payload
    whose [taskId] is not a 24-character string is ignored. *)
Theorem typing_goes_to_others_in_task_room (u : user) (sid : string)
    (fields : list (string * json)) (out : list packet) :
  (forall taskId,
     assoc "taskId" fields = Some (JStr taskId) ->
     String.length taskId = 24%nat ->
     exists p,
       on_task_typing u sid (Some (JObj fields)) out
       = (Returned tt, (out ++ [p])%list) /\
       pk_route p = RoomExcept ("task:" +:+ taskId) sid /\
       pk_event p = "task:user_typing" /\
       pk_data p
       = JObj [("userId", JStr (user_id u)); ("email", JStr (user_email u));
               ("taskId", JStr taskId);
               ("isTyping", JBool (js_truthy (assoc "isTyping" fields)))] /\
       (forall rooms, hears sid rooms (pk_route p) = false) /\
       (forall other rooms,
          other <> sid ->
          hears other rooms (pk_route p)
          = bool_decide ("task:" +:+ taskId ∈ rooms))) /\
  (object_id (assoc "taskId" fields) = None ->
   on_task_typing u sid (Some (JObj fields)) out = (Returned tt, out)).
Proof.
  split.
  - intros taskId Hid Hlen. eexists. unfold on_task_typing, bind, destructure.
    cbn [ret prop].
    assert (Ho : object_id (assoc "taskId" fields) = Some taskId)
      by (apply object_id_Some; auto).
    unfold ret. cbn [prop]. rewrite Ho.
    split; [reflexivity|]. cbn [pk_route pk_event pk_data hears].
    split; [reflexivity|]. split; [reflexivity|]. split; [reflexivity|].
    split.
    + intros rooms. rewrite (bool_decide_eq_true_2 (sid = sid)) by reflexivity.
      apply andb_false_r.
    + intros other rooms Hne.
      rewrite (bool_decide_eq_false_2 (sid = other)) by congruence.
      apply andb_true_r.
  - intros Hnone. unfold on_task_typing, bind, destructure, ret. cbn [prop].
    rewrite Hnone. reflexivity.
Qed.

Lemma typing_goes_to_others_in_task_room_witness :
  exists p,
    on_task_typing alice "Xq3vT0aLw9" typing_payload []
    = (Returned tt, [p]) /\
    pk_route p = RoomExcept "task:65f1c0ffee0123456789abcd" "Xq3vT0aLw9".
Proof.
  destruct (proj1 (typing_goes_to_others_in_task_room alice "Xq3vT0aLw9"
                     [("taskId", JStr "65f1c0ffee0123456789abcd");
                      ("isTyping", JNum 1)] [])
              "65f1c0ffee0123456789abcd" eq_refl eq_refl)
    as (p & E & R & _).
  exists p. split; [exact E | exact R].
Defined.

(** The handlers that destructure their payload throw when the client
    sends the event without one (or with [null]): [task:typing],
    [message:direct] and [task:activity] raise a TypeError before sending
    anything, while [custom:event], which tests [data] first, returns. *)
Theorem handlers_throw_without_payload (u : user) (sid now : string)
    (data : jsval) (out : list packet) :
  data = None \/ data = Some JNull ->
  on_task_typing u sid data out = (Thrown "TypeError", out) /\
  on_message_direct u sid data now out = (Thrown "TypeError", out) /\
  on_task_activity u sid data now out = (Thrown "TypeError", out) /\
  on_custom_event sid data now out = (Returned tt, out).
Proof.
  intros [-> | ->]; repeat split; reflexivity.
Qed.

Lemma handlers_throw_without_payload_witness :
  on_message_direct alice "Xq3vT0aLw9" None noon []
  = (Thrown "TypeError", []).
Proof.
  exact (proj1 (proj2 (handlers_throw_without_payload alice "Xq3vT0aLw9" noon
                         None [] (or_introl eq_refl)))).
Defined.

(** A direct message with string [recipientId] and [message] produces
    exactly two packets: [message:received] for the room of the recipient,
    whose [from] is the authenticated sender whatever the payload says,
    and [message:sent] back to the sender with the same timestamp. The
    confirmation does not depend on the recipient being connected. When
    either field is not a string nothing is sent. *)
Theorem direct_message_packets (u : user) (sid now : string)
    (fields : list (string * json)) (out : list packet) :
  (forall recipientId message,
     assoc "recipientId" fields = Some (JStr recipientId) ->
     assoc "message" fields = Some (JStr message) ->
     on_message_direct u sid (Some (JObj fields)) now out
     = (Returned tt,
        (out ++
         [{| pk_route := Via (ToRoom ("user:" +:+ recipientId));
             pk_event := "message:received";
             pk_data :=
               JObj [("from", JObj [("userId", JStr (user_id u));
                                    ("email", JStr (user_email u))]);
                     ("message", JStr message);
                     ("type", match assoc "type" fields with
                              | Some ty => ty
                              | None => JStr "text"
                              end);
                     ("timestamp", JStr now)] |};
          {| pk_route := Via (ToSocket sid);
             pk_event := "message:sent";
             pk_data :=
               JObj [("recipientId", JStr recipientId);
                     ("message", JStr message);
                     ("timestamp", JStr now)] |}])%list)) /\
  ((forall s, assoc "recipientId" fields <> Some (JStr s)) \/
   (forall s, assoc "message" fields <> Some (JStr s)) ->
   on_message_direct u sid (Some (JObj fields)) now out = (Returned tt, out)).
Proof.
  split.
  - intros rid msg Hr Hm. unfold on_message_direct, bind, destructure, ret.
    cbn [prop]. rewrite Hr, Hm. unfold send, obj.
    destruct (assoc "type" fields); cbn; rewrite <- app_assoc; reflexivity.
  - intros Hbad. unfold on_message_direct, bind, destructure, ret.
    cbn [prop].
    destruct (assoc "recipientId" fields) as [[| | |r| |]|];
      try reflexivity;
      destruct (assoc "message" fields) as [[| | |m| |]|];
      try reflexivity.
    destruct Hbad as [H|H]; [destruct (H r) | destruct (H m)]; reflexivity.
Qed.

Lemma direct_message_packets_witness :
  map pk_event
    (snd (on_message_direct alice "Xq3vT0aLw9"
            (Some (JObj [("recipientId", JStr "8"); ("message", JStr "hi");
                         ("from", JStr "somebody else")])) noon []))
  = ["message:received"; "message:sent"].
Proof.
  rewrite (proj1 (direct_message_packets alice "Xq3vT0aLw9" noon
                    [("recipientId", JStr "8"); ("message", JStr "hi");
                     ("from", JStr "somebody else")] [])
             "8" "hi" eq_refl eq_refl).
  reflexivity.
Defined.

(** [user:presence] is relayed only for the statuses [online], [away] and
    [busy], to every session except the sender's; any other value, string
    or not, is dropped without an answer. *)
Theorem presence_update_is_filtered (u : user) (sid : string)
    (status : jsval) (out : list packet) :
  (forall s, status = Some (JStr s) ->
     s = "online" \/ s = "away" \/ s = "busy" ->
     exists p,
       on_user_presence u sid status out = (Returned tt, (out ++ [p])%list) /\
       pk_route p = Others sid /\
       pk_data p = JObj [("userId", JStr (user_id u));
                         ("email", JStr (user_email u));
                         ("status", JStr s)] /\
       (forall rooms, hears sid rooms (pk_route p) = false) /\
       (forall other rooms, other <> sid ->
                            hears other rooms (pk_route p) = true)) /\
  ((forall s, status = Some (JStr s) ->
              s <> "online" /\ s <> "away" /\ s <> "busy") ->
   on_user_presence u sid status out = (Returned tt, out)).
Proof.
  split.
  - intros s -> Hs. eexists. unfold on_user_presence, presence_status.
    rewrite bool_decide_eq_true_2
      by (rewrite !elem_of_cons; destruct Hs as [->|[->| ->]]; auto).
    split; [reflexivity|]. cbn [pk_route pk_data hears].
    split; [reflexivity|]. split; [reflexivity|]. split.
    + intros _. rewrite (bool_decide_eq_true_2 (sid = sid)) by reflexivity.
      reflexivity.
    + intros other _ Hne.
      rewrite (bool_decide_eq_false_2 (sid = other)) by congruence.
      reflexivity.
  - intros Hbad. unfold on_user_presence, presence_status.
    destruct status as [[| | |s| |]|]; try reflexivity.
    destruct (Hbad s eq_refl) as (H1 & H2 & H3).
    rewrite bool_decide_eq_false_2; [reflexivity|].
    rewrite !elem_of_cons, elem_of_nil. tauto.
Qed.

Lemma presence_update_is_filtered_witness :
  exists p,
    on_user_presence alice "Xq3vT0aLw9" (Some (JStr "away")) []
    = (Returned tt, [p]) /\ pk_route p = Others "Xq3vT0aLw9".
Proof.
  destruct (proj1 (presence_update_is_filtered alice "Xq3vT0aLw9"
                     (Some (JStr "away")) [])
              "away" eq_refl (or_intror (or_introl eq_refl)))
    as (p & E & R & _).
  exists p. split; [exact E | exact R].
Defined.

(** [clear:offline_notifications] always answers [notifications:cleared],
    whatever the store did: with a reachable store the queue is then
    empty, but with no client or an unreachable store the same
    confirmation is sent although nothing was cleared. *)
Theorem clear_is_always_confirmed {W : Type}
    (client : option (RedisClient W)) (usr : user) (socket : Socket)
    (w : W) (r : redis) (out : io) :
  (exists w',
     on_clear_offline_notifications client usr socket (w, out)
     = (Returned tt,
        (w', (out ++ [{| em_to := ToSocket (socket_id socket);
                         em_event := "notifications:cleared";
                         em_payload := PNothing |}])%list))) /\
  on_clear_offline_notifications (Some (unreachable redis)) usr socket (r, out)
  = (Returned tt,
     (r, (out ++ [{| em_to := ToSocket (socket_id socket);
                     em_event := "notifications:cleared";
                     em_payload := PNothing |}])%list)) /\
  offline_queue
    (fst (snd (on_clear_offline_notifications (Some live) usr socket (r, out))))
    (user_id usr) = Some [].
Proof.
  split; [|split].
  - unfold on_clear_offline_notifications, try_catch, bind, on_fst, on_snd.
    cbn [fst snd].
    destruct (clearOfflineNotifications_never_throws client (user_id usr) w)
      as ([] & w' & ->).
    exists w'. reflexivity.
  - reflexivity.
  - unfold on_clear_offline_notifications, try_catch, bind, on_fst, on_snd.
    cbn [fst snd]. rewrite clearOfflineNotifications_live. cbn [fst snd].
    unfold offline_queue, emit. cbn [fst snd drop_key keyspace].
    rewrite lookup_delete_eq. reflexivity.
Qed.

(** Typing indicators follow task subscriptions: a session hears another
    session's typing on a task exactly from [join:task] until
    [leave:task] for that task. *)
Theorem task_room_subscription (typist listener taskId : string)
    (rooms : gset string) (out : list packet) :
  String.length taskId = 24%nat ->
  typist <> listener ->
  "task:" +:+ taskId ∉ rooms ->
  let typing := RoomExcept ("task:" +:+ taskId) typist in
  let w1 := snd (on_join_task listener (Some (JStr taskId)) (rooms, out)) in
  let w2 := snd (on_leave_task listener (Some (JStr taskId)) w1) in
  hears listener rooms typing = false /\
  hears listener (fst w1) typing = true /\
  hears listener (fst w2) typing = false /\
  fst w2 = rooms.
Proof.
  intros Hlen Hne Hnot typing w1 w2.
  assert (Ho : object_id (Some (JStr taskId)) = Some taskId)
    by (apply object_id_Some; auto).
  assert (E1 : fst w1 = {["task:" +:+ taskId]} ∪ rooms).
  { unfold w1, on_join_task. rewrite Ho. reflexivity. }
  assert (E2 : fst w2 = fst w1 ∖ {["task:" +:+ taskId]}).
  { unfold w2, on_leave_task. rewrite Ho. destruct w1. reflexivity. }
  assert (E3 : fst w2 = rooms).
  { rewrite E2, E1. apply set_eq. intros x.
    rewrite elem_of_difference, elem_of_union, elem_of_singleton.
    split; [tauto|]. intros Hx. split; [auto|]. intros ->. contradiction. }
  unfold typing, hears.
  rewrite (bool_decide_eq_false_2 (typist = listener)) by exact Hne.
  rewrite E3, E1, !andb_true_r.
  split; [apply bool_decide_eq_false_2; exact Hnot|].
  split; [|split; [apply bool_decide_eq_false_2; exact Hnot | reflexivity]].
  apply bool_decide_eq_true_2, elem_of_union_l, elem_of_singleton. reflexivity.
Qed.

Lemma task_room_subscription_witness :
  hears "Zk81mPq0Ds"
    (fst (snd (on_join_task "Zk81mPq0Ds"
                 (Some (JStr "65f1c0ffee0123456789abcd")) (∅, []))))
    (RoomExcept "task:65f1c0ffee0123456789abcd" "Xq3vT0aLw9") = true.
Proof.
  assert (H1 : String.length "65f1c0ffee0123456789abcd" = 24%nat)
    by reflexivity.
  assert (H2 : "Xq3vT0aLw9" <> "Zk81mPq0Ds") by discriminate.
  assert (H3 : "task:" +:+ "65f1c0ffee0123456789abcd" ∉ (∅ : gset string))
    by apply not_elem_of_empty.
  exact (proj1 (proj2 (task_room_subscription "Xq3vT0aLw9" "Zk81mPq0Ds"
                         "65f1c0ffee0123456789abcd" ∅ [] H1 H2 H3))).
Defined.

Lemma push_connected_users_length (time_of : Socket -> string)
    (sockets : list Socket) :
  forall acc,
    length (push_connected_users time_of sockets acc)
    = (length acc + length (authenticated sockets))%nat.
Proof.
  unfold authenticated.
  induction sockets as [|c sockets IH]; intros acc; simpl; [lia|].
  destruct (socket_user c) as [u|] eqn:Hu.
  - rewrite IH, length_app, filter_cons_True by (rewrite Hu; eauto).
    simpl. lia.
  - rewrite IH, filter_cons_False; [reflexivity|].
    rewrite Hu. intros [x Hx]. discriminate Hx.
Qed.

Lemma filter_iff_on {A} (P1 P2 : A -> Prop)
    `{!forall x, Decision (P1 x), !forall x, Decision (P2 x)} (l : list A) :
  (forall x, x ∈ l -> (P1 x <-> P2 x)) -> filter P1 l = filter P2 l.
Proof.
  induction l as [|a l IH]; intros Hiff; [reflexivity|].
  assert (Ha : P1 a <-> P2 a) by (apply Hiff, elem_of_cons; auto).
  assert (Hl : filter P1 l = filter P2 l)
    by (apply IH; intros x Hx; apply Hiff, elem_of_cons; auto).
  destruct (decide (P1 a)).
  - rewrite !filter_cons_True by tauto. rewrite Hl. reflexivity.
  - rewrite !filter_cons_False by tauto. exact Hl.
Qed.

Lemma other_sessions_count (socket : Socket) (sockets : list Socket) :
  NoDup (map socket_id sockets) ->
  socket ∈ sockets ->
  is_Some (socket_user socket) ->
  length (authenticated sockets)
  = S (length (other_sessions socket sockets)).
Proof.
  unfold authenticated, other_sessions.
  induction sockets as [|c sockets IH]; intros Hnd Hin Hauth.
  - apply elem_of_nil in Hin. contradiction.
  - cbn [map] in Hnd. apply NoDup_cons in Hnd as [Hc Hnd].
    apply elem_of_cons in Hin as [<-|Hin].
    + rewrite filter_cons_True by exact Hauth.
      rewrite filter_cons_False by tauto. simpl. f_equal.
      f_equal. apply filter_iff_on.
      intros x Hx. split; [|tauto]. intros Hs. split; [exact Hs|].
      intros Heq. apply Hc. rewrite <- Heq.
      apply list_elem_of_fmap_2. exact Hx.
    + assert (Hid : socket_id c <> socket_id socket).
      { intros Heq. apply Hc. rewrite Heq.
        apply list_elem_of_fmap_2. exact Hin. }
      destruct (decide (is_Some (socket_user c))) as [Ha|Ha].
      * rewrite !filter_cons_True by tauto. simpl.
        rewrite (IH Hnd Hin Hauth). reflexivity.
      * rewrite !filter_cons_False by tauto. apply IH; assumption.
Qed.

(** [/users/online] and [get:online_users] scan the same registry: for an
    authenticated session in a registry with distinct socket ids, the
    HTTP count is one more than the number of entries that session gets
    from [get:online_users], the difference being the session itself. *)
Theorem users_online_counts_requester (time_of : Socket -> string)
    (socket : Socket) (sockets : list Socket) :
  NoDup (map socket_id sockets) ->
  socket ∈ sockets ->
  is_Some (socket_user socket) ->
  exists users,
    users_online time_of sockets
    = {| res_status := 200;
         res_body := JObj [("count", JNum (Z.of_nat (length users)));
                           ("users", JArr users)] |} /\
    length users = length (authenticated sockets) /\
    length users = S (length (push_online_users socket sockets [])).
Proof.
  intros Hnd Hin Hauth.
  exists (push_connected_users time_of sockets []).
  split; [reflexivity|].
  rewrite push_connected_users_length. simpl.
  split; [reflexivity|].
  destruct (push_online_users_spec socket sockets []) as (entries & E & F).
  rewrite E. simpl. rewrite <- (Forall2_length _ _ _ F).
  apply other_sessions_count; assumption.
Qed.

Lemma users_online_counts_requester_witness :
  exists users,
    users_online (fun _ => noon) [alice_socket; bob_socket]
    = {| res_status := 200;
         res_body := JObj [("count", JNum (Z.of_nat (length users)));
                           ("users", JArr users)] |} /\
    length users = length (authenticated [alice_socket; bob_socket]) /\
    length users
    = S (length (push_online_users alice_socket [alice_socket; bob_socket] [])).
Proof.
  apply users_online_counts_requester.
  - apply NoDup_cons. split.
    + rewrite list_elem_of_singleton. discriminate.
    + apply NoDup_singleton.
  - apply elem_of_cons. auto.
  - eexists. reflexivity.
Defined.

(** The three notify endpoints answer 400 or 200, and the answer tells what
    was done: a 400 has emitted nothing, a 200 has emitted exactly one
    ['notification'] built from the body, with [data] replaced by an empty
    object when it is absent or falsy. The answer is 200 exactly when
    [type], [title] and [message] are all truthy (and, for the role
    endpoint, the role is one of the three known roles); the role is
    checked first. *)
Theorem notify_endpoints_report_what_they_did (userId role now : string)
    (b : notify_body) (clients : Z) (out : list packet) :
  let sent to :=
    (out ++ [{| pk_route := Via to; pk_event := "notification";
                pk_data := http_notification b now |}])%list in
  let known := bool_decide (role ∈ ["admin"; "project_manager"; "team_member"]) in
  (exists resp,
     notify_user userId b now out
     = (Returned resp,
        if missing_fields b then out else sent (ToRoom ("user:" +:+ userId))) /\
     res_status resp = if missing_fields b then 400 else 200) /\
  (exists resp,
     notify_role role b now out
     = (Returned resp,
        if known && negb (missing_fields b)
        then sent (ToRoom ("role:" +:+ role)) else out) /\
     res_status resp = (if known && negb (missing_fields b) then 200 else 400) /\
     (known = false ->
      res_body resp = JObj [("error", JStr "Invalid role")])) /\
  (exists resp,
     notify_broadcast b now clients out
     = (Returned resp, if missing_fields b then out else sent ToAll) /\
     res_status resp = if missing_fields b then 400 else 200).
Proof.
  intros sent known. unfold notify_user, notify_role, notify_broadcast.
  fold known. unfold sent, bind, ret, send.
  destruct (missing_fields b), known; cbn [negb andb];
    repeat split; eexists; repeat split; discriminate || reflexivity.
Qed.

(* ===================================================================== *)
(** ** Properties of middleware/auth.js *)
(* ===================================================================== *)

Lemma split_spaces_word (s : string) :
  has_space s = false -> split_spaces s = [s].
Proof.
  induction s as [|c s IH]; [reflexivity|]. simpl.
  case_bool_decide; [discriminate|]. simpl. intros Hs.
  rewrite (IH Hs). reflexivity.
Qed.

Lemma split_spaces_first (s rest : string) :
  has_space s = false ->
  split_spaces (s +:+ " " +:+ rest) = s :: split_spaces rest.
Proof.
  induction s as [|c s IH]; [reflexivity|]. simpl.
  case_bool_decide; [discriminate|]. simpl. intros Hs.
  simpl in IH. rewrite (IH Hs). reflexivity.
Qed.

(** Where the token comes from: a non-empty [handshake.auth.token] wins
    over the header; otherwise it is the second space-separated field of
    the [authorization] header, whatever the first field says, so a header
    without a space carries no token. *)
Theorem presented_token_source (h : handshake) :
  (forall t, auth_token h = Some t -> t <> EmptyString ->
             presented_token h = Some t) /\
  (forall scheme token,
     auth_token h = None \/ auth_token h = Some EmptyString ->
     authorization h = Some (scheme +:+ " " +:+ token) ->
     has_space scheme = false -> has_space token = false ->
     presented_token h = Some token) /\
  (forall a,
     auth_token h = None \/ auth_token h = Some EmptyString ->
     authorization h = Some a -> has_space a = false ->
     presented_token h = None).
Proof.
  unfold presented_token, truthy. split; [|split].
  - intros t -> Ht. rewrite bool_decide_eq_false_2 by exact Ht. reflexivity.
  - intros scheme token Hauth -> Hs Ht.
    rewrite (split_spaces_first scheme token Hs), (split_spaces_word token Ht).
    destruct Hauth as [-> | ->]; reflexivity.
  - intros a Hauth -> Ha. rewrite (split_spaces_word a Ha).
    destruct Hauth as [-> | ->]; reflexivity.
Qed.

Lemma presented_token_source_witness :
  presented_token {| auth_token := None;
                     authorization := Some "Basic abc.def.ghi" |}
  = Some "abc.def.ghi".
Proof.
  exact (proj1 (proj2 (presented_token_source
                         {| auth_token := None;
                            authorization := Some "Basic abc.def.ghi" |}))
           "Basic" "abc.def.ghi" (or_introl eq_refl) eq_refl eq_refl eq_refl).
Defined.

(** A socket is admitted exactly when it presents a non-empty token that
    [jwt.verify] accepts, and [socket.user] is then the decoded id, email
    and role. Without a token the refusal is "Authentication token
    required"; with a token that does not verify it is "Invalid or expired
    token". *)
Theorem socket_admitted_iff_token_verifies (jwt_verify : string -> option user)
    (h : handshake) (u : user) :
  (authenticateSocket jwt_verify h = Accepted u <->
   exists token, presented_token h = Some token /\ token <> EmptyString /\
                 jwt_verify token = Some u) /\
  (authenticateSocket jwt_verify h = Refused "Authentication token required" <->
   presented_token h = None \/ presented_token h = Some EmptyString) /\
  (authenticateSocket jwt_verify h = Refused "Invalid or expired token" <->
   exists token, presented_token h = Some token /\ token <> EmptyString /\
                 jwt_verify token = None).
Proof.
  unfold authenticateSocket, truthy.
  destruct (presented_token h) as [token|].
  - case_bool_decide as Ht; cbn [negb].
    + subst token. split; [|split].
      * split; [discriminate|]. intros (t & [= <-] & Hne & _). contradiction.
      * split; auto.
      * split; [discriminate|]. intros (t & [= <-] & Hne & _). contradiction.
    + destruct (jwt_verify token) as [[i e r]|] eqn:Hv; cbn.
      * split; [|split].
        -- split.
           ++ intros [= <-]. exists token. auto.
           ++ intros (t & [= <-] & _ & Hu). rewrite Hv in Hu.
              injection Hu as <-. reflexivity.
        -- split; [discriminate|]. intros [H|[= H]]; [discriminate|].
           contradiction.
        -- split; [discriminate|]. intros (t & [= <-] & _ & Hu).
           rewrite Hv in Hu. discriminate.
      * split; [|split].
        -- split; [discriminate|]. intros (t & [= <-] & _ & Hu).
           rewrite Hv in Hu. discriminate.
        -- split; [discriminate|]. intros [H|[= H]]; [discriminate|].
           contradiction.
        -- split; [|reflexivity]. intros _. exists token. auto.
  - split; [|split].
    + split; [discriminate|]. intros (t & [=] & _).
    + split; auto.
    + split; [discriminate|]. intros (t & [=] & _).
Qed.

(* ===================================================================== *)
(** ** Properties of models/Task.js *)
(* ===================================================================== *)

Lemma isWatching_elem (uid : string) (ws : list user_ref) :
  isWatching uid ws = true <-> uid ∈ map ref_userId ws.
Proof.
  unfold isWatching. induction ws as [|w ws IH]; simpl.
  - rewrite elem_of_nil. split; [discriminate|tauto].
  - rewrite elem_of_cons, orb_true_iff, IH, bool_decide_eq_true.
    split; intros [H|H]; auto.
Qed.

(** Watcher maintenance: [addWatcher] makes the user a watcher, changes
    nothing when the user already watches (so it never creates a second
    entry with the same id and is idempotent), and keeps the ids distinct;
    [removeWatcher] removes every entry with the id and undoes an
    [addWatcher] of a user who was not watching. *)
Theorem watchers_add_remove (u : user_ref) (ws : list user_ref) :
  isWatching (ref_userId u) (addWatcher u ws) = true /\
  addWatcher u (addWatcher u ws) = addWatcher u ws /\
  (isWatching (ref_userId u) ws = true -> addWatcher u ws = ws) /\
  (NoDup (map ref_userId ws) -> NoDup (map ref_userId (addWatcher u ws))) /\
  isWatching (ref_userId u) (removeWatcher (ref_userId u) ws) = false /\
  (isWatching (ref_userId u) ws = false ->
   removeWatcher (ref_userId u) (addWatcher u ws) = ws).
Proof.
  assert (Hadd : isWatching (ref_userId u) (addWatcher u ws) = true).
  { unfold addWatcher. destruct (isWatching (ref_userId u) ws) eqn:E;
      [exact E|].
    apply isWatching_elem. rewrite map_app, elem_of_app. right.
    apply elem_of_cons. left. reflexivity. }
  assert (Hkeep : forall l, isWatching (ref_userId u) l = false ->
                            removeWatcher (ref_userId u) l = l).
  { intros l Hl. unfold removeWatcher. induction l as [|w l IH];
      [reflexivity|].
    simpl in Hl. apply orb_false_iff in Hl as [Hw Hl].
    apply bool_decide_eq_false in Hw.
    rewrite filter_cons_True by exact Hw. rewrite (IH Hl). reflexivity. }
  repeat match goal with |- _ /\ _ => split end.
  - exact Hadd.
  - unfold addWatcher at 1. rewrite Hadd. reflexivity.
  - intros Hw. unfold addWatcher. rewrite Hw. reflexivity.
  - intros Hnd. unfold addWatcher.
    destruct (isWatching (ref_userId u) ws) eqn:E; [exact Hnd|].
    rewrite map_app. apply NoDup_app. split; [exact Hnd|]. split.
    + intros x Hx Hx'. apply list_elem_of_singleton in Hx'. subst x.
      cbn [ref_userId] in Hx. apply isWatching_elem in Hx. congruence.
    + apply NoDup_singleton.
  - destruct (isWatching (ref_userId u) (removeWatcher (ref_userId u) ws))
      eqn:E; [|reflexivity].
    apply isWatching_elem, list_elem_of_fmap in E as (w & Hw & Hin).
    unfold removeWatcher in Hin. apply list_elem_of_filter in Hin as [Hne _].
    congruence.
  - intros Hw. unfold addWatcher. rewrite Hw. unfold removeWatcher.
    rewrite filter_app. fold (removeWatcher (ref_userId u) ws).
    rewrite (Hkeep ws Hw), filter_cons_False by (simpl; tauto).
    apply app_nil_r.
Qed.

(** Whoever may edit a task may view it; and a team member who is only a
    watcher of the task may view it but not edit it. *)
Theorem canEdit_implies_canView (t : task) (u : user) :
  (canEdit t u = true -> canView t u = true) /\
  (user_role u <> "admin" -> user_role u <> "project_manager" ->
   is_user (createdBy t) u = false -> is_user (assignedTo t) u = false ->
   canEdit t u = false /\
   canView t u = isWatching (user_id u) (watchers_of t)).
Proof.
  unfold canEdit, canView. split.
  - repeat case_bool_decide; try reflexivity.
    intros Hedit. rewrite Hedit. reflexivity.
  - intros Ha Hp Hc Hs.
    rewrite !bool_decide_eq_false_2 by assumption. rewrite Hc, Hs.
    split; reflexivity.
Qed.

Lemma canEdit_implies_canView_witness :
  canView fix_bug {| user_id := "C"; user_email := "C@taskflow.com";
                     user_role := "team_member" |} = true.
Proof.
  exact (proj1 (canEdit_implies_canView fix_bug
                  {| user_id := "C"; user_email := "C@taskflow.com";
                     user_role := "team_member" |}) eq_refl).
Defined.
